(** * Taxi telemetry pipeline: producer, enrichment stage, fare and persistence stage

    A shallow embedding of [producer.py], [lambda_functions/enrich_trip_data.py]
    and [lambda_functions/process_and_store.py].

    - Python values that come out of [json.loads] or [csv.DictReader] are the
      inductive [value]; a dict with string keys is a [gmap string value]. A
      str is a text of code points below 256, or such a text around one lone
      surrogate.
    - Python floats are IEEE binary64, here the primitive [float]; [round(x, 2)]
      is computed exactly ([round2]).
    - Exceptions are explicit: fallible code returns [result A]; a [try] /
      [except] is [try_except].
    - AWS calls are oracles that take the state of the outside world and
      answer with a result; the world records what the calls left behind.
    - [print] writes to a stdout that is UTF-8 and raises UnicodeEncodeError on
      a lone surrogate; the lines of the producer are kept in its log. *)

From Stdlib Require Import ZArith Ascii String Floats.PrimFloat Floats.SpecFloat Floats.FloatOps.
From stdpp Require Import gmap strings pretty list.

Set Warnings "-register-all".
Open Scope Z_scope.

(** ** Exceptions and fallible computations *)

Inductive exn :=
| ValueError | TypeError | OverflowError | KeyError | AttributeError
| JSONDecodeError | UnicodeDecodeError | UnicodeEncodeError | InvalidOperation
| FileNotFoundError | ClientError.

Definition exn_eqb (a b : exn) : bool :=
  match a, b with
  | ValueError, ValueError | TypeError, TypeError
  | OverflowError, OverflowError | KeyError, KeyError
  | AttributeError, AttributeError | JSONDecodeError, JSONDecodeError
  | UnicodeDecodeError, UnicodeDecodeError
  | UnicodeEncodeError, UnicodeEncodeError
  | InvalidOperation, InvalidOperation
  | FileNotFoundError, FileNotFoundError | ClientError, ClientError => true
  | _, _ => false
  end.

(** [isinstance e cls]: [JSONDecodeError], [UnicodeDecodeError] and
    [UnicodeEncodeError] derive from [ValueError]; the other classes modelled
    here are unrelated. *)
Definition isinstance (e cls : exn) : bool :=
  exn_eqb e cls ||
  match e, cls with
  | JSONDecodeError, ValueError | UnicodeDecodeError, ValueError
  | UnicodeEncodeError, ValueError => true
  | _, _ => false
  end.

Inductive result (A : Type) :=
| Ok (a : A)
| Raise (e : exn).
Arguments Ok {A} a.
Arguments Raise {A} e.

#[global] Instance result_ret : MRet result := λ A a, Ok a.
#[global] Instance result_bind : MBind result := λ A B f m,
  match m with
  | Ok a => f a
  | Raise e => Raise e
  end.

(** [try: body except (classes): handler] *)
Definition try_except {A} (body : result A) (classes : list exn) (handler : result A)
  : result A :=
  match body with
  | Ok a => Ok a
  | Raise e => if existsb (isinstance e) classes then handler else Raise e
  end.

(** ** Values

    [JStr s] is a str whose characters are code points below 256.
    [JSurrogate before after] is the str [before + '\ud800' + after]: two such
    texts around the lone surrogate that [json.loads] makes of the escape
    [\ud800]. An int has at most 4300 digits: [json.loads] and [int] read no
    longer one. *)

Inductive value :=
| JNull
| JBool (b : bool)
| JInt (z : Z)
| JFloat (f : float)
| JStr (s : string)
| JSurrogate (before after : string)
| JArr (l : list value)
| JObj (m : gmap string value).

(** [d.get(k)] and [d.get(k, default)] *)
Definition dict_get (d : gmap string value) (k : string) : value :=
  default JNull (d !! k).
Definition dict_get_default (d : gmap string value) (k : string) (dflt : value) : value :=
  default dflt (d !! k).

(** [d[k]] *)
Definition dict_item (d : gmap string value) (k : string) : result value :=
  match d !! k with
  | Some v => Ok v
  | None => Raise KeyError
  end.

(** [d.setdefault(k, v)] *)
Definition setdefault (k : string) (v : value) (d : gmap string value)
  : gmap string value :=
  match d !! k with
  | Some _ => d
  | None => <[k := v]> d
  end.

(** [v.get], defined for a dict only *)
Definition as_dict (v : value) : result (gmap string value) :=
  match v with
  | JObj m => Ok m
  | _ => Raise AttributeError
  end.

(** Truth value of [v] in a boolean context. *)
Definition truthy (v : value) : bool :=
  match v with
  | JNull => false
  | JBool b => b
  | JInt z => negb (z =? 0)
  | JFloat f => negb (is_zero f)
  | JStr s => negb (String.eqb s "")
  | JSurrogate _ _ => true
  | JArr l => negb (bool_decide (l = []))
  | JObj m => negb (bool_decide (m = ∅))
  end.

(** ** Strings *)

(** [pat in s] on two strings *)
Fixpoint contains (pat s : string) : bool :=
  String.prefix pat s ||
  match s with
  | EmptyString => false
  | String _ s' => contains pat s'
  end.

Definition is_JStr (pat : string) (v : value) : bool :=
  match v with
  | JStr s => String.eqb s pat
  | _ => false
  end.

(** [s.lstrip(chars)], [s.rstrip(chars)] and [s.strip(chars)], with [p] the
    test of being one of [chars]. *)
Fixpoint lstrip (p : ascii → bool) (s : string) : string :=
  match s with
  | EmptyString => EmptyString
  | String c s' => if p c then lstrip p s' else s
  end.

Fixpoint rstrip (p : ascii → bool) (s : string) : string :=
  match s with
  | EmptyString => EmptyString
  | String c s' =>
      let r := rstrip p s' in
      if p c && String.eqb r "" then EmptyString else String c r
  end.

Definition strip (p : ascii → bool) (s : string) : string := rstrip p (lstrip p s).

(** The white space below U+0100, which [str.strip()] removes. *)
Definition is_space (c : ascii) : bool :=
  let n := N_of_ascii c in
  (((9 <=? n) && (n <=? 13)) || ((28 <=? n) && (n <=? 32)) || (n =? 133) || (n =? 160))%N.

(** [pat in v], for a [pat] of code points below 256: substring test on a
    str, membership on a list, key membership on a dict, TypeError on the
    values that are not iterable. *)
Definition py_in (pat : string) (v : value) : result bool :=
  match v with
  | JStr s => Ok (contains pat s)
  | JSurrogate before after => Ok (contains pat before || contains pat after)
  | JArr l => Ok (existsb (is_JStr pat) l)
  | JObj m => Ok (bool_decide (is_Some (m !! pat)))
  | JNull | JBool _ | JInt _ | JFloat _ => Raise TypeError
  end.

(** ** Floats *)

Module PyFloat.

  (** [n / 2^k] rounded to the nearest integer, ties to even; [n >= 0]. *)
Definition rne_div (n : Z) (k : positive) : Z :=
    let d := Z.pow_pos 2 k in
    let q := n / d in
    let r := n mod d in
    match Z.compare (2 * r) d with
    | Lt => q
    | Gt => q + 1
    | Eq => if Z.even q then q else q + 1
    end.

  (** The binary64 nearest to [p / 100], signed by [s]. *)
Definition hundredths (s : bool) (p : Z) : spec_float :=
    match p with
    | Zpos p' => SFdiv prec emax (S754_finite s p' 0) (S754_finite false 100 0)
    | _ => S754_zero s
    end.

  (** [round(x, 2)] on a float: the exact value of [x] is rounded to two
      decimals, ties to even, and the decimal is converted back to the nearest
      float; nan, the infinities and the integers round to themselves. *)
Definition round2 (x : float) : float :=
    match Prim2SF x with
    | S754_finite s m (Zneg k) => SF2Prim (hundredths s (rne_div (100 * Zpos m) k))
    | _ => x
    end.

  (** [float(z)] on an int: nearest float, OverflowError beyond the range. *)
Definition of_int (z : Z) : result float :=
    let f := SF2Prim (binary_normalize prec emax z 0 false) in
    if is_infinity f then Raise OverflowError else Ok f.

  (** [int(x)] on a float: truncation towards zero. *)
Definition to_int (x : float) : result Z :=
    match Prim2SF x with
    | S754_nan => Raise ValueError
    | S754_infinity _ => Raise OverflowError
    | S754_zero _ => Ok 0
    | S754_finite s m e =>
        let a := match e with
                 | Zneg k => Z.shiftr (Zpos m) (Zpos k)
                 | _ => Z.shiftl (Zpos m) e
                 end in
        Ok (if s then - a else a)
    end.

End PyFloat.

(** ** Built-ins that read text

    [float(s)], [int(s)] and [Decimal(s)] on a text [s] of code points below
    256 are Python's own parsers; the program is verified for any behaviour
    of theirs. None of them reads a text with a lone surrogate. *)
Class PyBuiltins := {
  str_to_float : string → option float;   (* None: ValueError *)
  str_to_int : string → option Z;         (* None: ValueError *)
  decimal_parses : string → bool;         (* false: decimal.InvalidOperation *)
}.

Section Builtins.
Context `{PyBuiltins}.

  (** [float(v)] *)
Definition py_float (v : value) : result float :=
    match v with
    | JFloat f => Ok f
    | JInt z => PyFloat.of_int z
    | JBool b => Ok (if b then 1 else 0)%float
    | JStr s => match str_to_float s with
                | Some f => Ok f
                | None => Raise ValueError
                end
    | JSurrogate _ _ => Raise ValueError
    | JNull | JArr _ | JObj _ => Raise TypeError
    end.

  (** [int(v)] *)
Definition py_int (v : value) : result Z :=
    match v with
    | JInt z => Ok z
    | JBool b => Ok (if b then 1 else 0)
    | JFloat f => PyFloat.to_int f
    | JStr s => match str_to_int s with
                | Some z => Ok z
                | None => Raise ValueError
                end
    | JSurrogate _ _ => Raise ValueError
    | JNull | JArr _ | JObj _ => Raise TypeError
    end.

End Builtins.

(** The value [Decimal(str(v))]: a decimal is kept as the value whose text it
    was read from. *)
Inductive decimal := DecimalOf (v : value).

Section Decimal.
Context `{PyBuiltins}.

  (** [Decimal(str(v))]: the text of an int or of a float is always a decimal
      literal; that of None, a bool, a list or a dict never is. *)
Definition Decimal_str (v : value) : result decimal :=
    match v with
    | JInt _ | JFloat _ => Ok (DecimalOf v)
    | JStr s => if decimal_parses s then Ok (DecimalOf v) else Raise InvalidOperation
    | JNull | JBool _ | JSurrogate _ _ | JArr _ | JObj _ => Raise InvalidOperation
    end.

End Decimal.

(** The three parsers of CPython 3.11 (64-bit build), on a text of code points
    below 256. *)
Module CPython.

(** The white space [float] and [int] strip: they turn the white space above
    U+007F into blanks and then test with the C locale's [isspace], which
    leaves U+001C to U+001F out. *)
Definition is_blank (c : ascii) : bool :=
  let n := N_of_ascii c in
  (((9 <=? n) && (n <=? 13)) || (n =? 32) || (n =? 133) || (n =? 160))%N.

Definition is_digit (c : ascii) : bool :=
  let n := N_of_ascii c in ((48 <=? n) && (n <=? 57))%N.

Definition digit_value (c : ascii) : Z := Z.of_N (N_of_ascii c) - 48.

Definition is_underscore (c : ascii) : bool := Ascii.eqb c "_".

Definition lower (c : ascii) : ascii :=
  let n := N_of_ascii c in
  if ((65 <=? n) && (n <=? 90))%N then ascii_of_N (n + 32) else c.

Fixpoint lowercase (s : string) : string :=
  match s with
  | EmptyString => EmptyString
  | String c s' => String (lower c) (lowercase s')
  end.

Fixpoint all_digits (s : string) : bool :=
  match s with
  | EmptyString => true
  | String c s' => is_digit c && all_digits s'
  end.

(** The longest run of digits at the head of [s], and what follows it. *)
Fixpoint span_digits (s : string) : string * string :=
  match s with
  | String c s' =>
      if is_digit c then let '(ds, rest) := span_digits s' in (String c ds, rest)
      else (EmptyString, s)
  | EmptyString => (EmptyString, EmptyString)
  end.

(** The number a run of digits writes, after [acc]. *)
Fixpoint number (acc : Z) (ds : string) : Z :=
  match ds with
  | EmptyString => acc
  | String c ds' => number (10 * acc + digit_value c) ds'
  end.

(** What follows [pat] at the head of [s]. *)
Fixpoint after (pat s : string) : option string :=
  match pat, s with
  | EmptyString, _ => Some s
  | String a pat', String b s' => if Ascii.eqb a b then after pat' s' else None
  | String _ _, EmptyString => None
  end.

(** An optional sign: [true] for a minus. *)
Definition sign (s : string) : bool * string :=
  match s with
  | String "-"%char s' => (true, s')
  | String "+"%char s' => (false, s')
  | _ => (false, s)
  end.

(** An underscore may stand between two digits and nowhere else. *)
Fixpoint underscores_between_digits (prev : option ascii) (s : string) : bool :=
  match s with
  | EmptyString => negb (from_option is_underscore false prev)
  | String c s' =>
      (if is_underscore c then from_option is_digit false prev
       else if from_option is_underscore false prev then is_digit c else true)
      && underscores_between_digits (Some c) s'
  end.

Fixpoint without_underscores (s : string) : string :=
  match s with
  | EmptyString => EmptyString
  | String c s' =>
      if is_underscore c then without_underscores s' else String c (without_underscores s')
  end.

(** A decimal literal read: the digits of the coefficient with the point
    taken out, and the power of ten they are scaled by. *)
Record literal := {
  coefficient : string;
  exponent : Z;
}.

(** digits [. digits] [(e|E) [+|-] digits], with a digit before or after the
    point, and nothing left over. *)
Definition read_literal (s : string) : option literal :=
  let '(int_part, rest) := span_digits s in
  let '(frac_part, rest) :=
    match rest with
    | String "."%char rest' => span_digits rest'
    | _ => (EmptyString, rest)
    end in
  if String.eqb (int_part +:+ frac_part) "" then None
  else
    let scale := - Z.of_nat (String.length frac_part) in
    match rest with
    | EmptyString => Some {| coefficient := int_part +:+ frac_part; exponent := scale |}
    | String c rest' =>
        if Ascii.eqb (lower c) "e" then
          let '(negative, ds) := sign rest' in
          if String.eqb ds "" || negb (all_digits ds) then None
          else
            let e := number 0 ds in
            Some {| coefficient := int_part +:+ frac_part;
                    exponent := (if negative then - e else e) + scale |}
        else None
    end.

Fixpoint strip_zeros (ds : string) : string :=
  match ds with
  | String "0"%char ds' => strip_zeros ds'
  | _ => ds
  end.

(** The float nearest to [m * 10^e], ties to even, signed by [negative]. The
    number lies in [10^(e + n - 1), 10^(e + n)) when [m] has [n] digits: beyond
    10^309 it rounds to an infinity and below 10^-324 to a zero, which is used
    to keep the powers of ten small. *)
Definition nearest (negative : bool) (l : literal) : float :=
  let ds := strip_zeros (coefficient l) in
  let m := number 0 ds in
  let e := exponent l in
  let magnitude := e + Z.of_nat (String.length ds) in
  match m with
  | Zpos p =>
      if 310 <? magnitude then (if negative then neg_infinity else infinity)
      else if magnitude <? -330 then (if negative then neg_zero else zero)
      else if 0 <=? e then
        SF2Prim (binary_normalize prec emax
                   (if negative then - (m * 10 ^ e) else m * 10 ^ e) 0 false)
      else
        SF2Prim (SFdiv prec emax (S754_finite negative p 0)
                       (S754_finite false (Z.to_pos (10 ^ (- e))) 0))
  | _ => if negative then neg_zero else zero
  end.

(** [float(s)] *)
Definition to_float (s : string) : option float :=
  let s := rstrip is_blank (lstrip is_blank s) in
  if negb (underscores_between_digits None s) then None
  else
    let '(negative, body) := sign (without_underscores s) in
    let word := lowercase body in
    if String.eqb word "inf" || String.eqb word "infinity"
    then Some (if negative then neg_infinity else infinity)
    else if String.eqb word "nan" then Some nan
    else nearest negative <$> read_literal body.

(** The digits of an int literal, underscores taken out: a digit first, then
    digits and single underscores, a digit last. *)
Fixpoint int_digits (prev_underscore : bool) (s : string) : option string :=
  match s with
  | EmptyString => if prev_underscore then None else Some EmptyString
  | String c s' =>
      if is_digit c then String c <$> int_digits false s'
      else if is_underscore c && negb prev_underscore then int_digits true s'
      else None
  end.

Definition max_str_digits : nat := 4300.

(** [int(s)] *)
Definition to_int (s : string) : option Z :=
  let s := rstrip is_blank (lstrip is_blank s) in
  let '(negative, body) := sign s in
  match body with
  | String c _ =>
      if is_digit c then
        ds ← int_digits false body;
        if decide (String.length ds ≤ max_str_digits)%nat
        then Some (if negative then - number 0 ds else number 0 ds)
        else None
      else None
  | EmptyString => None
  end.

Definition MAX_EMAX : Z := 999999999999999999.
Definition MIN_ETINY : Z := -1999999999999999997.

(** Whether [Decimal(s)] is a Decimal (false: decimal.InvalidOperation): an
    infinity, a nan with its payload, or a literal that the widest context
    holds exactly. *)
Definition is_decimal (s : string) : bool :=
  let s := without_underscores (strip is_space s) in
  let '(_, body) := sign s in
  let word := lowercase body in
  if String.eqb word "inf" || String.eqb word "infinity" then true
  else
    match after "nan" word, after "snan" word with
    | Some payload, _ | None, Some payload => all_digits payload
    | None, None =>
        match read_literal body with
        | Some l =>
            let n := Z.of_nat (String.length (strip_zeros (coefficient l))) in
            (MIN_ETINY <=? exponent l) && (exponent l + Z.max n 1 - 1 <=? MAX_EMAX)
        | None => false
        end
    end.

#[export] Instance builtins : PyBuiltins :=
  {| str_to_float := to_float; str_to_int := to_int; decimal_parses := is_decimal |}.

End CPython.

(** ** Formatted text

    An f-string is kept as its pieces: literal text, and the values and
    exceptions whose [str()] it interpolates. *)
Inductive fragment :=
| Text (s : string)
| Symbol (code_point : N)   (* a character of the program text above U+00FF *)
| StrOf (v : value)
| StrOfExn (e : exn).

Definition message := list fragment.

(** [repr] of a list of strings that need no escaping, as in ['a', 'b']. *)
Definition repr_str_list (l : list string) : string :=
  "[" +:+ String.concat ", " ((λ s, "'" +:+ s +:+ "'") <$> l) +:+ "]".

(** ** Standard output

    [print(line)] on a stdout that encodes in UTF-8, with the error handler
    that Python gives it ([strict], or [surrogateescape] in the C locale), as
    in the Lambda runtime: UnicodeEncodeError when the text holds the lone
    surrogate U+D800. [str()] of a str is the str itself; [str()] of a list,
    of a dict and of an exception writes the strs inside with [repr], which
    escapes a surrogate. *)
Module Stdout.

Definition encodes (f : fragment) : bool :=
  match f with
  | StrOf (JSurrogate _ _) => false
  | _ => true
  end.

Definition print (line : message) : result () :=
  if forallb encodes line then Ok () else Raise UnicodeEncodeError.
#[global] Arguments print : simpl never.

End Stdout.

(** * process_and_store.py: the Fare & Persistence stage *)

Module ProcessAndStore.

(** The item handed to [table.put_item]. *)
Record ddb_item := {
  item_trip_id : value;
  item_taxi_id : value;
  item_pickup_datetime : value;
  item_pickup_lat : decimal;
  item_pickup_long : decimal;
  item_drop_lat : decimal;
  item_drop_long : decimal;
  item_distance_km : decimal;
  item_zone_name : value;
  item_fare_amount : decimal;
  item_passenger_count : Z;
  item_extra_charges : decimal;
  item_tip_amount : decimal;
  item_tolls_amount : decimal;
  item_total_amount : decimal;
  item_payment_type : value;
}.

(** The outside world of the stage: the items put in the DynamoDB table and
    the documents put on the Firehose delivery stream, oldest first. A
    document stands for the line [json.dumps(firehose_data) + '\n']. *)
Record world := {
  table : list ddb_item;
  delivery_stream : list (gmap string value);
}.

(** [table.put_item] and [FIREHOSE_CLIENT.put_record]: each answers from the
    state of the world; [Raise] is a call that raises and writes nothing. *)
Class Services := {
  put_item : world → ddb_item → result ();
  put_record : world → gmap string value → result ();
}.

(** The two environment variables, as [os.environ.get] returns them. *)
Record environment := {
  DYNAMODB_TABLE_NAME : option string;
  FIREHOSE_STREAM_NAME : option string;
}.

(** Truth value of an [os.environ.get] result. *)
Definition is_set (x : option string) : bool :=
  match x with
  | Some s => negb (String.eqb s "")
  | None => false
  end.

Inductive response_body :=
| ErrorBody (msg : string)
| SummaryBody (msg : string) (processed failed total : nat).

Record response := {
  statusCode : Z;
  body : response_body;
}.

(** What the [try] block of the loop did with one record. *)
Inductive outcome :=
| Stored
| Rejected (validation_msg : message).

(** A value of a dict that went through [floats_to_decimal]: a float replaced
    by its Decimal, a dict converted in turn, or anything else, kept. *)
Inductive converted :=
| Converted (d : decimal)
| Kept (v : value)
| Nested (m : gmap string converted).

Section Stage.
Context `{PyBuiltins} `{Services}.

(** [calculate_fare(distance_km, zone_name)] *)
Definition calculate_fare (distance_km zone_name : value) : result float :=
  distance ← try_except (py_float distance_km) [ValueError; TypeError] (Ok 0%float);
  let base_fare : float := 50%float in
  let rate_per_km : float := 18.5%float in
  let fare : float := (base_fare + distance * rate_per_km)%float in
  surcharge ← (if truthy zone_name then py_in "Airport" zone_name else Ok false);
  let fare : float := if (surcharge : bool) then (fare + 100)%float else fare in
  Ok (PyFloat.round2 fare).

(** What [floats_to_decimal] makes of one value of the dict. *)
Fixpoint floats_to_decimal_value (v : value) : converted :=
  match v with
  | JFloat f => Converted (DecimalOf (JFloat f))
  | JObj m => Nested (floats_to_decimal_value <$> m)
  | _ => Kept v
  end.

(** [floats_to_decimal(data_dict)], on a dict of decoded JSON. The source
    updates [data_dict] in place and returns it; here the updated dict is
    returned. *)
Definition floats_to_decimal (data_dict : gmap string value) : gmap string converted :=
  floats_to_decimal_value <$> data_dict.

Definition required_fields : list string :=
  ["trip_id"; "taxi_id"; "pickup_datetime"; "pickup_lat";
   "pickup_long"; "drop_lat"; "drop_long"; "distance_km"].

Definition numeric_fields : list string :=
  ["pickup_lat"; "pickup_long"; "drop_lat"; "drop_long"; "distance_km"].

(** [field not in trip_data or trip_data[field] is None] *)
Definition is_missing (trip_data : gmap string value) (field : string) : bool :=
  match trip_data !! field with
  | None => true
  | Some JNull => true
  | Some _ => false
  end.

(** The loop over [numeric_fields] of [validate_trip_data]. *)
Fixpoint validate_numeric (trip_data : gmap string value) (fields : list string)
  : result (bool * message) :=
  match fields with
  | [] => Ok (true, [Text "Valid"])
  | field :: rest =>
      v ← dict_item trip_data field;
      parsed ← try_except (_ ← py_float v; Ok true) [ValueError; TypeError] (Ok false);
      if (parsed : bool) then validate_numeric trip_data rest
      else Ok (false, [Text ("Invalid numeric value for " +:+ field +:+ ": "); StrOf v])
  end.

(** [validate_trip_data(trip_data)] *)
Definition validate_trip_data (trip_data : gmap string value) : result (bool * message) :=
  let missing_fields := filter (λ field, is_missing trip_data field = true) required_fields in
  if negb (bool_decide (missing_fields = [])) then
    Ok (false, [Text ("Missing required fields: " +:+ repr_str_list missing_fields)])
  else validate_numeric trip_data numeric_fields.

(** Step 3 of the handler: the five [setdefault] calls. *)
Definition set_defaults (trip_data : gmap string value) : gmap string value :=
  let trip_data := setdefault "passenger_count" (JInt 0) trip_data in
  let trip_data := setdefault "extra_charges" (JFloat 0) trip_data in
  let trip_data := setdefault "tip_amount" (JFloat 0) trip_data in
  let trip_data := setdefault "tolls_amount" (JFloat 0) trip_data in
  setdefault "payment_type" (JStr "CASH") trip_data.

(** Step 4: the explicit field mapping of [dynamodb_item]. *)
Definition dynamodb_item (trip_data : gmap string value) (fare : float)
  : result ddb_item :=
  trip_id ← dict_item trip_data "trip_id";
  let taxi_id := dict_get_default trip_data "taxi_id" (JStr "") in
  let pickup_datetime := dict_get_default trip_data "pickup_datetime" (JStr "") in
  pickup_lat ← Decimal_str (dict_get_default trip_data "pickup_lat" (JFloat 0));
  pickup_long ← Decimal_str (dict_get_default trip_data "pickup_long" (JFloat 0));
  drop_lat ← Decimal_str (dict_get_default trip_data "drop_lat" (JFloat 0));
  drop_long ← Decimal_str (dict_get_default trip_data "drop_long" (JFloat 0));
  distance_km ← Decimal_str (dict_get_default trip_data "distance_km" (JFloat 0));
  let zone_name := dict_get_default trip_data "zone_name" (JStr "") in
  fare_amount ← Decimal_str (JFloat fare);
  passenger_count ← py_int (dict_get_default trip_data "passenger_count" (JInt 0));
  extra_charges ← Decimal_str (dict_get_default trip_data "extra_charges" (JFloat 0));
  tip_amount ← Decimal_str (dict_get_default trip_data "tip_amount" (JFloat 0));
  tolls_amount ← Decimal_str (dict_get_default trip_data "tolls_amount" (JFloat 0));
  total_amount ← Decimal_str (dict_get_default trip_data "total_amount" (JFloat 0));
  let payment_type := dict_get_default trip_data "payment_type" (JStr "CASH") in
  Ok {| item_trip_id := trip_id; item_taxi_id := taxi_id;
        item_pickup_datetime := pickup_datetime;
        item_pickup_lat := pickup_lat; item_pickup_long := pickup_long;
        item_drop_lat := drop_lat; item_drop_long := drop_long;
        item_distance_km := distance_km; item_zone_name := zone_name;
        item_fare_amount := fare_amount; item_passenger_count := passenger_count;
        item_extra_charges := extra_charges; item_tip_amount := tip_amount;
        item_tolls_amount := tolls_amount; item_total_amount := total_amount;
        item_payment_type := payment_type |}.

(** Steps 2 to 4 on a record that passed validation: the fare, the defaults,
    the total and the item. [trip_data] is updated in place in the source;
    here the updated dict is returned with the item. *)
Definition finalize (trip_data : gmap string value)
  : result (gmap string value * ddb_item) :=
  fare ← calculate_fare (dict_get trip_data "distance_km") (dict_get trip_data "zone_name");
  let trip_data := <["fare_amount" := JFloat fare]> trip_data in
  _ ← Stdout.print [Symbol 0x1F4B0; Text " Calculated Fare: "; StrOf (JFloat fare);
                    Text " for distance: "; StrOf (dict_get trip_data "distance_km");
                    Text "km"];
  let trip_data := set_defaults trip_data in
  extra_charges ← py_float (dict_get_default trip_data "extra_charges" (JFloat 0));
  tip_amount ← py_float (dict_get_default trip_data "tip_amount" (JFloat 0));
  tolls_amount ← py_float (dict_get_default trip_data "tolls_amount" (JFloat 0));
  let total_amount : float := (fare + extra_charges + tip_amount + tolls_amount)%float in
  let trip_data := <["total_amount" := JFloat (PyFloat.round2 total_amount)]> trip_data in
  item ← dynamodb_item trip_data fare;
  Ok (trip_data, item).

(** Step 6: the copy sent to Firehose, with the fields of the Redshift schema. *)
Definition firehose_data (trip_data : gmap string value) : gmap string value :=
  let data := trip_data in
  let data := setdefault "dropoff_datetime" JNull data in
  let data := setdefault "pickup_latitude" (dict_get trip_data "pickup_lat") data in
  let data := setdefault "pickup_longitude" (dict_get trip_data "pickup_long") data in
  let data := setdefault "dropoff_latitude" (dict_get trip_data "drop_lat") data in
  setdefault "dropoff_longitude" (dict_get trip_data "drop_long") data.

(** The variable [trip_id] of the loop, for a queue record given as what
    [json.loads(record['body'])] evaluates to: 'Unknown' until line 98 has
    assigned it, which takes a dict. *)
Definition trip_id_of (record : result value) : value :=
  match record with
  | Ok (JObj trip_data) => dict_get_default trip_data "trip_id" (JStr "N/A")
  | _ => JStr "Unknown"
  end.

(** Steps 1 to 4, which touch nothing outside: [inl msg] is a record that
    failed validation, [inr] one that is ready to be written. *)
Definition prepare (record : result value)
  : result (message + gmap string value * ddb_item) :=
  decoded ← record;
  trip_data ← as_dict decoded;
  let trip_id := dict_get_default trip_data "trip_id" (JStr "N/A") in
  _ ← Stdout.print [Symbol 0x1F527; Text " Processing Trip ID: "; StrOf trip_id];
  '(is_valid, validation_msg) ← validate_trip_data trip_data;
  if negb is_valid then
    _ ← Stdout.print ([Symbol 0x274C; Text " Validation failed for Trip ID "; StrOf trip_id;
                       Text ": "] ++ validation_msg);
    Ok (inl validation_msg)
  else
    finalized ← finalize trip_data;
    Ok (inr finalized).

(** The body of the [try] block for one record. The world it returns is the
    world also when an exception leaves the block. The lines printed after
    the two writes hold the name of the table, the name of the stream and
    [trip_id], which the first line of the block has printed: stdout encodes
    them. *)
Definition process_record (w : world) (record : result value) : world * result outcome :=
  match prepare record with
  | Raise e => (w, Raise e)
  | Ok (inl validation_msg) => (w, Ok (Rejected validation_msg))
  | Ok (inr (trip_data, item)) =>
      match put_item w item with
      | Raise e => (w, Raise e)
      | Ok _ =>
          let w := {| table := table w ++ [item]; delivery_stream := delivery_stream w |} in
          let data := firehose_data trip_data in
          match put_record w data with
          | Raise e => (w, Raise e)
          | Ok _ =>
              ({| table := table w; delivery_stream := delivery_stream w ++ [data] |},
               Ok Stored)
          end
      end
  end.

(** The line an [except] clause of the loop prints. *)
Definition error_line (trip_id : value) (e : exn) : message :=
  if isinstance e JSONDecodeError
  then [Symbol 0x274C; Text " JSON decode error for record "; StrOf trip_id; Text ": ";
        StrOfExn e]
  else [Symbol 0x274C; Text " Error processing record "; StrOf trip_id; Text ": ";
        StrOfExn e].

(** The [for record in event['Records']] loop with its two counters. The
    [except] clauses print outside any [try]: an exception of theirs leaves
    the loop. *)
Fixpoint for_records (records : list (result value)) (w : world)
  (processed_count failed_count : nat) : world * result (nat * nat) :=
  match records with
  | [] => (w, Ok (processed_count, failed_count))
  | record :: rest =>
      match process_record w record with
      | (w, Ok Stored) => for_records rest w (S processed_count) failed_count
      | (w, Ok (Rejected _)) => for_records rest w processed_count (S failed_count)
      | (w, Raise e) =>
          match Stdout.print (error_line (trip_id_of record) e) with
          | Ok _ => for_records rest w processed_count (S failed_count)
          | Raise e => (w, Raise e)
          end
      end
  end.

(** [lambda_handler(event, context)]; [records] is [event['Records']]. The
    lines it prints itself hold the counts only. *)
Definition lambda_handler (env : environment) (w : world) (records : list (result value))
  : world * result response :=
  if negb (is_set (DYNAMODB_TABLE_NAME env)) || negb (is_set (FIREHOSE_STREAM_NAME env))
  then
    (w, Ok {| statusCode := 500;
              body := ErrorBody ("Error: Environment variables DYNAMODB_TABLE_NAME and "
                                 +:+ "FIREHOSE_STREAM_NAME must be set.") |})
  else
    match for_records records w 0%nat 0%nat with
    | (w, Ok (processed_count, failed_count)) =>
        (w, Ok {| statusCode := 200;
                  body := SummaryBody
                            ("Successfully processed " +:+ pretty processed_count
                             +:+ " records from SQS")
                            processed_count failed_count (length records) |})
    | (w, Raise e) => (w, Raise e)
    end.

(** The per-record results of a batch, in order. *)
Fixpoint outcomes (records : list (result value)) (w : world) : list (result outcome) :=
  match records with
  | [] => []
  | record :: rest =>
      let '(w, o) := process_record w record in o :: outcomes rest w
  end.

End Stage.

End ProcessAndStore.

(** * enrich_trip_data.py: the Enrichment stage *)

Module EnrichTripData.

(** The arguments of [search_place_index_for_position]. *)
Record place_query := {
  IndexName : string;
  Position : list float;
  MaxResults : Z;
}.

(** The outside world of the stage: every place query made, and the messages
    accepted by the queue as (QueueUrl, decoded MessageBody), oldest first. *)
Record world := {
  place_queries : list place_query;
  queue : list (string * gmap string value);
}.

(** [LOCATION_CLIENT.search_place_index_for_position], answering with the
    labels of ['Results'] in order, and [SQS_CLIENT.send_message]. *)
Class Services := {
  search_place_index_for_position : world → place_query → result (list string);
  send_message : world → string → gmap string value → result ();
}.

Record environment := {
  PLACE_INDEX_NAME : option string;
  SQS_QUEUE_URL : option string;
}.

Definition is_set (x : option string) : bool :=
  match x with
  | Some s => negb (String.eqb s "")
  | None => false
  end.

(** [body] is the text given to [json.dumps]; the 500 answer has none. *)
Record response := {
  statusCode : Z;
  body : option string;
}.

Section Stage.
Context `{PyBuiltins} `{Services}.

(** Steps 1 and 2 up to the call: decoding, the first line printed and the two
    coordinates. A stream record is given as what
    [json.loads(base64.b64decode(record['kinesis']['data']).decode('utf-8'))]
    evaluates to. *)
Definition coordinates (record : result value)
  : result (gmap string value * float * float) :=
  decoded ← record;
  trip_data ← as_dict decoded;
  _ ← Stdout.print [Text "Processing Trip ID: ";
                    StrOf (dict_get_default trip_data "trip_id" (JStr "N/A"))];
  lon ← dict_item trip_data "longitude";
  longitude ← py_float lon;
  lat ← dict_item trip_data "latitude";
  latitude ← py_float lat;
  Ok (trip_data, longitude, latitude).

(** The body of the [try] block for one record. The lines printed after the
    place query hold the label found and, after the message is sent, the
    trip_id that the first line has printed: stdout encodes them. *)
Definition process_record (env : environment) (w : world) (record : result value)
  : world * result () :=
  match coordinates record with
  | Raise e => (w, Raise e)
  | Ok (trip_data, longitude, latitude) =>
      let query := {| IndexName := default "" (PLACE_INDEX_NAME env);
                      Position := [longitude; latitude];
                      MaxResults := 1 |} in
      let answer := search_place_index_for_position w query in
      let w := {| place_queries := place_queries w ++ [query]; queue := queue w |} in
      match answer with
      | Raise e => (w, Raise e)
      | Ok results =>
          let zone_name := match results with
                           | label :: _ => label
                           | [] => "Unknown"
                           end in
          let trip_data := <["zone_name" := JStr zone_name]> trip_data in
          let url := default "" (SQS_QUEUE_URL env) in
          match send_message w url trip_data with
          | Raise e => (w, Raise e)
          | Ok _ =>
              ({| place_queries := place_queries w;
                  queue := queue w ++ [(url, trip_data)] |}, Ok ())
          end
      end
  end.

(** The [for record in event['Records']] loop: both [except] clauses print the
    exception and move on to the next record. *)
Fixpoint for_records (env : environment) (records : list (result value)) (w : world)
  : world :=
  match records with
  | [] => w
  | record :: rest =>
      match process_record env w record with
      | (w, Ok _) => for_records env rest w
      | (w, Raise e) =>
          if isinstance e JSONDecodeError then for_records env rest w
          else for_records env rest w
      end
  end.

(** [lambda_handler(event, context)]; [records] is [event['Records']]. *)
Definition lambda_handler (env : environment) (w : world) (records : list (result value))
  : world * response :=
  if negb (is_set (PLACE_INDEX_NAME env)) || negb (is_set (SQS_QUEUE_URL env))
  then (w, {| statusCode := 500; body := None |})
  else
    let w := for_records env records w in
    (w, {| statusCode := 200;
           body := Some ("Successfully processed " +:+ pretty (length records)
                         +:+ " records and sent to SQS.") |}).

End Stage.

End EnrichTripData.

(** * producer.py: the Ingestion Producer *)

Module Producer.

(** [v.strip()] and [v.strip(chars)]: a method of strs only. A surrogate is
    no white space and no quote, so the stripping stops at it. *)
Definition py_strip (p : ascii → bool) (v : value) : result value :=
  match v with
  | JStr s => Ok (JStr (strip p s))
  | JSurrogate before after => Ok (JSurrogate (lstrip p before) (rstrip p after))
  | _ => Raise AttributeError
  end.

(** One entry of the [Records] argument of [put_records]. [Data] stands for
    [json.dumps(row).encode('utf-8')]. *)
Record kinesis_record := {
  Data : gmap string value;
  PartitionKey : value;
}.

(** The state of the run: the buffer, the batches for which [put_records]
    returned (with the FailedRecordCount it answered), and the lines printed. *)
Record state := {
  records_batch : list kinesis_record;
  stream : list (list kinesis_record * Z);
  log : list message;
}.

(** [kinesis_client.put_records] *)
Class Services := {
  put_records : list (list kinesis_record * Z) → string → list kinesis_record → result Z;
}.

(** [print(line)] for a line that stdout encodes: all lines of the producer
    but that of a skipped row hold counts, exception texts, and the names of
    the file and of the stream. *)
Definition print (line : message) (st : state) : state :=
  {| records_batch := records_batch st; stream := stream st; log := log st ++ [line] |}.

Section Run.
Context `{PyBuiltins} `{Services}.
Variable BATCH_SIZE : Z.

(** [_send_batch(client, stream_name, batch)] *)
Definition _send_batch (stream_name : string) (batch : list kinesis_record) (st : state)
  : state :=
  match put_records (stream st) stream_name batch with
  | Ok failed =>
      let st := {| records_batch := records_batch st;
                   stream := stream st ++ [(batch, failed)];
                   log := log st |} in
      let st := print [Text ("Sent batch of " +:+ pretty (length batch) +:+ " records.")] st in
      if 0 <? failed
      then print [Text ("WARNING: " +:+ pretty failed +:+ " records failed.")] st
      else st
  | Raise e => print [Text "Error sending batch: "; StrOfExn e] st
  end.

(** The admission test: [true] when the row is to be skipped. *)
Definition lacks_pickup_datetime (row : gmap string value) : result bool :=
  match row !! "pickup_datetime" with
  | None => Ok true
  | Some v =>
      stripped ← py_strip is_space v;
      Ok (negb (truthy stripped))
  end.

Definition numeric_columns : list string :=
  ["latitude"; "longitude"; "pickup_lat"; "pickup_long"; "drop_lat"; "drop_long";
   "distance_km"].

(** [for col in [...]: row[col] = float(row.get(col, 0))] *)
Fixpoint convert_numeric (cols : list string) (row : gmap string value)
  : result (gmap string value) :=
  match cols with
  | [] => Ok row
  | col :: rest =>
      x ← py_float (dict_get_default row col (JInt 0));
      convert_numeric rest (<[col := JFloat x]> row)
  end.

(** The conversions of one admitted row and its Kinesis record. *)
Definition prepare_record (row : gmap string value) : result kinesis_record :=
  row ← convert_numeric numeric_columns row;
  passenger_count ← py_int (dict_get_default row "passenger_count" (JInt 0));
  let row := <["passenger_count" := JInt passenger_count]> row in
  fare_amount ← py_float (dict_get_default row "fare_amount" (JInt 0));
  let row := <["fare_amount" := JFloat fare_amount]> row in
  extra_charges ← py_float (dict_get_default row "extra_charges"
                              (dict_get_default row "extra" (JInt 0)));
  let row := <["extra_charges" := JFloat extra_charges]> row in
  tip_amount ← py_float (dict_get_default row "tip_amount" (JInt 0));
  let row := <["tip_amount" := JFloat tip_amount]> row in
  tolls_amount ← py_float (dict_get_default row "tolls_amount" (JInt 0));
  let row := <["tolls_amount" := JFloat tolls_amount]> row in
  total_amount ← py_float (dict_get_default row "total_amount" (JInt 0));
  let row := <["total_amount" := JFloat total_amount]> row in
  zone_name ← py_strip (Ascii.eqb "034") (dict_get_default row "zone_name" (JStr ""));
  let row := <["zone_name" := zone_name]> row in
  trip_id ← dict_item row "trip_id";
  Ok {| Data := row; PartitionKey := trip_id |}.

(** The [for row in csv_reader] loop. An exception leaves the loop: the rows
    after it are not read and the buffer is left as it is. *)
Fixpoint for_rows (stream_name : string) (rows : list (gmap string value)) (st : state)
  : state * result () :=
  match rows with
  | [] => (st, Ok ())
  | row :: rest =>
      match lacks_pickup_datetime row with
      | Raise e => (st, Raise e)
      | Ok true =>
          let line := [Text "Skipping trip_id ";
                       StrOf (dict_get_default row "trip_id" (JStr "N/A"));
                       Text ": missing pickup_datetime"] in
          match Stdout.print line with
          | Raise e => (st, Raise e)
          | Ok _ => for_rows stream_name rest (print line st)
          end
      | Ok false =>
          match prepare_record row with
          | Raise e => (st, Raise e)
          | Ok record =>
              let batch := records_batch st ++ [record] in
              let st := {| records_batch := batch; stream := stream st; log := log st |} in
              if BATCH_SIZE <=? Z.of_nat (length batch)
              then
                let st := _send_batch stream_name batch st in
                for_rows stream_name rest
                  {| records_batch := []; stream := stream st; log := log st |}
              else for_rows stream_name rest st
          end
      end
  end.

(** [send_data_in_batches(file_path, stream_name)]. [file] is what opening
    [file_path] and reading it with [csv.DictReader] gives: [None] when the
    file does not exist, else its rows. It returns the final state of the run,
    started with an empty buffer on the stream and log given. *)
Definition send_data_in_batches (file_path : string) (file : option (list (gmap string value)))
  (stream_name : string) (st : state) : state :=
  let st := {| records_batch := []; stream := stream st; log := log st |} in
  let st := print [Text ("Sending data from '" +:+ file_path +:+ "' to Kinesis stream '"
                         +:+ stream_name +:+ "'...")] st in
  let st :=
    match file with
    | None => print [Text ("Error: File '" +:+ file_path +:+ "' not found.")] st
    | Some rows =>
        match for_rows stream_name rows st with
        | (st, Ok _) =>
            if negb (bool_decide (records_batch st = []))
            then _send_batch stream_name (records_batch st) st
            else st
        | (st, Raise e) =>
            if isinstance e FileNotFoundError
            then print [Text ("Error: File '" +:+ file_path +:+ "' not found.")] st
            else print [Text "Unexpected error: "; StrOfExn e] st
        end
    end in
  print [Text "Finished sending all data."] st.

End Run.

End Producer.

(** * Vocabulary of the properties *)

(** [pat] occurs in [s]. *)
Definition is_substring (pat s : string) : Prop :=
  ∃ pre post, s = pre +:+ pat +:+ post.

Section Vocabulary.
Context `{PyBuiltins}.

(** The distance the fare is computed from: [float(distance_km)], or 0.0. *)
Definition number_or_zero (distance_km : value) : float :=
  match py_float distance_km with
  | Ok d => d
  | Raise _ => 0%float
  end.

(** The zone is a str in which "Airport" occurs. *)
Definition airport_zone (zone_name : value) : Prop :=
  (∃ s, zone_name = JStr s ∧ is_substring "Airport" s)
  ∨ (∃ before after, zone_name = JSurrogate before after
                     ∧ (is_substring "Airport" before ∨ is_substring "Airport" after)).

End Vocabulary.

(** The fields the defaulting step fills, with the values it fills in. *)
Definition default_values : list (string * value) :=
  [("passenger_count", JInt 0); ("extra_charges", JFloat 0);
   ("tip_amount", JFloat 0); ("tolls_amount", JFloat 0);
   ("payment_type", JStr "CASH")].

(** The world after the loop has gone through [records]. *)
Fixpoint final_world `{PyBuiltins} `{ProcessAndStore.Services}
  (records : list (result value)) (w : ProcessAndStore.world) : ProcessAndStore.world :=
  match records with
  | [] => w
  | record :: rest => final_world rest (ProcessAndStore.process_record w record).1
  end.

(** The records of a batch that reached the end of the [try] block, and the
    others. *)
Fixpoint count_stored (os : list (result ProcessAndStore.outcome)) : nat :=
  match os with
  | [] => 0
  | Ok ProcessAndStore.Stored :: os => S (count_stored os)
  | _ :: os => count_stored os
  end.

Fixpoint count_failed (os : list (result ProcessAndStore.outcome)) : nat :=
  match os with
  | [] => 0
  | Ok ProcessAndStore.Stored :: os => count_failed os
  | _ :: os => S (count_failed os)
  end.

Section BatchVocabulary.
Context `{PyBuiltins} `{ProcessAndStore.Services}.
Import ProcessAndStore.

(** [prepare record] made [item]. *)
Definition item_of (record : result value) (item : ddb_item) : Prop :=
  ∃ td, prepare record = Ok (inr (td, item)).

Definition configured (env : environment) : Prop :=
  is_set (DYNAMODB_TABLE_NAME env) = true ∧ is_set (FIREHOSE_STREAM_NAME env) = true.

(** The record is a dict that validation accepts. *)
Definition passes_validation (record : result value) : Prop :=
  ∃ (trip_data : gmap string value) msg,
    record = Ok (JObj trip_data) ∧ validate_trip_data trip_data = Ok (true, msg).

(** Stdout encodes the trip_id under which the loop reports [record]. *)
Definition trip_id_prints (record : result value) : Prop :=
  Stdout.encodes (StrOf (trip_id_of record)) = true.

End BatchVocabulary.

(** Stdout encodes the trip_id of the record, 'N/A' for a record without
    one: the line that the Enrichment stage prints first for a message, and
    the producer for a row it skips, is printed. *)
Definition trip_id_encodable (trip_data : gmap string value) : Prop :=
  Stdout.encodes (StrOf (dict_get_default trip_data "trip_id" (JStr "N/A"))) = true.

(** The value found in [v] by going down the dict keys [ks], and the same in
    a converted value. *)
Fixpoint lookup_path (ks : list string) (v : value) : option value :=
  match ks with
  | [] => Some v
  | k :: ks =>
      match v with
      | JObj m => m !! k ≫= lookup_path ks
      | _ => None
      end
  end.

Fixpoint converted_path (ks : list string) (c : ProcessAndStore.converted)
  : option ProcessAndStore.converted :=
  match ks with
  | [] => Some c
  | k :: ks =>
      match c with
      | ProcessAndStore.Nested m => m !! k ≫= converted_path ks
      | _ => None
      end
  end.

(** The field is in the record and is not null. *)
Definition present (trip_data : gmap string value) (field : string) : Prop :=
  ∃ v, trip_data !! field = Some v ∧ v ≠ JNull.

(** The alias fields of the analytics copy and the fields they mirror. *)
Definition alias_fields : list (string * string) :=
  [("pickup_latitude", "pickup_lat"); ("pickup_longitude", "pickup_long");
   ("dropoff_latitude", "drop_lat"); ("dropoff_longitude", "drop_long")].

(** The fields the copy may add. *)
Definition is_added_field (k : string) : bool :=
  existsb (String.eqb k) ("dropoff_datetime" :: alias_fields.*1).

(** The records of the rows that pass the admission test and convert, in the
    order of the rows. *)
Fixpoint admitted_records `{PyBuiltins} (rows : list (gmap string value))
  : list Producer.kinesis_record :=
  match rows with
  | [] => []
  | row :: rest =>
      match Producer.lacks_pickup_datetime row, Producer.prepare_record row with
      | Ok false, Ok record => record :: admitted_records rest
      | _, _ => admitted_records rest
      end
  end.

(** The records of the batches for which [put_records] returned, in order. *)
Definition delivered (st : Producer.state) : list Producer.kinesis_record :=
  concat (Producer.stream st).*1.

(** Two states of a run that differ in the log at most. *)
Definition same_data (st1 st2 : Producer.state) : Prop :=
  Producer.records_batch st1 = Producer.records_batch st2
  ∧ Producer.stream st1 = Producer.stream st2.

(** The columns the producer rewrites besides the numeric ones. *)
Definition other_coerced_columns : list string :=
  ["passenger_count"; "fare_amount"; "extra_charges"; "tip_amount"; "tolls_amount";
   "total_amount"; "zone_name"].

(** What the loop of the producer does with one row: it raises, it skips the
    row with a line in the log ([None]), or it buffers a record. *)
Definition row_outcome `{PyBuiltins} (row : gmap string value)
  : result (option Producer.kinesis_record) :=
  match Producer.lacks_pickup_datetime row with
  | Raise e => Raise e
  | Ok true =>
      _ ← Stdout.print [Text "Skipping trip_id ";
                        StrOf (dict_get_default row "trip_id" (JStr "N/A"));
                        Text ": missing pickup_datetime"];
      Ok None
  | Ok false =>
      match Producer.prepare_record row with
      | Raise e => Raise e
      | Ok record => Ok (Some record)
      end
  end.

(** * Sample inputs *)

Module Samples.

(** A trip as the Enrichment stage hands it over, with a total_amount that
    came from upstream. *)
Definition trip : gmap string value :=
  {[ "trip_id" := JStr "T1"; "taxi_id" := JStr "TX1";
     "pickup_datetime" := JStr "2024-01-01T10:00:00";
     "pickup_lat" := JFloat 12.5; "pickup_long" := JFloat 77.5;
     "drop_lat" := JFloat 12.75; "drop_long" := JFloat 77.75;
     "distance_km" := JInt 8; "zone_name" := JStr "Downtown Plaza";
     "extra_charges" := JFloat 2.5; "tip_amount" := JFloat 1.25;
     "total_amount" := JInt 999 ]}.

(** The same trip without drop_lat, with an empty trip_id, without trip_id. *)
Definition trip_without_drop_lat : gmap string value := delete "drop_lat" trip.
Definition trip_with_empty_id : gmap string value := <["trip_id" := JStr ""]> trip.
Definition trip_without_id : gmap string value := delete "trip_id" trip.

(** The same trip with the trip_id that [json.loads] makes of the JSON
    string ["\ud800"]. *)
Definition trip_with_surrogate_id : gmap string value :=
  <["trip_id" := JSurrogate "" ""]> trip.

(** A record from the producer whose pickup point differs from its legacy
    latitude and longitude. *)
Definition stream_trip : gmap string value :=
  {[ "trip_id" := JStr "T1"; "pickup_lat" := JFloat 12.5; "pickup_long" := JFloat 77.5;
     "latitude" := JFloat 20; "longitude" := JFloat 10 ]}.

(** The same record with the trip_id that [json.loads] makes of ["\ud800"]. *)
Definition stream_trip_with_surrogate_id : gmap string value :=
  <["trip_id" := JSurrogate "" ""]> stream_trip.

(** Two rows of a CSV file with the header trip_id,pickup_datetime,distance_km:
    the line [T1], which is short, and the line [T2,2024-01-01 10:00:00,8]. *)
Definition short_row : gmap string value :=
  {[ "trip_id" := JStr "T1"; "pickup_datetime" := JNull; "distance_km" := JNull ]}.
Definition full_row : gmap string value :=
  {[ "trip_id" := JStr "T2"; "pickup_datetime" := JStr "2024-01-01 10:00:00";
     "distance_km" := JStr "8" ]}.

(** The same trip with a drop_lat that is no number, and with a pickup_long
    that is an integer beyond the range of floats. *)
Definition trip_with_bad_drop_lat : gmap string value :=
  <["drop_lat" := JStr "north"]> trip.
Definition trip_with_huge_pickup_long : gmap string value :=
  <["pickup_long" := JInt (2 ^ 1024)]> trip.

(** A dict with a float, a dict inside it and a list of floats. *)
Definition nested_dict : gmap string value :=
  {[ "fare" := JFloat 1.5; "trip" := JObj {[ "tip" := JFloat 2.5 ]};
     "stops" := JArr [JFloat 0.5] ]}.

(** A row of a CSV file that has no pickup_datetime column. *)
Definition row_without_pickup_datetime : gmap string value :=
  {[ "trip_id" := JStr "T3"; "distance_km" := JStr "3" ]}.

Definition store_env : ProcessAndStore.environment :=
  {| ProcessAndStore.DYNAMODB_TABLE_NAME := Some "trips";
     ProcessAndStore.FIREHOSE_STREAM_NAME := Some "trips-analytics" |}.

Definition empty_store : ProcessAndStore.world :=
  {| ProcessAndStore.table := []; ProcessAndStore.delivery_stream := [] |}.

(** Both sinks accept every write. *)
Definition sinks_up : ProcessAndStore.Services :=
  {| ProcessAndStore.put_item := λ _ _, Ok ();
     ProcessAndStore.put_record := λ _ _, Ok () |}.

(** The table accepts every write and Firehose refuses every one. *)
Definition firehose_down : ProcessAndStore.Services :=
  {| ProcessAndStore.put_item := λ _ _, Ok ();
     ProcessAndStore.put_record := λ _ _, Raise ClientError |}.

Definition enrich_env : EnrichTripData.environment :=
  {| EnrichTripData.PLACE_INDEX_NAME := Some "places";
     EnrichTripData.SQS_QUEUE_URL := Some "https://sqs/trips" |}.

Definition quiet : EnrichTripData.world :=
  {| EnrichTripData.place_queries := []; EnrichTripData.queue := [] |}.

(** The place index knows one place; the queue accepts every message. *)
Definition one_place : EnrichTripData.Services :=
  {| EnrichTripData.search_place_index_for_position := λ _ _, Ok ["Downtown Plaza"];
     EnrichTripData.send_message := λ _ _ _, Ok () |}.

Definition fresh_run : Producer.state :=
  {| Producer.records_batch := []; Producer.stream := []; Producer.log := [] |}.

(** Kinesis accepts every batch whole. *)
Definition kinesis_up : Producer.Services :=
  {| Producer.put_records := λ _ _ _, Ok 0 |}.

End Samples.

(** * Properties *)

(** ** Fallible computations *)

Lemma bind_Ok {A B} (m : result A) (f : A → result B) (b : B) :
  m ≫= f = Ok b → ∃ a, m = Ok a ∧ f a = Ok b.
Proof. destruct m as [a|e]; simpl; [eauto | discriminate]. Qed.

(** Splits every successful bind among the hypotheses. *)
Ltac inv_bind :=
  repeat match goal with
  | Hb : _ ≫= _ = Ok _ |- _ =>
      apply bind_Ok in Hb; destruct Hb as (? & ? & Hb); cbv beta zeta in Hb
  | Hb : Ok _ = Ok _ |- _ => injection Hb as Hb; subst
  | Hb : Raise _ = Ok _ |- _ => discriminate Hb
  end.

(** ** Standard output *)

Lemma print_Ok line : Stdout.print line = Ok () ↔ forallb Stdout.encodes line = true.
Proof. unfold Stdout.print. by destruct (forallb _ _). Qed.

Lemma print_raises line e : Stdout.print line = Raise e → e = UnicodeEncodeError.
Proof. unfold Stdout.print. destruct (forallb _ _); [done|]. by intros [= <-]. Qed.

Lemma print_unencodable line f :
  f ∈ line → Stdout.encodes f = false → Stdout.print line = Raise UnicodeEncodeError.
Proof.
  intros Hin Hf. unfold Stdout.print. destruct (forallb _ _) eqn:Hall; [|done].
  rewrite forallb_forall in Hall. apply list_elem_of_In, Hall in Hin. congruence.
Qed.

(** ** Substrings *)

Lemma append_nil (t : string) : "" +:+ t = t.
Proof. reflexivity. Qed.

Lemma append_cons (c : ascii) (s t : string) : String c s +:+ t = String c (s +:+ t).
Proof. reflexivity. Qed.

Lemma prefix_spec pat s :
  String.prefix pat s = true ↔ ∃ post, s = pat +:+ post.
Proof.
  revert s. induction pat as [|a pat IH]; intros [|b s]; simpl.
  - split; [intros _; by exists "" | done].
  - split; [intros _; by exists (String b s) | done].
  - split; [done | intros [post Hp]; discriminate].
  - setoid_rewrite append_cons. destruct (ascii_dec a b) as [->|Hne].
    + rewrite IH. split; intros [post Hp]; exists post; congruence.
    + split; [done | intros [post Hp]; congruence].
Qed.

Lemma contains_nil pat : contains pat "" = String.prefix pat "" || false.
Proof. reflexivity. Qed.

Lemma contains_cons pat c s :
  contains pat (String c s) = String.prefix pat (String c s) || contains pat s.
Proof. reflexivity. Qed.

Lemma contains_spec pat s : contains pat s = true ↔ is_substring pat s.
Proof.
  unfold is_substring. induction s as [|c s IH].
  - rewrite contains_nil, orb_false_r, prefix_spec. split.
    + intros [post Hp]. by exists "", post.
    + intros ([|c pre] & post & Hp); [by exists post | discriminate].
  - rewrite contains_cons, orb_true_iff, prefix_spec, IH. split.
    + intros [[post Hp] | (pre & post & Hp)].
      * by exists "", post.
      * exists (String c pre), post. by rewrite append_cons, Hp.
    + intros ([|c' pre] & post & Hp).
      * left. by exists post.
      * right. exists pre, post. rewrite append_cons in Hp. congruence.
Qed.

(** ** The fare *)

Section FareProperties.
Context `{PyBuiltins}.
Import ProcessAndStore.

(** [float(v)] raises nothing but ValueError, TypeError and OverflowError. *)
Lemma py_float_raises v e :
  py_float v = Raise e → e = ValueError ∨ e = TypeError ∨ e = OverflowError.
Proof.
  destruct v; simpl; try (intros [= <-]; tauto).
  - unfold PyFloat.of_int. case_match; intros [= <-]; tauto.
  - case_match; intros [= <-]; tauto.
Qed.

Lemma distance_or_zero distance_km :
  py_float distance_km ≠ Raise OverflowError →
  try_except (py_float distance_km) [ValueError; TypeError] (Ok 0%float)
  = Ok (number_or_zero distance_km).
Proof.
  intros Hov. unfold number_or_zero.
  destruct (py_float distance_km) as [d|e] eqn:Hd; [done|].
  destruct (py_float_raises _ _ Hd) as [-> | [-> | ->]];
    [reflexivity | reflexivity | by destruct Hov].
Qed.

Lemma surcharge_test zone_name :
  zone_name = JNull ∨ (∃ s, zone_name = JStr s)
  ∨ (∃ before after, zone_name = JSurrogate before after) →
  ∃ b : bool,
    (if truthy zone_name then py_in "Airport" zone_name else Ok false) = Ok b
    ∧ (b = true ↔ airport_zone zone_name).
Proof.
  unfold airport_zone. intros [-> | [[s ->] | (before & after & ->)]]; simpl.
  - exists false. split; [done|]. split; [done|].
    intros [(s & Hs & _) | (b & a & Hs & _)]; discriminate.
  - destruct (String.eqb_spec s "") as [-> | Hne]; simpl.
    + exists false. split; [done|]. split; [done|].
      intros [(s & [= <-] & ([|c pre] & post & Hp)) | (b & a & Hs & _)]; discriminate.
    + exists (contains "Airport" s). split; [done|].
      rewrite contains_spec. split; [intros Hs; left; by exists s|].
      intros [(s' & [= <-] & Hs) | (b & a & Hs & _)]; [done | discriminate].
  - exists (contains "Airport" before || contains "Airport" after). split; [done|].
    rewrite orb_true_iff, !contains_spec. split.
    + intros Hs. right. by exists before, after.
    + intros [(s & Hs & _) | (b & a & [= <- <-] & Hs)]; [discriminate | done].
Qed.

(** C1 (as amended). For every [distance_km] whose conversion does not
    overflow and every [zone_name] that is a string or None, [calculate_fare]
    returns [round(50.0 + d * 18.5 + 100.0, 2)] when "Airport" is a substring
    of [zone_name] and [round(50.0 + d * 18.5, 2)] when it is not, where [d] is
    [float(distance_km)], or 0.0 when [distance_km] is not numeric. 10 km to
    "Airport Terminal" costs 335.0 and 0 km to "Downtown" costs 50.0. *)
Theorem calculate_fare_formula (distance_km zone_name : value) :
  py_float distance_km ≠ Raise OverflowError →
  zone_name = JNull ∨ (∃ s, zone_name = JStr s)
  ∨ (∃ before after, zone_name = JSurrogate before after) →
  let d := number_or_zero distance_km in
  (airport_zone zone_name →
   calculate_fare distance_km zone_name = Ok (PyFloat.round2 (50 + d * 18.5 + 100)%float))
  ∧ (¬ airport_zone zone_name →
     calculate_fare distance_km zone_name = Ok (PyFloat.round2 (50 + d * 18.5)%float))
  ∧ calculate_fare (JInt 10) (JStr "Airport Terminal") = Ok 335%float
  ∧ calculate_fare (JInt 0) (JStr "Downtown") = Ok 50%float.
Proof.
  intros Hov Hzone d.
  destruct (surcharge_test zone_name Hzone) as (b & Hb & Hair).
  assert (calculate_fare distance_km zone_name
          = Ok (PyFloat.round2 (if b then (50 + d * 18.5 + 100)%float
                                else (50 + d * 18.5)%float))) as Hfare.
  { unfold calculate_fare. rewrite (distance_or_zero _ Hov). simpl.
    rewrite Hb. simpl. by destruct b. }
  split; [|split; [|split]].
  - intros Ha. apply Hair in Ha. by rewrite Hfare, Ha.
  - intros Hna. rewrite Hfare. destruct b; [|done]. destruct Hna. by apply Hair.
  - vm_compute. reflexivity.
  - vm_compute. reflexivity.
Qed.

End FareProperties.

(** ** Validation *)

Section ValidationProperties.
Context `{PyBuiltins}.
Import ProcessAndStore.

Lemma is_missing_spec (trip_data : gmap string value) field :
  is_missing trip_data field = true
  ↔ trip_data !! field = None ∨ trip_data !! field = Some JNull.
Proof.
  unfold is_missing. destruct (trip_data !! field) as [[]|]; split;
    first [done | tauto | intros [Hm | Hm]; discriminate].
Qed.

Lemma validate_missing (trip_data : gmap string value) :
  filter (λ field, is_missing trip_data field = true) required_fields ≠ [] →
  validate_trip_data trip_data
  = Ok (false,
        [Text ("Missing required fields: "
               +:+ repr_str_list
                     (filter (λ field, is_missing trip_data field = true)
                             required_fields))]).
Proof.
  intros Hne. unfold validate_trip_data.
  by rewrite (bool_decide_eq_false_2 _ Hne).
Qed.

(** C5. A record in which at least one of the 8 required fields is absent or
    null fails validation, and the message is "Missing required fields: "
    followed by the list of names that holds exactly the missing fields, in
    the order trip_id, taxi_id, pickup_datetime, pickup_lat, pickup_long,
    drop_lat, drop_long, distance_km. *)
Theorem validation_names_missing_fields (trip_data : gmap string value) :
  (∃ field, field ∈ required_fields
            ∧ (trip_data !! field = None ∨ trip_data !! field = Some JNull)) →
  ∃ names,
    validate_trip_data trip_data
    = Ok (false, [Text ("Missing required fields: " +:+ repr_str_list names)])
    ∧ (∀ field, field ∈ names
                ↔ field ∈ required_fields
                  ∧ (trip_data !! field = None ∨ trip_data !! field = Some JNull))
    ∧ sublist names required_fields
    ∧ required_fields
      = ["trip_id"; "taxi_id"; "pickup_datetime"; "pickup_lat"; "pickup_long";
         "drop_lat"; "drop_long"; "distance_km"].
Proof.
  intros (field & Hreq & Hmiss).
  set (names := filter (λ field, is_missing trip_data field = true) required_fields).
  assert (∀ f, f ∈ names
               ↔ f ∈ required_fields
                 ∧ (trip_data !! f = None ∨ trip_data !! f = Some JNull)) as Hnames.
  { intros f. unfold names. rewrite list_elem_of_filter, is_missing_spec. tauto. }
  exists names. split; [|split; [done|split; [apply sublist_filter | done]]].
  apply validate_missing. fold names. intros Hnil.
  assert (field ∈ names) as Hin by (apply Hnames; done).
  rewrite Hnil in Hin. by apply not_elem_of_nil in Hin.
Qed.

End ValidationProperties.

(** ** Defaults *)

Section DefaultsProperties.
Import ProcessAndStore.

Lemma setdefault_lookup k v (d : gmap string value) k' :
  setdefault k v d !! k'
  = match d !! k' with
    | Some x => Some x
    | None => if decide (k = k') then Some v else None
    end.
Proof.
  unfold setdefault. destruct (d !! k) as [x|] eqn:Hk.
  - destruct (d !! k') as [x'|] eqn:Hk'; [done|].
    case_decide; [congruence | done].
  - rewrite lookup_insert. case_decide as Hd.
    + subst k'. by rewrite Hk.
    + by destruct (d !! k').
Qed.

Lemma setdefault_present k v (d : gmap string value) k' x :
  d !! k' = Some x → setdefault k v d !! k' = Some x.
Proof. intros Hx. by rewrite setdefault_lookup, Hx. Qed.

Lemma setdefault_idempotent k v (d : gmap string value) :
  setdefault k v (setdefault k v d) = setdefault k v d.
Proof.
  apply map_eq. intros k'. rewrite !setdefault_lookup.
  destruct (d !! k'); [done|]. by case_decide.
Qed.

Lemma set_defaults_lookup (d : gmap string value) k :
  set_defaults d !! k
  = match d !! k with
    | Some x => Some x
    | None => (list_to_map default_values : gmap string value) !! k
    end.
Proof.
  unfold set_defaults. rewrite !setdefault_lookup.
  destruct (d !! k) as [x|]; [done|].
  repeat (case_decide; [subst k; reflexivity|]).
  unfold default_values. simpl.
  by rewrite !lookup_insert_ne, lookup_empty.
Qed.

(** C9. Applying the defaulting step twice gives the record that applying it
    once gives; a field that is present keeps its value; an absent
    passenger_count, extra_charges, tip_amount, tolls_amount or payment_type
    becomes 0, 0.0, 0.0, 0.0 or "CASH". *)
Theorem set_defaults_idempotent (trip_data : gmap string value) :
  set_defaults (set_defaults trip_data) = set_defaults trip_data
  ∧ (∀ field v, trip_data !! field = Some v → set_defaults trip_data !! field = Some v)
  ∧ (∀ field v, (field, v) ∈ default_values →
                trip_data !! field = None → set_defaults trip_data !! field = Some v).
Proof.
  split; [|split].
  - apply map_eq. intros k. rewrite !set_defaults_lookup.
    destruct (trip_data !! k) as [x|]; [done|]. by destruct (_ !! k).
  - intros field v Hv. by rewrite set_defaults_lookup, Hv.
  - intros field v Hin Hnone. rewrite set_defaults_lookup, Hnone.
    unfold default_values in *.
    repeat (apply elem_of_cons in Hin as [[= -> ->] | Hin]; [reflexivity|]).
    by apply not_elem_of_nil in Hin.
Qed.

End DefaultsProperties.

(** ** One record of the Fare & Persistence stage *)

Section RecordProperties.
Context `{PyBuiltins} `{ProcessAndStore.Services}.
Import ProcessAndStore.

Lemma validate_true_nothing_missing (trip_data : gmap string value) msg :
  validate_trip_data trip_data = Ok (true, msg) →
  ∀ field, field ∈ required_fields → is_missing trip_data field = false.
Proof.
  unfold validate_trip_data. intros Hv field Hin.
  destruct (bool_decide_reflect
              (filter (λ f, is_missing trip_data f = true) required_fields = []))
    as [Hnil | Hne]; simpl in Hv; [|discriminate].
  destruct (is_missing trip_data field) eqn:Hm; [|done].
  by destruct (filter_nil_not_elem_of _ _ field Hnil Hm).
Qed.

Lemma not_missing_lookup (trip_data : gmap string value) field :
  is_missing trip_data field = false →
  ∃ v, trip_data !! field = Some v ∧ v ≠ JNull.
Proof.
  unfold is_missing. destruct (trip_data !! field) as [v|]; [|done].
  intros Hm. exists v. split; [done|]. by intros ->.
Qed.

(** What the defaulting step leaves in a charge field is the value of the
    record, or 0.0 without one. *)
Lemma defaulted_charge (trip_data : gmap string value) fare field :
  field ∈ ["extra_charges"; "tip_amount"; "tolls_amount"] →
  dict_get_default (set_defaults (<["fare_amount" := fare]> trip_data)) field (JFloat 0)
  = dict_get_default trip_data field (JFloat 0).
Proof.
  intros Hin. unfold dict_get_default. rewrite set_defaults_lookup.
  repeat (apply elem_of_cons in Hin as [-> | Hin];
          [rewrite lookup_insert_ne by done; by destruct (trip_data !! _)|]).
  by apply not_elem_of_nil in Hin.
Qed.

(** The fare, the total and the key of the item that [finalize] builds. *)
Lemma finalize_item (trip_data td : gmap string value) item :
  finalize trip_data = Ok (td, item) →
  ∃ fare extra tip tolls,
    calculate_fare (dict_get trip_data "distance_km") (dict_get trip_data "zone_name")
    = Ok fare
    ∧ py_float (dict_get_default trip_data "extra_charges" (JFloat 0)) = Ok extra
    ∧ py_float (dict_get_default trip_data "tip_amount" (JFloat 0)) = Ok tip
    ∧ py_float (dict_get_default trip_data "tolls_amount" (JFloat 0)) = Ok tolls
    ∧ item_fare_amount item = DecimalOf (JFloat fare)
    ∧ item_total_amount item
      = DecimalOf (JFloat (PyFloat.round2 (fare + extra + tip + tolls)%float))
    ∧ dict_item trip_data "trip_id" = Ok (item_trip_id item).
Proof.
  intros Hfin. unfold finalize in Hfin. cbv zeta in Hfin.
  apply bind_Ok in Hfin as (fare & Hfare & Hfin).
  apply bind_Ok in Hfin as ([] & _ & Hfin).
  rewrite !defaulted_charge in Hfin by set_solver.
  apply bind_Ok in Hfin as (extra & Hextra & Hfin).
  apply bind_Ok in Hfin as (tip & Htip & Hfin).
  apply bind_Ok in Hfin as (tolls & Htolls & Hfin).
  apply bind_Ok in Hfin as (item' & Hitem & [= <- <-]).
  exists fare, extra, tip, tolls. repeat (split; [done|]).
  unfold dynamodb_item in Hitem. cbv zeta in Hitem.
  apply bind_Ok in Hitem as (trip_id & Htrip & Hitem).
  unfold dict_get_default in Hitem. rewrite lookup_insert_eq in Hitem.
  inv_bind. simpl in *. inv_bind. simpl.
  repeat split.
  unfold dict_item in *. rewrite lookup_insert_ne in Htrip by done.
  rewrite set_defaults_lookup, lookup_insert_ne in Htrip by done.
  by destruct (trip_data !! "trip_id").
Qed.

Lemma filter_agree {A} (P Q : A → Prop)
  `{∀ x, Decision (P x)} `{∀ x, Decision (Q x)} (l : list A) :
  (∀ x, x ∈ l → (P x ↔ Q x)) → filter P l = filter Q l.
Proof.
  induction l as [|a l IH]; intros Hag; [done|].
  rewrite !filter_cons, IH by (intros x Hx; apply Hag; by right).
  pose proof (Hag a ltac:(by left)) as Ha.
  destruct (decide (P a)), (decide (Q a)); tauto.
Qed.

Lemma numeric_fields_required f : f ∈ numeric_fields → f ∈ required_fields.
Proof.
  unfold numeric_fields, required_fields. intros Hf.
  repeat (apply elem_of_cons in Hf as [-> | Hf]; [by repeat constructor|]).
  by apply not_elem_of_nil in Hf.
Qed.

Lemma validate_numeric_agree (d d' : gmap string value) fields :
  (∀ f, f ∈ fields → d !! f = d' !! f) →
  validate_numeric d fields = validate_numeric d' fields.
Proof.
  induction fields as [|f fields IH]; intros Hag; [done|]. simpl.
  unfold dict_item. rewrite (Hag f) by (by left).
  rewrite IH by (intros x Hx; apply Hag; by right). done.
Qed.

(** Validation reads the required fields only. *)
Lemma validate_agree (d d' : gmap string value) :
  (∀ f, f ∈ required_fields → d !! f = d' !! f) →
  validate_trip_data d = validate_trip_data d'.
Proof.
  intros Hag. unfold validate_trip_data.
  rewrite (filter_agree (λ f, is_missing d f = true) (λ f, is_missing d' f = true)).
  - rewrite (validate_numeric_agree d d'); [done|].
    intros f Hf. apply Hag. by apply numeric_fields_required.
  - intros f Hf. unfold is_missing. by rewrite (Hag f Hf).
Qed.

Lemma get_default_insert_ne (d : gmap string value) k v k' dflt :
  k ≠ k' → dict_get_default (<[k := v]> d) k' dflt = dict_get_default d k' dflt.
Proof. intros Hne. unfold dict_get_default. by rewrite lookup_insert_ne. Qed.

(** A total_amount that comes with the record has no part in what
    [finalize] computes. *)
Lemma finalize_ignores_total (trip_data : gmap string value) upstream :
  finalize (<["total_amount" := upstream]> trip_data) = finalize trip_data.
Proof.
  assert (∀ total fare,
    <["total_amount" := total]>
      (set_defaults (<["fare_amount" := fare]> (<["total_amount" := upstream]> trip_data)))
    = <["total_amount" := total]> (set_defaults (<["fare_amount" := fare]> trip_data)))
    as Hdict.
  { intros total fare. apply map_eq. intros k.
    destruct (decide (k = "total_amount")) as [->|Hk].
    - by rewrite !lookup_insert_eq.
    - rewrite !lookup_insert_ne by done. rewrite !set_defaults_lookup.
      destruct (decide (k = "fare_amount")) as [->|Hk'].
      + by rewrite !lookup_insert_eq.
      + by rewrite !lookup_insert_ne by done. }
  unfold finalize. cbv zeta. unfold dict_get.
  rewrite !lookup_insert_ne by done.
  destruct (calculate_fare _ _) as [fare|e]; [simpl|done].
  rewrite !lookup_insert_ne by done.
  destruct (Stdout.print _) as [[]|e]; [simpl|done].
  rewrite !defaulted_charge by set_solver.
  rewrite !get_default_insert_ne by done.
  destruct (py_float (dict_get_default trip_data "extra_charges" _)); simpl; [|done].
  destruct (py_float (dict_get_default trip_data "tip_amount" _)); simpl; [|done].
  destruct (py_float (dict_get_default trip_data "tolls_amount" _)); simpl; [|done].
  by rewrite Hdict.
Qed.

Lemma prepare_ignores_total (trip_data : gmap string value) upstream :
  prepare (Ok (JObj (<["total_amount" := upstream]> trip_data)))
  = prepare (Ok (JObj trip_data)).
Proof.
  unfold prepare, dict_get_default. simpl. rewrite lookup_insert_ne by done.
  destruct (Stdout.print _) as [[]|e]; [simpl|done].
  rewrite (validate_agree (<["total_amount" := upstream]> trip_data) trip_data).
  - destruct (validate_trip_data trip_data) as [[[] msg]|e]; simpl; [|done|done].
    by rewrite finalize_ignores_total.
  - intros f Hf. rewrite lookup_insert_ne; [done|].
    intros <-. unfold required_fields in Hf.
    repeat (apply elem_of_cons in Hf as [[=] | Hf]). by apply not_elem_of_nil in Hf.
Qed.

(** A record that is ready to be written was a dict that passed validation. *)
Lemma prepare_ready record (td : gmap string value) item :
  prepare record = Ok (inr (td, item)) →
  ∃ trip_data msg,
    record = Ok (JObj trip_data)
    ∧ validate_trip_data trip_data = Ok (true, msg)
    ∧ finalize trip_data = Ok (td, item).
Proof.
  unfold prepare. intros Hp.
  apply bind_Ok in Hp as (decoded & -> & Hp).
  apply bind_Ok in Hp as (trip_data & Hd & Hp).
  destruct decoded; try discriminate. injection Hd as ->.
  cbv zeta in Hp. apply bind_Ok in Hp as ([] & _ & Hp).
  apply bind_Ok in Hp as ([is_valid msg] & Hv & Hp).
  destruct is_valid; simpl in Hp.
  - apply bind_Ok in Hp as ([td' item'] & Hfin & [= <- <-]).
    by exists trip_data, msg.
  - by apply bind_Ok in Hp as ([] & _ & [=]).
Qed.

(** The three ways the [try] block ends. *)
Lemma process_record_inv w record w' o :
  process_record w record = (w', o) →
  match o with
  | Ok Stored =>
      ∃ td item,
        prepare record = Ok (inr (td, item))
        ∧ w' = {| table := table w ++ [item];
                  delivery_stream := delivery_stream w ++ [firehose_data td] |}
  | Ok (Rejected msg) => prepare record = Ok (inl msg) ∧ w' = w
  | Raise e =>
      w' = w
      ∨ ∃ td item,
          prepare record = Ok (inr (td, item))
          ∧ w' = {| table := table w ++ [item]; delivery_stream := delivery_stream w |}
  end.
Proof.
  unfold process_record.
  destruct (prepare record) as [[msg | [td item]] | e].
  - intros [= <- <-]. done.
  - destruct (put_item w item) as [[]|e].
    + destruct (put_record _ _) as [[]|e]; simpl; intros [= <- <-]; eauto.
    + intros [= <- <-]. by left.
  - intros [= <- <-]. by left.
Qed.

(** One record adds at most one item to the table, the item of a record that
    passed validation. *)
Lemma process_record_table w record w' o :
  process_record w record = (w', o) →
  table w' = table w
  ∨ ∃ td item, prepare record = Ok (inr (td, item)) ∧ table w' = table w ++ [item].
Proof.
  intros Hp. apply process_record_inv in Hp.
  destruct o as [[|msg]|e].
  - destruct Hp as (td & item & Hprep & ->). right. by exists td, item.
  - destruct Hp as [_ ->]. by left.
  - destruct Hp as [-> | (td & item & Hprep & ->)]; [by left|].
    right. by exists td, item.
Qed.

End RecordProperties.

(** ** A batch of the Fare & Persistence stage *)

Section BatchProperties.
Context `{PyBuiltins} `{ProcessAndStore.Services}.
Import ProcessAndStore.

Lemma count_total os : (count_stored os + count_failed os = length os)%nat.
Proof. induction os as [|[[|msg]|e] os IH]; simpl; lia. Qed.

Lemma length_outcomes records w : length (outcomes records w) = length records.
Proof.
  revert w. induction records as [|record rest IH]; intros w; [done|].
  simpl. destruct (process_record w record) as [w1 o]. simpl. by rewrite IH.
Qed.

(** A record that went through steps 1 to 4 had its trip_id printed. *)
Lemma prepare_prints record x : prepare record = Ok x → trip_id_prints record.
Proof.
  unfold prepare, trip_id_prints. intros Hp.
  apply bind_Ok in Hp as (decoded & -> & Hp).
  apply bind_Ok in Hp as (trip_data & Hd & Hp).
  destruct decoded; try discriminate. injection Hd as ->.
  cbv zeta in Hp. apply bind_Ok in Hp as ([] & Hprint & _).
  apply print_Ok in Hprint. rewrite forallb_forall in Hprint.
  apply Hprint. simpl. tauto.
Qed.

Lemma first_line_prints (trip_data : gmap string value) :
  trip_id_prints (Ok (JObj trip_data)) →
  Stdout.print [Symbol 0x1F527; Text " Processing Trip ID: ";
                StrOf (dict_get_default trip_data "trip_id" (JStr "N/A"))] = Ok ().
Proof. intros Hid. apply print_Ok. cbn [forallb]. by rewrite Hid. Qed.

Lemma error_line_prints record e :
  trip_id_prints record → Stdout.print (error_line (trip_id_of record) e) = Ok ().
Proof.
  unfold trip_id_prints, error_line. intros Hid. apply print_Ok.
  destruct (isinstance e JSONDecodeError); cbn [forallb]; by rewrite Hid.
Qed.

(** When every report can be printed, the loop counts what the per-record
    results say and ends in [final_world]. *)
Lemma for_records_run records w processed failed :
  Forall trip_id_prints records →
  for_records records w processed failed
  = (final_world records w,
     Ok ((processed + count_stored (outcomes records w))%nat,
         (failed + count_failed (outcomes records w))%nat)).
Proof.
  intros Hall. revert w processed failed.
  induction Hall as [|record rest Hid Hall IH]; intros w processed failed; simpl.
  - by rewrite !Nat.add_0_r.
  - destruct (process_record w record) as [w1 [[|msg]|e]]; simpl.
    + by rewrite IH, Nat.add_succ_r.
    + by rewrite IH, Nat.add_succ_r.
    + by rewrite (error_line_prints _ _ Hid), IH, Nat.add_succ_r.
Qed.

Lemma lambda_handler_run env w records :
  configured env →
  Forall trip_id_prints records →
  lambda_handler env w records
  = (final_world records w,
     Ok {| statusCode := 200;
           body := SummaryBody
                     ("Successfully processed "
                      +:+ pretty (count_stored (outcomes records w))
                      +:+ " records from SQS")
                     (count_stored (outcomes records w))
                     (count_failed (outcomes records w))
                     (length records) |}).
Proof.
  intros [Ht Hs] Hall. unfold lambda_handler. rewrite Ht, Hs. simpl.
  by rewrite for_records_run.
Qed.

(** Every item the loop adds to the table, however it ends, is the item of one
    of its records. *)
Lemma for_records_items records w processed failed w' r :
  for_records records w processed failed = (w', r) →
  ∃ items,
    table w' = table w ++ items
    ∧ Forall (λ item, ∃ record, record ∈ records ∧ item_of record item) items.
Proof.
  revert w processed failed.
  induction records as [|record rest IH]; intros w processed failed; simpl.
  - intros [= <- _]. exists []. by rewrite app_nil_r.
  - destruct (process_record w record) as [w1 o] eqn:Hp.
    assert (∀ items,
              table w' = table w1 ++ items
              ∧ Forall (λ item, ∃ r, r ∈ rest ∧ item_of r item) items →
              ∃ items,
                table w' = table w ++ items
                ∧ Forall (λ item, ∃ r, r ∈ record :: rest ∧ item_of r item) items)
      as Hstep.
    { intros items [Htab Hall].
      assert (Forall (λ item, ∃ r, r ∈ record :: rest ∧ item_of r item) items) as Hall'.
      { eapply Forall_impl; [exact Hall|]. intros item (r' & Hr & Hi).
        exists r'. split; [by right | done]. }
      destruct (process_record_table _ _ _ _ Hp) as [Hsame | (td & item & Hprep & Hadd)].
      - exists items. by rewrite Htab, Hsame.
      - exists (item :: items). split.
        + by rewrite Htab, Hadd, <- app_assoc.
        + constructor; [|done]. exists record. split; [by left | by exists td]. }
    destruct o as [[|msg]|e].
    + intros Hrun. destruct (IH _ _ _ Hrun) as (items & Hitems). eauto.
    + intros Hrun. destruct (IH _ _ _ Hrun) as (items & Hitems). eauto.
    + destruct (Stdout.print _).
      * intros Hrun. destruct (IH _ _ _ Hrun) as (items & Hitems). eauto.
      * intros [= <- _]. apply (Hstep []). by rewrite app_nil_r.
Qed.

Lemma lambda_handler_items env w records w' resp :
  lambda_handler env w records = (w', resp) →
  ∃ items,
    table w' = table w ++ items
    ∧ Forall (λ item, ∃ record, record ∈ records ∧ item_of record item) items.
Proof.
  unfold lambda_handler. destruct (_ || _).
  - intros [= <- _]. exists []. by rewrite app_nil_r.
  - destruct (for_records records w 0 0) as [w1 [[processed failed]|e]] eqn:Hrun;
      intros [= <- _]; by eapply for_records_items.
Qed.

(** Every item a batch adds to the table is the item of one of its records. *)
Lemma final_world_items records w :
  ∃ items,
    table (final_world records w) = table w ++ items
    ∧ Forall (λ item, ∃ record, record ∈ records ∧ item_of record item) items.
Proof.
  revert w. induction records as [|record rest IH]; intros w; simpl.
  - exists []. by rewrite app_nil_r.
  - destruct (process_record w record) as [w1 o] eqn:Hp. simpl.
    destruct (IH w1) as (items & Htab & Hall).
    assert (Forall (λ item, ∃ r, r ∈ record :: rest ∧ item_of r item) items) as Hall'.
    { eapply Forall_impl; [exact Hall|]. intros item (r & Hr & Hi).
      exists r. split; [by right | done]. }
    destruct (process_record_table _ _ _ _ Hp) as [Hsame | (td & item & Hprep & Hadd)].
    + exists items. by rewrite Htab, Hsame.
    + exists (item :: items). split.
      * by rewrite Htab, Hadd, <- app_assoc.
      * constructor; [|done]. exists record. split; [by left | by exists td].
Qed.

Lemma final_world_stored records w n :
  outcomes records w = replicate n (Ok Stored) →
  ∃ items docs,
    table (final_world records w) = table w ++ items
    ∧ delivery_stream (final_world records w) = delivery_stream w ++ docs
    ∧ Forall2 item_of records items
    ∧ length docs = n.
Proof.
  revert w n. induction records as [|record rest IH]; intros w n; simpl.
  - destruct n; [|done]. intros _. exists [], []. by rewrite !app_nil_r.
  - destruct (process_record w record) as [w1 o] eqn:Hp. simpl.
    destruct n as [|n]; [done|]. simpl. intros [= -> Hrest].
    apply process_record_inv in Hp as (td & item & Hprep & ->).
    destruct (IH _ _ Hrest) as (items & docs & Htab & Hdel & Hall & Hlen).
    exists (item :: items), (firehose_data td :: docs). simpl in *.
    rewrite Htab, Hdel, <- !app_assoc. repeat split; [|by rewrite Hlen].
    constructor; [by exists td | done].
Qed.

(** A record that does not pass validation changes nothing and does not
    reach the end of the [try] block. *)
Lemma process_record_not_validated w record w' o :
  ¬ passes_validation record →
  process_record w record = (w', o) → w' = w ∧ o ≠ Ok Stored.
Proof.
  intros Hfail Hp. apply process_record_inv in Hp.
  assert (∀ td item, prepare record ≠ Ok (inr (td, item))) as Hprep.
  { intros td item Hprep. apply Hfail.
    apply prepare_ready in Hprep as (trip_data & msg & -> & Hvalid & _).
    by exists trip_data, msg. }
  destruct o as [[|msg]|e].
  - destruct Hp as (td & item & Hready & _). by destruct (Hprep td item).
  - by destruct Hp as [_ ->].
  - destruct Hp as [-> | (td & item & Hready & _)]; [done|]. by destruct (Hprep td item).
Qed.

Lemma final_world_one_failed i records w j o record :
  records !! i = Some record →
  ¬ passes_validation record →
  outcomes records w = replicate i (Ok Stored) ++ o :: replicate j (Ok Stored) →
  o ≠ Ok Stored
  ∧ ∃ items docs,
      table (final_world records w) = table w ++ items
      ∧ delivery_stream (final_world records w) = delivery_stream w ++ docs
      ∧ Forall2 item_of (take i records ++ drop (S i) records) items
      ∧ length docs = (i + j)%nat.
Proof.
  revert records w. induction i as [|i IH]; intros [|r rest] w; simpl; try done.
  - intros [= ->] Hfail.
    destruct (process_record w record) as [w1 o1] eqn:Hp. simpl. intros [= -> Hrest].
    destruct (process_record_not_validated _ _ _ _ Hfail Hp) as [-> Hne].
    split; [done|]. rewrite drop_0. by apply final_world_stored.
  - intros Hi Hfail.
    destruct (process_record w r) as [w1 o1] eqn:Hp. simpl. intros [= -> Hrest].
    apply process_record_inv in Hp as (td & item & Hprep & ->).
    destruct (IH _ _ Hi Hfail Hrest) as (Hne & items & docs & Htab & Hdel & Hall & Hlen).
    split; [done|].
    exists (item :: items), (firehose_data td :: docs). simpl in *.
    rewrite Htab, Hdel, <- !app_assoc. repeat split; [|by rewrite Hlen].
    constructor; [by exists td | done].
Qed.

Lemma counts_one_failed i j (o : result outcome) :
  o ≠ Ok Stored →
  count_stored (replicate i (Ok Stored) ++ o :: replicate j (Ok Stored)) = (i + j)%nat
  ∧ count_failed (replicate i (Ok Stored) ++ o :: replicate j (Ok Stored)) = 1%nat.
Proof.
  intros Hne. induction i as [|i [IHs IHf]]; simpl.
  - assert (count_stored (replicate j (Ok Stored)) = j
            ∧ count_failed (replicate j (Ok Stored)) = 0%nat) as [Hs Hf].
    { induction j as [|j [IHs IHf]]; simpl; [done|]. by rewrite IHs. }
    destruct o as [[|msg]|e]; [done| |]; by rewrite Hs, Hf.
  - by rewrite IHs.
Qed.

End BatchProperties.

(** ** The Fare & Persistence stage: totals, keys, batches, the dual write *)

Section StageTheorems.
Context `{PyBuiltins} `{ProcessAndStore.Services}.
Import ProcessAndStore.

(** C2. When the handler writes the item of a record to the primary store,
    its total_amount is [Decimal(str(round(fare + extra_charges + tip_amount +
    tolls_amount, 2)))], where [fare] is what [calculate_fare] has just
    returned (and is the item's fare_amount) and the three charges are the
    floats of the record's fields, 0.0 for an absent one; whatever
    total_amount the record came with, the same item is written. *)
Theorem total_amount_recomputed w (trip_data : gmap string value) w' o item :
  process_record w (Ok (JObj trip_data)) = (w', o) →
  table w' = table w ++ [item] →
  (∃ fare extra tip tolls,
     calculate_fare (dict_get trip_data "distance_km") (dict_get trip_data "zone_name")
     = Ok fare
     ∧ py_float (dict_get_default trip_data "extra_charges" (JFloat 0)) = Ok extra
     ∧ py_float (dict_get_default trip_data "tip_amount" (JFloat 0)) = Ok tip
     ∧ py_float (dict_get_default trip_data "tolls_amount" (JFloat 0)) = Ok tolls
     ∧ item_fare_amount item = DecimalOf (JFloat fare)
     ∧ item_total_amount item
       = DecimalOf (JFloat (PyFloat.round2 (fare + extra + tip + tolls)%float)))
  ∧ (∀ upstream,
       ∃ w'' o',
         process_record w (Ok (JObj (<["total_amount" := upstream]> trip_data)))
         = (w'', o')
         ∧ table w'' = table w ++ [item]).
Proof.
  intros Hp Htab.
  destruct (process_record_table _ _ _ _ Hp) as [Hsame | (td & item' & Hprep & Hadd)].
  { rewrite Hsame in Htab. apply (f_equal length) in Htab.
    rewrite length_app in Htab. simpl in Htab. lia. }
  rewrite Hadd in Htab. apply app_inv_head in Htab as [= ->].
  split.
  - apply prepare_ready in Hprep as (d & msg & [= <-] & _ & Hfin).
    destruct (finalize_item _ _ _ Hfin)
      as (fare & extra & tip & tolls & ? & ? & ? & ? & ? & ? & _).
    by exists fare, extra, tip, tolls.
  - intros upstream.
    destruct (process_record w (Ok (JObj (<["total_amount" := upstream]> trip_data))))
      as [w'' o'] eqn:Hp'.
    exists w'', o'. split; [done|].
    unfold process_record in Hp, Hp'. rewrite prepare_ignores_total in Hp'.
    rewrite Hp in Hp'. injection Hp' as <- _. done.
Qed.

(** C3 (as amended). A record whose trip_id is absent or null is rejected by
    validation: it is counted as failed and the world is left as it was,
    whatever the two services would have answered. Every item a batch adds to
    the primary store carries the trip_id of one of the decoded records of the
    batch, and that trip_id is present and not null. *)
Theorem trip_id_required_before_write :
  (∀ w (trip_data : gmap string value) rest processed failed,
     trip_data !! "trip_id" = None ∨ trip_data !! "trip_id" = Some JNull →
     (∃ msg, process_record w (Ok (JObj trip_data)) = (w, Ok (Rejected msg)))
     ∧ for_records (Ok (JObj trip_data) :: rest) w processed failed
       = for_records rest w processed (S failed))
  ∧ (∀ env w records w' resp,
       lambda_handler env w records = (w', resp) →
       ∃ items,
         table w' = table w ++ items
         ∧ Forall (λ item,
                     ∃ trip_data : gmap string value,
                       Ok (JObj trip_data) ∈ records
                       ∧ trip_data !! "trip_id" = Some (item_trip_id item)
                       ∧ item_trip_id item ≠ JNull) items).
Proof.
  split.
  - intros w trip_data rest processed failed Hmiss.
    assert (∃ msg, prepare (Ok (JObj trip_data)) = Ok (inl msg)) as [msg Hprep].
    { eexists. unfold prepare. simpl.
      assert (Stdout.print [Symbol 0x1F527; Text " Processing Trip ID: ";
                            StrOf (dict_get_default trip_data "trip_id" (JStr "N/A"))]
              = Ok ()) as ->.
      { unfold dict_get_default. by destruct Hmiss as [-> | ->]. }
      simpl. rewrite validate_missing.
      - simpl. unfold dict_get_default. by destruct Hmiss as [-> | ->].
      - intros Hnil. eapply (filter_nil_not_elem_of _ _ "trip_id" Hnil).
        + by apply is_missing_spec.
        + by left. }
    assert (process_record w (Ok (JObj trip_data)) = (w, Ok (Rejected msg))) as Hp.
    { unfold process_record. by rewrite Hprep. }
    split; [by exists msg|]. simpl. by rewrite Hp.
  - intros env w records w' resp Hrun.
    destruct (lambda_handler_items _ _ _ _ _ Hrun) as (items & Htab & Hall).
    exists items. split; [done|].
    eapply Forall_impl; [exact Hall|]. intros item (record & Hin & td & Hprep).
    apply prepare_ready in Hprep as (trip_data & msg & -> & Hvalid & Hfin).
    exists trip_data. split; [done|].
    destruct (finalize_item _ _ _ Hfin)
      as (fare & extra & tip & tolls & _ & _ & _ & _ & _ & _ & Hid).
    pose proof (validate_true_nothing_missing _ _ Hvalid "trip_id" ltac:(by left)) as Hm.
    apply not_missing_lookup in Hm as (v & Hv & Hnn).
    unfold dict_item in Hid. rewrite Hv in Hid. injection Hid as <-. done.
Qed.

(** X23. When both environment variables are set and stdout encodes every
    trip_id of the batch, the batch ends with status 200, a total that is the number
    of records received, and every record counted once, as processed or as
    failed. When one record does not pass validation and every other record
    is written to both sinks, the counts are failed = 1, processed = N - 1,
    total = N, the table has grown by the items of the N - 1 other records,
    in order, and the delivery stream by N - 1 lines. *)
Theorem batch_isolation env w records :
  configured env →
  Forall trip_id_prints records →
  (∃ w' text processed failed,
     lambda_handler env w records
     = (w', Ok {| statusCode := 200;
                  body := SummaryBody text processed failed (length records) |})
     ∧ (processed + failed = length records)%nat)
  ∧ (∀ i j o record,
       records !! i = Some record →
       ¬ passes_validation record →
       outcomes records w = replicate i (Ok Stored) ++ o :: replicate j (Ok Stored) →
       ∃ w' text items docs,
         lambda_handler env w records
         = (w', Ok {| statusCode := 200;
                      body := SummaryBody text (i + j) 1 (i + j + 1) |})
         ∧ length records = (i + j + 1)%nat
         ∧ table w' = table w ++ items
         ∧ Forall2 item_of (take i records ++ drop (S i) records) items
         ∧ delivery_stream w' = delivery_stream w ++ docs
         ∧ length docs = (i + j)%nat).
Proof.
  intros Hcfg Hall. split.
  - do 4 eexists. split; [by apply lambda_handler_run|].
    by rewrite count_total, length_outcomes.
  - intros i j o record Hi Hfail Hout.
    assert (length records = (i + j + 1)%nat) as Hlen.
    { rewrite <- (length_outcomes records w), Hout, length_app. simpl.
      rewrite !length_replicate. lia. }
    destruct (final_world_one_failed _ _ _ _ _ _ Hi Hfail Hout)
      as (Hne & items & docs & Htab & Hdel & Hitems & Hdocs).
    destruct (counts_one_failed i j o Hne) as [Hs Hf].
    exists (final_world records w). eexists. exists items, docs.
    split; [|done].
    rewrite (lambda_handler_run _ _ _ Hcfg Hall), Hout, Hs, Hf, Hlen. done.
Qed.

(** C10. When [put_item] succeeds for the item of a record and [put_record]
    then raises, the record is counted as failed and not as processed, and the
    item stays in the table: the world after the record is the world before it
    with the item added and the delivery stream unchanged. *)
Theorem dual_write_not_atomic w record (td : gmap string value) item e :
  prepare record = Ok (inr (td, item)) →
  put_item w item = Ok () →
  put_record {| table := table w ++ [item]; delivery_stream := delivery_stream w |}
             (firehose_data td) = Raise e →
  let w1 := {| table := table w ++ [item]; delivery_stream := delivery_stream w |} in
  process_record w record = (w1, Raise e)
  ∧ (∀ rest processed failed,
       for_records (record :: rest) w processed failed
       = for_records rest w1 processed (S failed))
  ∧ (∀ env, configured env →
       ∃ text,
         lambda_handler env w [record]
         = (w1, Ok {| statusCode := 200; body := SummaryBody text 0 1 1 |})).
Proof.
  intros Hprep Hitem Hdoc w1.
  assert (process_record w record = (w1, Raise e)) as Hp.
  { unfold process_record. rewrite Hprep, Hitem. simpl. by rewrite Hdoc. }
  pose proof (prepare_prints _ _ Hprep) as Hid.
  split; [done|]. split.
  - intros rest processed failed. simpl. by rewrite Hp, (error_line_prints _ _ Hid).
  - intros env Hcfg. eexists.
    rewrite (lambda_handler_run _ _ _ Hcfg) by (by repeat constructor). simpl.
    rewrite Hp. simpl. done.
Qed.

End StageTheorems.

(** ** The Enrichment stage *)

Section EnrichmentProperties.
Context `{PyBuiltins} `{EnrichTripData.Services}.
Import EnrichTripData.

Lemma coordinates_inv record (trip_data : gmap string value) longitude latitude :
  coordinates record = Ok (trip_data, longitude, latitude) →
  ∃ lon lat,
    record = Ok (JObj trip_data)
    ∧ trip_id_encodable trip_data
    ∧ trip_data !! "longitude" = Some lon ∧ py_float lon = Ok longitude
    ∧ trip_data !! "latitude" = Some lat ∧ py_float lat = Ok latitude.
Proof.
  unfold coordinates. intros Hc.
  apply bind_Ok in Hc as (decoded & -> & Hc).
  apply bind_Ok in Hc as (d & Hd & Hc).
  destruct decoded; try discriminate. injection Hd as ->.
  apply bind_Ok in Hc as ([] & Hprint & Hc).
  apply bind_Ok in Hc as (lon & Hlon & Hc).
  apply bind_Ok in Hc as (x & Hx & Hc).
  apply bind_Ok in Hc as (lat & Hlat & Hc).
  apply bind_Ok in Hc as (y & Hy & [= <- <- <-]).
  unfold dict_item in Hlon, Hlat.
  destruct (d !! "longitude") as [lon'|] eqn:Hlon'; [|done]. injection Hlon as ->.
  destruct (d !! "latitude") as [lat'|] eqn:Hlat'; [|done]. injection Hlat as ->.
  exists lon, lat. split; [done|]. split; [|done].
  apply print_Ok in Hprint. rewrite forallb_forall in Hprint.
  apply Hprint. simpl. tauto.
Qed.

Lemma coordinates_found (trip_data : gmap string value) lon lat longitude latitude :
  trip_id_encodable trip_data →
  trip_data !! "longitude" = Some lon → py_float lon = Ok longitude →
  trip_data !! "latitude" = Some lat → py_float lat = Ok latitude →
  coordinates (Ok (JObj trip_data)) = Ok (trip_data, longitude, latitude).
Proof.
  intros Hid Hlon Hx Hlat Hy. unfold coordinates, dict_item. simpl.
  assert (Stdout.print [Text "Processing Trip ID: ";
                        StrOf (dict_get_default trip_data "trip_id" (JStr "N/A"))]
          = Ok ()) as ->.
  { apply print_Ok. cbn [forallb]. by rewrite Hid. }
  simpl. rewrite Hlon. simpl. rewrite Hx. simpl. rewrite Hlat. simpl. by rewrite Hy.
Qed.

(** A message whose trip_id stdout cannot encode is given up at the first
    line: no query is made and nothing is sent. *)
Lemma coordinates_unprintable (trip_data : gmap string value) :
  ¬ trip_id_encodable trip_data →
  coordinates (Ok (JObj trip_data)) = Raise UnicodeEncodeError.
Proof.
  intros Hid%not_true_is_false. unfold coordinates. simpl.
  erewrite print_unencodable; [done | | exact Hid]. by repeat constructor.
Qed.

(** C4 (as amended). For a decoded message that is a dict whose trip_id
    stdout can encode, so that the first line of the stage is printed, and
    whose longitude and latitude fields are present and convert to floats, the
    stage makes one place query: the point is
    [float(longitude), float(latitude)] of those two fields, MaxResults is 1
    and IndexName is the configured place index. A message for which the
    stage makes a query is such a message; no other field, pickup_long and
    pickup_lat included, is read for the point. *)
Theorem place_query_from_longitude_latitude env w index :
  PLACE_INDEX_NAME env = Some index →
  (∀ (trip_data : gmap string value) lon lat longitude latitude,
     trip_id_encodable trip_data →
     trip_data !! "longitude" = Some lon → py_float lon = Ok longitude →
     trip_data !! "latitude" = Some lat → py_float lat = Ok latitude →
     ∃ w' r,
       process_record env w (Ok (JObj trip_data)) = (w', r)
       ∧ place_queries w'
         = place_queries w
           ++ [{| IndexName := index; Position := [longitude; latitude];
                  MaxResults := 1 |}])
  ∧ (∀ record w' r,
       process_record env w record = (w', r) →
       place_queries w' = place_queries w
       ∨ ∃ (trip_data : gmap string value) lon lat longitude latitude,
           record = Ok (JObj trip_data)
           ∧ trip_id_encodable trip_data
           ∧ trip_data !! "longitude" = Some lon ∧ py_float lon = Ok longitude
           ∧ trip_data !! "latitude" = Some lat ∧ py_float lat = Ok latitude
           ∧ place_queries w'
             = place_queries w
               ++ [{| IndexName := index; Position := [longitude; latitude];
                      MaxResults := 1 |}]).
Proof.
  intros Hindex. split.
  - intros trip_data lon lat longitude latitude Hid Hlon Hx Hlat Hy.
    unfold process_record.
    rewrite (coordinates_found _ _ _ _ _ Hid Hlon Hx Hlat Hy), Hindex. simpl.
    destruct (search_place_index_for_position _ _) as [results|e]; [|by eauto].
    destruct (send_message _ _ _) as [[]|e]; by eauto.
  - intros record w' r. unfold process_record.
    destruct (coordinates record) as [[[trip_data longitude] latitude]|e] eqn:Hc.
    + apply coordinates_inv in Hc as (lon & lat & -> & Hid & Hlon & Hx & Hlat & Hy).
      rewrite Hindex. simpl. intros Hrun. right.
      exists trip_data, lon, lat, longitude, latitude. repeat (split; [done|]).
      destruct (search_place_index_for_position _ _) as [results|e].
      * destruct (send_message _ _ _) as [[]|e]; by injection Hrun as <- _.
      * by injection Hrun as <- _.
    + intros [= <- _]. by left.
Qed.

(** The loop publishes at most one message per record. *)
Lemma for_records_queue env records w :
  (length (queue (for_records env records w)) ≤ length (queue w) + length records)%nat.
Proof.
  revert w. induction records as [|record rest IH]; intros w; simpl; [lia|].
  assert (∀ w1 r, process_record env w record = (w1, r) →
                  (length (queue w1) ≤ length (queue w) + 1)%nat) as Hstep.
  { intros w1 r. unfold process_record.
    destruct (coordinates record) as [[[td x] y]|e]; [|intros [= <- _]; lia].
    destruct (search_place_index_for_position _ _); [|intros [= <- _]; simpl; lia].
    destruct (send_message _ _ _); intros [= <- _]; simpl; [|lia].
    rewrite length_app. simpl. lia. }
  destruct (process_record env w record) as [w1 [u|e]] eqn:Hp;
    [|destruct (isinstance e JSONDecodeError)];
    specialize (IH w1); specialize (Hstep _ _ eq_refl); lia.
Qed.

(** The success answer of the stage counts the records received. *)
Lemma lambda_handler_reports_received env w records :
  is_set (PLACE_INDEX_NAME env) = true → is_set (SQS_QUEUE_URL env) = true →
  (lambda_handler env w records).2
  = {| statusCode := 200;
       body := Some ("Successfully processed " +:+ pretty (length records)
                     +:+ " records and sent to SQS.") |}.
Proof. intros Hi Hq. unfold lambda_handler. by rewrite Hi, Hq. Qed.

End EnrichmentProperties.

(** ** The producer *)

Section ProducerProperties.
Context `{PyBuiltins} `{Producer.Services}.
Variable BATCH_SIZE : Z.
Import Producer.

Lemma lstrip_all p s :
  forallb p (list_ascii_of_string s) = true → lstrip p s = "".
Proof.
  induction s as [|c s IH]; simpl; [done|].
  intros [Hc Hs]%andb_prop. rewrite Hc. by apply IH.
Qed.

(** A row without the pickup_datetime key, or with a pickup_datetime made of
    white space only, is to be skipped. *)
Lemma lacks_pickup_datetime_blank (row : gmap string value) :
  row !! "pickup_datetime" = None
  ∨ (∃ s, row !! "pickup_datetime" = Some (JStr s)
          ∧ forallb is_space (list_ascii_of_string s) = true) →
  lacks_pickup_datetime row = Ok true.
Proof.
  unfold lacks_pickup_datetime. intros [-> | (s & -> & Hs)]; [done|].
  simpl. unfold strip. by rewrite lstrip_all.
Qed.

Lemma skip_line_prints (row : gmap string value) :
  trip_id_encodable row →
  Stdout.print [Text "Skipping trip_id ";
                StrOf (dict_get_default row "trip_id" (JStr "N/A"));
                Text ": missing pickup_datetime"] = Ok ().
Proof. intros Hid. apply print_Ok. cbn [forallb]. by rewrite Hid. Qed.

(** A skipped row whose trip_id stdout encodes leaves the buffer and the
    stream as they are, adds one line to the log, and the loop goes on with
    the next row. *)
Lemma for_rows_skip stream_name (row : gmap string value) rest st :
  lacks_pickup_datetime row = Ok true →
  trip_id_encodable row →
  for_rows BATCH_SIZE stream_name (row :: rest) st
  = for_rows BATCH_SIZE stream_name rest
      (print [Text "Skipping trip_id ";
              StrOf (dict_get_default row "trip_id" (JStr "N/A"));
              Text ": missing pickup_datetime"] st).
Proof. intros Hskip Hid. simpl. by rewrite Hskip, (skip_line_prints _ Hid). Qed.

(** A row whose pickup_datetime is None, as [csv.DictReader] fills a short
    row, ends the loop: no row after it is read. *)
Lemma for_rows_none stream_name (row : gmap string value) rest st :
  row !! "pickup_datetime" = Some JNull →
  for_rows BATCH_SIZE stream_name (row :: rest) st = (st, Raise AttributeError).
Proof.
  intros Hnone. simpl. unfold lacks_pickup_datetime. by rewrite Hnone.
Qed.

End ProducerProperties.


(** * The properties at the sample inputs *)

Section FareExamples.
#[local] Existing Instance CPython.builtins.
Import ProcessAndStore.

Lemma calculate_fare_formula_witness :
  py_float (JInt 10) ≠ Raise OverflowError
  ∧ airport_zone (JStr "Airport Terminal")
  ∧ calculate_fare (JInt 10) (JStr "Airport Terminal")
    = Ok (PyFloat.round2 (50 + number_or_zero (JInt 10) * 18.5 + 100)%float).
Proof.
  assert (py_float (JInt 10) ≠ Raise OverflowError) as Hov.
  { intros Hx. vm_compute in Hx. discriminate Hx. }
  assert (airport_zone (JStr "Airport Terminal")) as Hair.
  { left. exists "Airport Terminal". split; [reflexivity|].
    exists "", " Terminal". reflexivity. }
  split; [exact Hov|]. split; [exact Hair|].
  destruct (calculate_fare_formula (JInt 10) (JStr "Airport Terminal") Hov)
    as (Hyes & _).
  - right. left. exists "Airport Terminal". reflexivity.
  - exact (Hyes Hair).
Defined.

(** C1, as stated, fails: an integer too large for a float makes
    [calculate_fare] raise OverflowError, and a zone_name that is a number
    makes it raise TypeError. *)
Lemma calculate_fare_raises :
  calculate_fare (JInt (10 ^ 400)) (JStr "Downtown") = Raise OverflowError
  ∧ calculate_fare (JInt 10) (JInt 5) = Raise TypeError.
Proof. split; vm_compute; reflexivity. Qed.

Lemma validation_names_missing_fields_witness :
  Samples.trip_without_drop_lat !! "drop_lat" = None
  ∧ ∃ names,
      validate_trip_data Samples.trip_without_drop_lat
      = Ok (false, [Text ("Missing required fields: " +:+ repr_str_list names)])
      ∧ (∀ field, field ∈ names
                  ↔ field ∈ required_fields
                    ∧ (Samples.trip_without_drop_lat !! field = None
                       ∨ Samples.trip_without_drop_lat !! field = Some JNull)).
Proof.
  assert (Samples.trip_without_drop_lat !! "drop_lat" = None) as Hnone
    by (vm_compute; reflexivity).
  split; [exact Hnone|].
  destruct (validation_names_missing_fields Samples.trip_without_drop_lat)
    as (names & Hv & Hnames & _).
  - exists "drop_lat". split; [|left; exact Hnone].
    unfold required_fields. do 5 right. left.
  - exists names. split; [exact Hv | exact Hnames].
Defined.

(** The message for the sample record, as printed. *)
Example validation_message_example :
  validate_trip_data (delete "taxi_id" Samples.trip_without_drop_lat)
  = Ok (false, [Text "Missing required fields: ['taxi_id', 'drop_lat']"]).
Proof. vm_compute. reflexivity. Qed.

Lemma set_defaults_idempotent_witness :
  Samples.trip !! "tip_amount" = Some (JFloat 1.25)
  ∧ Samples.trip !! "payment_type" = None
  ∧ set_defaults Samples.trip !! "tip_amount" = Some (JFloat 1.25)
  ∧ set_defaults Samples.trip !! "payment_type" = Some (JStr "CASH")
  ∧ set_defaults (set_defaults Samples.trip) = set_defaults Samples.trip.
Proof.
  assert (Samples.trip !! "tip_amount" = Some (JFloat 1.25)) as Htip
    by (vm_compute; reflexivity).
  assert (Samples.trip !! "payment_type" = None) as Hpay by (vm_compute; reflexivity).
  destruct (set_defaults_idempotent Samples.trip) as (Hidem & Hkeep & Hfill).
  split; [exact Htip|]. split; [exact Hpay|].
  split; [exact (Hkeep _ _ Htip)|]. split; [|exact Hidem].
  apply Hfill; [|exact Hpay]. unfold default_values. do 4 right. left.
Defined.

End FareExamples.

Section StoreExamples.
#[local] Existing Instance CPython.builtins.
#[local] Existing Instance Samples.sinks_up.
Import ProcessAndStore.

Lemma total_amount_recomputed_witness :
  ∃ w' o item,
    process_record Samples.empty_store (Ok (JObj Samples.trip)) = (w', o)
    ∧ table w' = table Samples.empty_store ++ [item]
    ∧ Samples.trip !! "total_amount" = Some (JInt 999)
    ∧ item_fare_amount item = DecimalOf (JFloat 198)
    ∧ item_total_amount item = DecimalOf (JFloat 201.75).
Proof.
  destruct (process_record Samples.empty_store (Ok (JObj Samples.trip)))
    as [w' o] eqn:Hrun.
  assert (∃ item, table w' = table Samples.empty_store ++ [item]) as [item Htab].
  { vm_compute in Hrun. injection Hrun as <- _. eexists. reflexivity. }
  exists w', o, item. split; [reflexivity|]. split; [exact Htab|].
  split; [vm_compute; reflexivity|].
  destruct (total_amount_recomputed _ _ _ _ _ Hrun Htab)
    as [(fare & extra & tip & tolls & Hfare & Hextra & Htip & Htolls & Hif & Hit) _].
  vm_compute in Hfare, Hextra, Htip, Htolls.
  injection Hfare as <-. injection Hextra as <-.
  injection Htip as <-. injection Htolls as <-.
  split; [exact Hif|]. rewrite Hit. vm_compute. reflexivity.
Defined.

Lemma trip_id_required_before_write_witness :
  Samples.trip_without_id !! "trip_id" = None
  ∧ ∃ msg,
      process_record Samples.empty_store (Ok (JObj Samples.trip_without_id))
      = (Samples.empty_store, Ok (Rejected msg)).
Proof.
  assert (Samples.trip_without_id !! "trip_id" = None) as Hnone
    by (vm_compute; reflexivity).
  split; [exact Hnone|].
  destruct trip_id_required_before_write as [Hreject _].
  destruct (Hreject Samples.empty_store Samples.trip_without_id [] 0%nat 0%nat
                    (or_introl Hnone)) as [Hmsg _].
  exact Hmsg.
Defined.

(** C3, as stated, fails: a record whose trip_id is the empty string passes
    validation and, when the sinks accept it, is written to the primary store
    under that empty trip_id. *)
Lemma empty_trip_id_is_written :
  Samples.trip_with_empty_id !! "trip_id" = Some (JStr "")
  ∧ validate_trip_data Samples.trip_with_empty_id = Ok (true, [Text "Valid"])
  ∧ ∃ w' item,
      process_record Samples.empty_store (Ok (JObj Samples.trip_with_empty_id))
      = (w', Ok Stored)
      ∧ table w' = [item]
      ∧ item_trip_id item = JStr "".
Proof.
  split; [vm_compute; reflexivity|]. split; [vm_compute; reflexivity|].
  destruct (process_record Samples.empty_store (Ok (JObj Samples.trip_with_empty_id)))
    as [w' o] eqn:Hrun.
  vm_compute in Hrun. injection Hrun as <- <-.
  eexists _, _. split; [reflexivity|]. split; reflexivity.
Qed.

Lemma batch_isolation_witness :
  let records := [Ok (JObj Samples.trip); Ok (JObj Samples.trip_with_huge_pickup_long);
                  Ok (JObj Samples.trip)] in
  configured Samples.store_env
  ∧ Forall trip_id_prints records
  ∧ ¬ passes_validation (Ok (JObj Samples.trip_with_huge_pickup_long))
  ∧ outcomes records Samples.empty_store = [Ok Stored; Raise OverflowError; Ok Stored]
  ∧ ∃ w' text items,
      lambda_handler Samples.store_env Samples.empty_store records
      = (w', Ok {| statusCode := 200; body := SummaryBody text 2 1 3 |})
      ∧ table w' = items
      ∧ length items = 2%nat.
Proof.
  intros records.
  assert (configured Samples.store_env) as Hcfg by (split; reflexivity).
  assert (Forall trip_id_prints records) as Hids by (repeat constructor).
  assert (¬ passes_validation (Ok (JObj Samples.trip_with_huge_pickup_long))) as Hfail.
  { intros (trip_data & msg & [= <-] & Hvalid). vm_compute in Hvalid. discriminate Hvalid. }
  assert (outcomes records Samples.empty_store
          = replicate 1 (Ok Stored) ++ Raise OverflowError :: replicate 1 (Ok Stored))
    as Hout by (vm_compute; reflexivity).
  split; [exact Hcfg|]. split; [exact Hids|]. split; [exact Hfail|]. split; [exact Hout|].
  destruct (batch_isolation Samples.store_env Samples.empty_store records Hcfg Hids)
    as [_ Hone].
  destruct (Hone 1%nat 1%nat _ _ eq_refl Hfail Hout)
    as (w' & text & items & docs & Hrun & _ & Htab & Hitems & _).
  exists w', text, items. split; [exact Hrun|]. split; [exact Htab|].
  apply Forall2_length in Hitems. rewrite <- Hitems. reflexivity.
Defined.

(** C6: the code at a failing input. Of two records, the first with the
    trip_id that [json.loads] makes of ["\ud800"] and the second a trip that
    alone is written to both sinks and counted as processed: the first makes
    the [try] block raise UnicodeEncodeError at the line that prints the
    trip_id, the [except] clause raises it again when it prints the trip_id
    in its turn, and the handler raises: it returns no counts, and the second
    record is not read and not written. *)
Theorem unprintable_trip_id_leaves_the_batch :
  let record := Ok (JObj Samples.trip_with_surrogate_id) in
  process_record Samples.empty_store record
  = (Samples.empty_store, Raise UnicodeEncodeError)
  ∧ lambda_handler Samples.store_env Samples.empty_store [record; Ok (JObj Samples.trip)]
    = (Samples.empty_store, Raise UnicodeEncodeError)
  ∧ ∃ w' text,
      lambda_handler Samples.store_env Samples.empty_store [Ok (JObj Samples.trip)]
      = (w', Ok {| statusCode := 200; body := SummaryBody text 1 0 1 |})
      ∧ length (table w') = 1%nat.
Proof.
  split; [vm_compute; reflexivity|]. split; [vm_compute; reflexivity|].
  destruct (lambda_handler Samples.store_env Samples.empty_store [Ok (JObj Samples.trip)])
    as [w' resp] eqn:Hrun.
  vm_compute in Hrun. injection Hrun as <- <-.
  eexists _, _. split; reflexivity.
Qed.

End StoreExamples.

Section FirehoseDownExamples.
#[local] Existing Instance CPython.builtins.
#[local] Existing Instance Samples.firehose_down.
Import ProcessAndStore.

Lemma dual_write_not_atomic_witness :
  ∃ td item text,
    prepare (Ok (JObj Samples.trip)) = Ok (inr (td, item))
    ∧ put_item Samples.empty_store item = Ok ()
    ∧ put_record {| table := [item]; delivery_stream := [] |} (firehose_data td)
      = Raise ClientError
    ∧ lambda_handler Samples.store_env Samples.empty_store [Ok (JObj Samples.trip)]
      = ({| table := [item]; delivery_stream := [] |},
         Ok {| statusCode := 200; body := SummaryBody text 0 1 1 |}).
Proof.
  assert ((if prepare (Ok (JObj Samples.trip)) is Ok (inr _) then true else false) = true)
    as Hready by (vm_compute; reflexivity).
  destruct (prepare (Ok (JObj Samples.trip))) as [[msg | [td item]] | e] eqn:Hprep;
    [discriminate Hready | clear Hready | discriminate Hready].
  assert (put_item Samples.empty_store item = Ok ()) as Hitem by reflexivity.
  assert (put_record {| table := table Samples.empty_store ++ [item];
                        delivery_stream := delivery_stream Samples.empty_store |}
                     (firehose_data td) = Raise ClientError) as Hdoc by reflexivity.
  destruct (dual_write_not_atomic Samples.empty_store _ td item ClientError Hprep
              Hitem Hdoc) as (_ & _ & Hbatch).
  destruct (Hbatch Samples.store_env (conj eq_refl eq_refl)) as [text Hrun].
  exists td, item, text. split; [reflexivity|]. split; [exact Hitem|].
  split; [exact Hdoc | exact Hrun].
Defined.

End FirehoseDownExamples.

Section EnrichmentExamples.
#[local] Existing Instance CPython.builtins.
#[local] Existing Instance Samples.one_place.
Import EnrichTripData.

Lemma place_query_from_longitude_latitude_witness :
  PLACE_INDEX_NAME Samples.enrich_env = Some "places"
  ∧ trip_id_encodable Samples.stream_trip
  ∧ Samples.stream_trip !! "longitude" = Some (JFloat 10)
  ∧ Samples.stream_trip !! "latitude" = Some (JFloat 20)
  ∧ ∃ w' r,
      process_record Samples.enrich_env Samples.quiet (Ok (JObj Samples.stream_trip))
      = (w', r)
      ∧ place_queries w'
        = [{| IndexName := "places"; Position := [10%float; 20%float];
              MaxResults := 1 |}].
Proof.
  assert (Samples.stream_trip !! "longitude" = Some (JFloat 10)) as Hlon
    by (vm_compute; reflexivity).
  assert (Samples.stream_trip !! "latitude" = Some (JFloat 20)) as Hlat
    by (vm_compute; reflexivity).
  assert (trip_id_encodable Samples.stream_trip) as Hid by reflexivity.
  split; [reflexivity|]. split; [exact Hid|]. split; [exact Hlon|]. split; [exact Hlat|].
  destruct (place_query_from_longitude_latitude Samples.enrich_env Samples.quiet
              "places" eq_refl) as [Hquery _].
  exact (Hquery Samples.stream_trip _ _ _ _ Hid Hlon eq_refl Hlat eq_refl).
Defined.

(** C4, as stated, fails: for a message whose pickup_long and pickup_lat are
    77.5 and 12.5 and whose longitude and latitude are 10 and 20, the one place
    query is made at the point [10, 20]. *)
Lemma place_query_ignores_pickup_fields :
  Samples.stream_trip !! "pickup_long" = Some (JFloat 77.5)
  ∧ Samples.stream_trip !! "pickup_lat" = Some (JFloat 12.5)
  ∧ place_queries
      (lambda_handler Samples.enrich_env Samples.quiet
                      [Ok (JObj Samples.stream_trip)]).1
    = [{| IndexName := "places"; Position := [10%float; 20%float]; MaxResults := 1 |}]
  ∧ [10%float; 20%float] ≠ [77.5%float; 12.5%float].
Proof.
  split; [vm_compute; reflexivity|]. split; [vm_compute; reflexivity|].
  split; [vm_compute; reflexivity|].
  intros Heq. apply (f_equal (λ l, match l with
                                  | x :: _ => PrimFloat.eqb x 10
                                  | [] => false
                                  end)) in Heq.
  vm_compute in Heq. discriminate Heq.
Qed.

(** C7: the code at a failing input. Of two records, one decoded and
    published and one whose payload is not JSON, the answer says that 2
    records were processed and sent to SQS; the queue has received 1. *)
Theorem enrichment_reports_records_received :
  let run := lambda_handler Samples.enrich_env Samples.quiet
               [Ok (JObj Samples.stream_trip); Raise JSONDecodeError] in
  run.2 = {| statusCode := 200;
             body := Some "Successfully processed 2 records and sent to SQS." |}
  ∧ length (queue run.1) = 1%nat.
Proof. split; vm_compute; reflexivity. Qed.

End EnrichmentExamples.

Section ProducerExamples.
#[local] Existing Instance CPython.builtins.
#[local] Existing Instance Samples.kinesis_up.
Import Producer.

(** C8: the code at a failing input. A short row, whose pickup_datetime
    [csv.DictReader] fills with None, is not skipped: the test raises
    AttributeError, the run stops with "Unexpected error", and the full row
    that follows is never read or published. Without the short row the full
    row is published. *)
Theorem short_row_aborts_the_run :
  let run rows := send_data_in_batches 100 "taxi_trips_1000.csv" (Some rows)
                    "taxi-trip-stream" Samples.fresh_run in
  stream (run [Samples.short_row; Samples.full_row]) = []
  ∧ log (run [Samples.short_row; Samples.full_row])
    = [[Text ("Sending data from 'taxi_trips_1000.csv' to Kinesis stream "
              +:+ "'taxi-trip-stream'...")];
       [Text "Unexpected error: "; StrOfExn AttributeError];
       [Text "Finished sending all data."]]
  ∧ (∃ record, stream (run [Samples.full_row]) = [([record], 0)]
               ∧ PartitionKey record = JStr "T2").
Proof.
  split; [vm_compute; reflexivity|]. split; [vm_compute; reflexivity|].
  eexists. split; vm_compute; reflexivity.
Qed.

End ProducerExamples.

(** * Further properties of the Fare & Persistence stage *)

Section ValidationGate.
Context `{PyBuiltins}.
Import ProcessAndStore.

Lemma present_not_missing (trip_data : gmap string value) field :
  present trip_data field ↔ is_missing trip_data field = false.
Proof.
  unfold present, is_missing. split.
  - intros (v & -> & Hv). by destruct v.
  - destruct (trip_data !! field) as [v|]; [|done].
    intros Hm. exists v. split; [done|]. by intros ->.
Qed.

Lemma nothing_missing_filter (trip_data : gmap string value) :
  (∀ field, field ∈ required_fields → present trip_data field) →
  filter (λ field, is_missing trip_data field = true) required_fields = [].
Proof.
  intros Hall. destruct (filter _ _) as [|f l] eqn:Hf; [done|].
  assert (f ∈ filter (λ field, is_missing trip_data field = true) required_fields) as Hin
    by (rewrite Hf; by left).
  apply list_elem_of_filter in Hin as [Hm Hreq].
  apply Hall, present_not_missing in Hreq. congruence.
Qed.

Lemma validate_nothing_missing (trip_data : gmap string value) :
  (∀ field, field ∈ required_fields → present trip_data field) →
  validate_trip_data trip_data = validate_numeric trip_data numeric_fields.
Proof.
  intros Hall. unfold validate_trip_data. by rewrite nothing_missing_filter.
Qed.

(** The loop goes past the fields that convert and stops at the first that
    does not. *)
Lemma validate_numeric_stops (trip_data : gmap string value) before field after v e :
  (∀ f, f ∈ before → ∃ v x, trip_data !! f = Some v ∧ py_float v = Ok x) →
  trip_data !! field = Some v →
  py_float v = Raise e →
  validate_numeric trip_data (before ++ field :: after)
  = if existsb (isinstance e) [ValueError; TypeError]
    then Ok (false, [Text ("Invalid numeric value for " +:+ field +:+ ": "); StrOf v])
    else Raise e.
Proof.
  intros Hbefore Hv He. induction before as [|f before IH]; simpl.
  - unfold dict_item. rewrite Hv. simpl. rewrite He. simpl.
    by destruct (isinstance e ValueError || _).
  - destruct (Hbefore f ltac:(by left)) as (v' & x & Hv' & Hx).
    unfold dict_item. rewrite Hv'. simpl. rewrite Hx. simpl.
    apply IH. intros f' Hf'. apply Hbefore. by right.
Qed.

Lemma validate_numeric_all (trip_data : gmap string value) fields :
  (∀ f, f ∈ fields → ∃ v x, trip_data !! f = Some v ∧ py_float v = Ok x) →
  validate_numeric trip_data fields = Ok (true, [Text "Valid"]).
Proof.
  induction fields as [|f fields IH]; intros Hall; [done|]. simpl.
  destruct (Hall f ltac:(by left)) as (v & x & Hv & Hx).
  unfold dict_item. rewrite Hv. simpl. rewrite Hx. simpl.
  apply IH. intros f' Hf'. apply Hall. by right.
Qed.

Lemma validate_numeric_true (trip_data : gmap string value) fields msg :
  validate_numeric trip_data fields = Ok (true, msg) →
  msg = [Text "Valid"]
  ∧ ∀ f, f ∈ fields → ∃ v x, trip_data !! f = Some v ∧ py_float v = Ok x.
Proof.
  induction fields as [|f fields IH]; simpl.
  - intros [= <-]. split; [done|]. intros f Hf. by apply not_elem_of_nil in Hf.
  - intros Hval. apply bind_Ok in Hval as (v & Hv & Hval).
    apply bind_Ok in Hval as (parsed & Hparsed & Hval).
    unfold dict_item in Hv. destruct (trip_data !! f) as [v'|] eqn:Hf; [|done].
    injection Hv as ->.
    destruct (py_float v) as [x|e] eqn:Hx.
    + simpl in Hparsed. injection Hparsed as <-.
      destruct (IH Hval) as [-> Hrest]. split; [done|].
      intros f' [-> | Hf']%elem_of_cons; [by exists v, x | by apply Hrest].
    + simpl in Hparsed. destruct (isinstance e ValueError || _); [|done].
      injection Hparsed as <-. done.
Qed.

(** X1. A record that has the 8 required fields, in which [field] is the first
    of pickup_lat, pickup_long, drop_lat, drop_long, distance_km whose value
    [float()] refuses with ValueError or TypeError, fails validation with the
    message "Invalid numeric value for <field>: <value>"; the fields after it
    are not looked at. *)
Theorem numeric_gate_names_first_bad_field
  (trip_data : gmap string value) before field after v e :
  (∀ f, f ∈ required_fields → present trip_data f) →
  numeric_fields = before ++ field :: after →
  (∀ f, f ∈ before → ∃ v x, trip_data !! f = Some v ∧ py_float v = Ok x) →
  trip_data !! field = Some v →
  py_float v = Raise e →
  e = ValueError ∨ e = TypeError →
  validate_trip_data trip_data
  = Ok (false, [Text ("Invalid numeric value for " +:+ field +:+ ": "); StrOf v]).
Proof.
  intros Hreq Hsplit Hbefore Hv He Hcls.
  rewrite (validate_nothing_missing _ Hreq), Hsplit.
  rewrite (validate_numeric_stops _ _ _ _ _ _ Hbefore Hv He).
  by destruct Hcls as [-> | ->].
Qed.

(** X2. Validation succeeds exactly on the records in which each of the 8
    required fields is present and not null and each of the 5 numeric fields
    converts with [float()]; the message is then "Valid". *)
Theorem validation_accepts_iff (trip_data : gmap string value) msg :
  validate_trip_data trip_data = Ok (true, msg)
  ↔ msg = [Text "Valid"]
    ∧ (∀ f, f ∈ required_fields → present trip_data f)
    ∧ (∀ f, f ∈ numeric_fields → ∃ v x, trip_data !! f = Some v ∧ py_float v = Ok x).
Proof.
  split.
  - intros Hval.
    assert (∀ f, f ∈ required_fields → present trip_data f) as Hreq.
    { intros f Hf. apply present_not_missing.
      by eapply validate_true_nothing_missing. }
    rewrite (validate_nothing_missing _ Hreq) in Hval.
    apply validate_numeric_true in Hval as [-> Hnum]. done.
  - intros (-> & Hreq & Hnum).
    rewrite (validate_nothing_missing _ Hreq). by apply validate_numeric_all.
Qed.

End ValidationGate.

Section ValidationOverflow.
Context `{PyBuiltins} `{ProcessAndStore.Services}.
Import ProcessAndStore.

(** X3. Validation does not always answer: when the first numeric field that
    does not convert holds an integer too large for a float, [float()] raises
    OverflowError, which [validate_trip_data] lets through. The handler then
    counts the record, when stdout encodes its trip_id, as failed and writes
    nothing. *)
Theorem validation_lets_overflow_through
  (trip_data : gmap string value) before field after z w rest processed failed :
  trip_id_prints (Ok (JObj trip_data)) →
  (∀ f, f ∈ required_fields → present trip_data f) →
  numeric_fields = before ++ field :: after →
  (∀ f, f ∈ before → ∃ v x, trip_data !! f = Some v ∧ py_float v = Ok x) →
  trip_data !! field = Some (JInt z) →
  PyFloat.of_int z = Raise OverflowError →
  validate_trip_data trip_data = Raise OverflowError
  ∧ process_record w (Ok (JObj trip_data)) = (w, Raise OverflowError)
  ∧ for_records (Ok (JObj trip_data) :: rest) w processed failed
    = for_records rest w processed (S failed).
Proof.
  intros Hid Hreq Hsplit Hbefore Hv Hz.
  assert (validate_trip_data trip_data = Raise OverflowError) as Hval.
  { rewrite (validate_nothing_missing _ Hreq), Hsplit.
    by rewrite (validate_numeric_stops _ _ _ _ (JInt z) OverflowError Hbefore Hv Hz). }
  assert (process_record w (Ok (JObj trip_data)) = (w, Raise OverflowError)) as Hrun.
  { unfold process_record, prepare. simpl.
    rewrite (first_line_prints _ Hid). simpl. by rewrite Hval. }
  split; [done|]. split; [done|]. simpl. by rewrite Hrun, (error_line_prints _ _ Hid).
Qed.

End ValidationOverflow.

Section FareErrors.
Context `{PyBuiltins}.
Import ProcessAndStore.

(** The zone test raises on the truthy values that are not iterable. *)
Lemma surcharge_test_raises zone_name e :
  (if truthy zone_name then py_in "Airport" zone_name else Ok false) = Raise e
  ↔ e = TypeError
    ∧ (zone_name = JBool true
       ∨ (∃ n, zone_name = JInt n ∧ n ≠ 0)
       ∨ (∃ f, zone_name = JFloat f ∧ is_zero f = false)).
Proof.
  split.
  - destruct zone_name as [|[]|n|f|s|before after|l|m]; simpl; try discriminate.
    + intros [= <-]. split; [done | by left].
    + destruct (n =? 0) eqn:Hn; simpl; [discriminate|].
      intros [= <-]. split; [done|]. right. left. exists n.
      split; [done | by apply Z.eqb_neq].
    + destruct (is_zero f) eqn:Hf; simpl; [discriminate|].
      intros [= <-]. split; [done|]. right. right. by exists f.
    + by destruct (String.eqb s "").
    + by destruct (bool_decide (l = [])).
    + by destruct (bool_decide (m = ∅)).
  - intros (-> & [-> | [(n & -> & Hn) | (f & -> & Hf)]]); simpl.
    + done.
    + apply Z.eqb_neq in Hn. by rewrite Hn.
    + by rewrite Hf.
Qed.

Lemma calculate_fare_after_distance distance_km zone_name x :
  try_except (py_float distance_km) [ValueError; TypeError] (Ok 0%float) = Ok x →
  ∀ e, calculate_fare distance_km zone_name = Raise e
       ↔ (if truthy zone_name then py_in "Airport" zone_name else Ok false) = Raise e.
Proof.
  intros Hx e. unfold calculate_fare. rewrite Hx. simpl.
  destruct (if truthy zone_name then _ else _); simpl.
  - split; discriminate.
  - split; by intros [= ->].
Qed.

(** X4. [calculate_fare] raises in two cases only: OverflowError when
    [distance_km] is an integer too large for a float, and otherwise TypeError
    when [zone_name] is True, a non-zero int or a non-zero float, on which
    [in] is not defined. On every other input it returns a fare. *)
Theorem calculate_fare_raises_iff (distance_km zone_name : value) e :
  calculate_fare distance_km zone_name = Raise e
  ↔ (py_float distance_km = Raise OverflowError ∧ e = OverflowError)
    ∨ (py_float distance_km ≠ Raise OverflowError
       ∧ e = TypeError
       ∧ (zone_name = JBool true
          ∨ (∃ n, zone_name = JInt n ∧ n ≠ 0)
          ∨ (∃ f, zone_name = JFloat f ∧ is_zero f = false))).
Proof.
  assert (py_float distance_km = Raise OverflowError
          ∨ py_float distance_km ≠ Raise OverflowError) as [Hov | Hov].
  { destruct (py_float distance_km) as [x|e'] eqn:Hd; [by right|].
    destruct (py_float_raises _ _ Hd) as [-> | [-> | ->]]; [by right | by right | by left]. }
  - unfold calculate_fare. rewrite Hov. simpl. split.
    + intros [= <-]. by left.
    + intros [[_ ->] | [Hne _]]; [done | by destruct Hne].
  - rewrite (calculate_fare_after_distance _ _ _ (distance_or_zero _ Hov)).
    rewrite surcharge_test_raises. split; [intros Hr; by right|].
    intros [[Hd _] | [_ Hr]]; [by destruct Hov | done].
Qed.

End FareErrors.

Section AnalyticsCopy.
Context `{PyBuiltins} `{ProcessAndStore.Services}.
Import ProcessAndStore.

Lemma firehose_data_lookup (td : gmap string value) k :
  firehose_data td !! k
  = match td !! k with
    | Some x => Some x
    | None =>
        if decide (k = "dropoff_datetime") then Some JNull
        else dict_get td <$> (list_to_map alias_fields : gmap string string) !! k
    end.
Proof.
  unfold firehose_data. cbv zeta. rewrite !setdefault_lookup.
  destruct (td !! k) as [x|]; [done|].
  repeat (case_decide; [subst k; reflexivity|]).
  rewrite decide_False by done.
  unfold alias_fields. simpl. by rewrite !lookup_insert_ne, lookup_empty.
Qed.

Lemma firehose_data_lookup_other (td : gmap string value) k :
  is_added_field k = false → firehose_data td !! k = td !! k.
Proof.
  unfold is_added_field, alias_fields. simpl. intros Hk.
  repeat (apply orb_false_elim in Hk as [?%String.eqb_neq Hk]).
  rewrite firehose_data_lookup. destruct (td !! k); [done|].
  rewrite decide_False by done.
  unfold alias_fields. simpl. by rewrite !lookup_insert_ne, lookup_empty.
Qed.

Lemma firehose_data_get_default (td : gmap string value) k dflt :
  is_added_field k = false →
  dict_get_default (firehose_data td) k dflt = dict_get_default td k dflt.
Proof.
  intros Hk. unfold dict_get_default. by rewrite firehose_data_lookup_other.
Qed.

(** X5. The analytics copy keeps every field of the finalized record with its
    value. A dropoff_datetime that is absent becomes null, and an absent
    pickup_latitude, pickup_longitude, dropoff_latitude or dropoff_longitude
    becomes what [.get] gives for pickup_lat, pickup_long, drop_lat or
    drop_long; an alias that came with the record is kept, whatever the field
    it stands for holds. No other field is added. *)
Theorem analytics_copy_fields (td : gmap string value) :
  (∀ k v, td !! k = Some v → firehose_data td !! k = Some v)
  ∧ (td !! "dropoff_datetime" = None →
     firehose_data td !! "dropoff_datetime" = Some JNull)
  ∧ (∀ alias field, (alias, field) ∈ alias_fields →
       td !! alias = None → firehose_data td !! alias = Some (dict_get td field))
  ∧ (∀ k, td !! k = None → k ≠ "dropoff_datetime" →
          k ∉ alias_fields.*1 → firehose_data td !! k = None).
Proof.
  split; [|split; [|split]].
  - intros k v Hk. by rewrite firehose_data_lookup, Hk.
  - intros Hk. by rewrite firehose_data_lookup, Hk.
  - intros alias field Hin Hk. rewrite firehose_data_lookup, Hk.
    unfold alias_fields in Hin.
    repeat (apply elem_of_cons in Hin as [[= -> ->] | Hin]; [reflexivity|]).
    by apply not_elem_of_nil in Hin.
  - intros k Hk Hd Hal. rewrite firehose_data_lookup, Hk, decide_False by done.
    unfold alias_fields in *. simpl in *.
    rewrite !lookup_insert_ne, lookup_empty; [done|..];
      intros <-; apply Hal; repeat constructor.
Qed.

(** The field mapping reads the same from the copy as from the record. *)
Lemma dynamodb_item_of_copy (td : gmap string value) fare :
  dynamodb_item (firehose_data td) fare = dynamodb_item td fare.
Proof.
  unfold dynamodb_item, dict_item.
  rewrite !firehose_data_get_default by reflexivity.
  by rewrite firehose_data_lookup_other by reflexivity.
Qed.

Lemma finalize_shape (trip_data td : gmap string value) item :
  finalize trip_data = Ok (td, item) →
  ∃ fare total,
    td = <["total_amount" := JFloat total]>
           (set_defaults (<["fare_amount" := JFloat fare]> trip_data))
    ∧ dynamodb_item td fare = Ok item.
Proof.
  unfold finalize. cbv zeta. intros Hfin.
  apply bind_Ok in Hfin as (fare & _ & Hfin).
  apply bind_Ok in Hfin as ([] & _ & Hfin).
  apply bind_Ok in Hfin as (extra & _ & Hfin).
  apply bind_Ok in Hfin as (tip & _ & Hfin).
  apply bind_Ok in Hfin as (tolls & _ & Hfin).
  apply bind_Ok in Hfin as (item' & Hitem & [= <- <-]).
  by eexists fare, _.
Qed.

Lemma dynamodb_item_fields (td : gmap string value) fare total item :
  dynamodb_item td fare = Ok item →
  td !! "total_amount" = Some (JFloat total) →
  item_fare_amount item = DecimalOf (JFloat fare)
  ∧ item_total_amount item = DecimalOf (JFloat total)
  ∧ td !! "trip_id" = Some (item_trip_id item).
Proof.
  unfold dynamodb_item. cbv zeta. intros Hitem Htotal.
  apply bind_Ok in Hitem as (trip_id & Htrip & Hitem).
  unfold dict_item in Htrip.
  destruct (td !! "trip_id") as [tid|]; [|done]. injection Htrip as ->.
  unfold dict_get_default in Hitem. rewrite Htotal in Hitem.
  inv_bind. simpl in *. inv_bind. done.
Qed.

(** X6. A record that reaches the end of the [try] block has put one item in
    the table and one document on the delivery stream, and the two agree: the
    item is the explicit field mapping of that very document, with
    fare_amount and total_amount the Decimals of the floats the document
    carries, and the same trip_id. *)
Theorem both_sinks_same_record w record w' :
  process_record w record = (w', Ok Stored) →
  ∃ item doc fare total,
    table w' = table w ++ [item]
    ∧ delivery_stream w' = delivery_stream w ++ [doc]
    ∧ dynamodb_item doc fare = Ok item
    ∧ doc !! "fare_amount" = Some (JFloat fare)
    ∧ item_fare_amount item = DecimalOf (JFloat fare)
    ∧ doc !! "total_amount" = Some (JFloat total)
    ∧ item_total_amount item = DecimalOf (JFloat total)
    ∧ doc !! "trip_id" = Some (item_trip_id item).
Proof.
  intros Hrun. apply process_record_inv in Hrun as (td & item & Hprep & ->).
  apply prepare_ready in Hprep as (trip_data & msg & _ & _ & Hfin).
  destruct (finalize_shape _ _ _ Hfin) as (fare & total & Htd & Hitem).
  exists item, (firehose_data td), fare, total. simpl.
  rewrite dynamodb_item_of_copy.
  assert (td !! "fare_amount" = Some (JFloat fare)) as Hfare.
  { rewrite Htd, lookup_insert_ne, set_defaults_lookup, lookup_insert_eq; done. }
  assert (td !! "total_amount" = Some (JFloat total)) as Htotal.
  { by rewrite Htd, lookup_insert_eq. }
  rewrite !firehose_data_lookup_other by reflexivity.
  destruct (dynamodb_item_fields _ _ _ _ Hitem Htotal) as (? & ? & ?).
  by repeat (split; [done|]).
Qed.

End AnalyticsCopy.

Section UpstreamFare.
Context `{PyBuiltins} `{ProcessAndStore.Services}.
Import ProcessAndStore.



End UpstreamFare.

Section SinkCounts.
Context `{PyBuiltins} `{ProcessAndStore.Services}.
Import ProcessAndStore.

Lemma final_world_app records1 records2 w :
  final_world (records1 ++ records2) w = final_world records2 (final_world records1 w).
Proof.
  revert w. induction records1 as [|record rest IH]; intros w; [done|].
  simpl. by rewrite IH.
Qed.

Lemma outcomes_app records1 records2 w :
  outcomes (records1 ++ records2) w
  = outcomes records1 w ++ outcomes records2 (final_world records1 w).
Proof.
  revert w. induction records1 as [|record rest IH]; intros w; [done|].
  simpl. destruct (process_record w record) as [w1 o]. simpl. by rewrite IH.
Qed.

Lemma count_stored_app os1 os2 :
  count_stored (os1 ++ os2) = (count_stored os1 + count_stored os2)%nat.
Proof. induction os1 as [|[[|msg]|e] os1 IH]; simpl; lia. Qed.

Lemma count_failed_app os1 os2 :
  count_failed (os1 ++ os2) = (count_failed os1 + count_failed os2)%nat.
Proof. induction os1 as [|[[|msg]|e] os1 IH]; simpl; lia. Qed.

(** What a batch leaves in the two sinks. *)
Lemma final_world_sinks records w :
  ∃ items docs,
    table (final_world records w) = table w ++ items
    ∧ delivery_stream (final_world records w) = delivery_stream w ++ docs
    ∧ length docs = count_stored (outcomes records w)
    ∧ (length docs ≤ length items ≤ length records)%nat
    ∧ Forall (λ doc, ∃ record td item,
                record ∈ records
                ∧ prepare record = Ok (inr (td, item))
                ∧ doc = firehose_data td
                ∧ item ∈ items) docs.
Proof.
  revert w. induction records as [|record rest IH]; intros w; simpl.
  - exists [], []. rewrite !app_nil_r. split_and!; [done | done | done | done | done |].
    constructor.
  - destruct (process_record w record) as [w1 o] eqn:Hrun. simpl.
    destruct (IH w1) as (items & docs & Htab & Hdel & Hlen & Hle & Hall).
    assert (∀ extra, Forall (λ doc, ∃ r td item,
                       r ∈ record :: rest ∧ prepare r = Ok (inr (td, item))
                       ∧ doc = firehose_data td ∧ item ∈ extra ++ items) docs) as Hall'.
    { intros extra. eapply Forall_impl; [exact Hall|].
      intros doc (r & td & item & Hr & Hprep & Hdoc & Hitem).
      exists r, td, item. split_and!; [by right | done | done |].
      apply elem_of_app. by right. }
    apply process_record_inv in Hrun.
    destruct o as [[|msg]|e].
    + destruct Hrun as (td & item & Hprep & ->). simpl in *.
      exists (item :: items), (firehose_data td :: docs).
      rewrite Htab, Hdel, <- !app_assoc. simpl.
      split_and!; [done | done | lia | lia | lia |].
      constructor; [|exact (Hall' [item])].
      exists record, td, item. split_and!; [by left | done | done | by left].
    + destruct Hrun as [_ ->]. exists items, docs.
      split_and!; [done | done | done | lia | lia | exact (Hall' [])].
    + destruct Hrun as [-> | (td & item & Hprep & ->)].
      * exists items, docs.
        split_and!; [done | done | done | lia | lia | exact (Hall' [])].
      * simpl in *. exists (item :: items), docs.
        rewrite Htab, <- !app_assoc. simpl.
        split_and!; [done | done | done | lia | lia | exact (Hall' [item])].
Qed.

(** X8. After a batch whose trip_ids stdout encodes, with both environment
    variables set: the number reported as processed is the number of
    documents the batch added to the delivery stream; the table has received
    at least as many items and at most one per record; and every document
    added is the analytics copy of a record of the batch whose item is among
    the items added. The analytics sink never holds a record the primary store
    was not given. *)
Theorem processed_is_documents_delivered env w records :
  configured env →
  Forall trip_id_prints records →
  ∃ w' text processed failed items docs,
    lambda_handler env w records
    = (w', Ok {| statusCode := 200;
                 body := SummaryBody text processed failed (length records) |})
    ∧ table w' = table w ++ items
    ∧ delivery_stream w' = delivery_stream w ++ docs
    ∧ length docs = processed
    ∧ (processed ≤ length items ≤ length records)%nat
    ∧ Forall (λ doc, ∃ record td item,
                record ∈ records
                ∧ prepare record = Ok (inr (td, item))
                ∧ doc = firehose_data td
                ∧ item ∈ items) docs.
Proof.
  intros Hcfg Hids.
  destruct (final_world_sinks records w) as (items & docs & Htab & Hdel & Hlen & Hle & Hall).
  exists (final_world records w). eexists _, _, _. exists items, docs.
  split; [by apply lambda_handler_run|].
  split_and!; [done | done | done | lia | lia | done].
Qed.

(** X9. In a batch whose trip_ids stdout encodes, a record that fails before
    any write (its body does not decode, is not a dict, fails validation, or
    raises while the item is built) is invisible to the rest of its batch: the
    batch ends in the same world and with the same processed count as the
    batch without that record, with failed and total one higher. *)
Theorem unwritten_record_is_invisible env w records1 record records2 :
  configured env →
  Forall trip_id_prints (records1 ++ record :: records2) →
  (∀ td item, prepare record ≠ Ok (inr (td, item))) →
  ∃ w' text processed failed,
    lambda_handler env w (records1 ++ records2)
    = (w', Ok {| statusCode := 200;
                 body := SummaryBody text processed failed
                           (length (records1 ++ records2)) |})
    ∧ lambda_handler env w (records1 ++ record :: records2)
      = (w', Ok {| statusCode := 200;
                   body := SummaryBody text processed (S failed)
                             (S (length (records1 ++ records2))) |}).
Proof.
  intros Hcfg Hids Hprep.
  assert (Forall trip_id_prints (records1 ++ records2)) as Hids'.
  { apply Forall_app in Hids as [Hids1 Hids2]. apply Forall_cons in Hids2 as [_ Hids2].
    by apply Forall_app. }
  assert (∀ w0, ∃ o, process_record w0 record = (w0, o) ∧ o ≠ Ok Stored) as Hstep.
  { intros w0. unfold process_record.
    destruct (prepare record) as [[msg | [td item]] | e]; [by eauto | | by eauto].
    by destruct (Hprep td item). }
  do 4 eexists. split; [by apply lambda_handler_run|].
  rewrite (lambda_handler_run _ _ _ Hcfg Hids).
  rewrite !final_world_app, !outcomes_app, !count_stored_app, !count_failed_app.
  simpl. destruct (Hstep (final_world records1 w)) as (o & -> & Ho). simpl.
  rewrite !length_app. simpl.
  destruct o as [[|msg]|e]; [done | |]; simpl;
    by rewrite ?Nat.add_succ_r.
Qed.

(** X10. On records whose trip_ids stdout encodes, one invocation on a batch
    does what two invocations on its two halves do, the second starting in the
    world the first left: the final world is the same and the processed,
    failed and total counts add up. *)
Theorem batches_compose env w records1 records2 :
  configured env →
  Forall trip_id_prints records1 →
  Forall trip_id_prints records2 →
  ∃ w1 w2 text1 text2 text p1 f1 p2 f2,
    lambda_handler env w records1
    = (w1, Ok {| statusCode := 200; body := SummaryBody text1 p1 f1 (length records1) |})
    ∧ lambda_handler env w1 records2
      = (w2, Ok {| statusCode := 200; body := SummaryBody text2 p2 f2 (length records2) |})
    ∧ lambda_handler env w (records1 ++ records2)
      = (w2, Ok {| statusCode := 200;
                   body := SummaryBody text (p1 + p2) (f1 + f2)
                             (length records1 + length records2) |}).
Proof.
  intros Hcfg Hids1 Hids2. do 9 eexists.
  split; [by apply lambda_handler_run|]. split; [by apply lambda_handler_run|].
  rewrite (lambda_handler_run _ _ _ Hcfg) by (by apply Forall_app).
  by rewrite final_world_app, outcomes_app, count_stored_app, count_failed_app, length_app.
Qed.

Lemma for_records_batches records1 records2 w processed failed :
  for_records (records1 ++ records2) w processed failed
  = match for_records records1 w processed failed with
    | (w1, Ok (processed1, failed1)) => for_records records2 w1 processed1 failed1
    | (w1, Raise e) => (w1, Raise e)
    end.
Proof.
  revert w processed failed.
  induction records1 as [|record rest IH]; intros w processed failed; [done|]. simpl.
  destruct (process_record w record) as [w1 [[|msg]|e]]; [apply IH | apply IH |].
  destruct (Stdout.print _); [apply IH | done].
Qed.

(** X21. A record that is a dict with a trip_id stdout cannot encode ends the
    batch: the [try] block raises UnicodeEncodeError at its first line and
    leaves the world as it was, the [except] clause raises it again, and the
    handler raises in the world that the records before it have left. The
    records after it have no part in the result. The records before it are
    assumed to have trip_ids that stdout encodes. *)
Theorem unprintable_trip_id_ends_the_batch
  env w records1 (trip_data : gmap string value) records2 :
  configured env →
  Forall trip_id_prints records1 →
  ¬ trip_id_prints (Ok (JObj trip_data)) →
  ∃ w1 answer,
    lambda_handler env w records1 = (w1, Ok answer)
    ∧ process_record w1 (Ok (JObj trip_data)) = (w1, Raise UnicodeEncodeError)
    ∧ lambda_handler env w (records1 ++ Ok (JObj trip_data) :: records2)
      = (w1, Raise UnicodeEncodeError).
Proof.
  intros Hcfg Hids Hid. exists (final_world records1 w). eexists.
  split; [by apply lambda_handler_run|].
  assert (Stdout.encodes (StrOf (dict_get_default trip_data "trip_id" (JStr "N/A")))
          = false) as Henc.
  { apply not_true_is_false. exact Hid. }
  assert (∀ w0, process_record w0 (Ok (JObj trip_data)) = (w0, Raise UnicodeEncodeError))
    as Hrun.
  { intros w0. unfold process_record, prepare. simpl.
    erewrite print_unencodable; [done | | exact Henc]. by repeat constructor. }
  split; [done|].
  destruct Hcfg as [Ht Hs]. unfold lambda_handler. rewrite Ht, Hs. simpl.
  rewrite for_records_batches, (for_records_run _ _ _ _ Hids). simpl.
  rewrite Hrun. apply not_true_is_false in Hid.
  erewrite print_unencodable; [done | | exact Hid].
  unfold error_line. destruct (isinstance _ _); by repeat constructor.
Qed.

End SinkCounts.

Section FloatsToDecimal.
Import ProcessAndStore.

Lemma converted_path_value ks v :
  converted_path ks (floats_to_decimal_value v)
  = floats_to_decimal_value <$> lookup_path ks v.
Proof.
  revert v. induction ks as [|k ks IH]; intros v; [done|].
  destruct v as [| | | | | | |m]; try done. simpl.
  rewrite lookup_fmap. destruct (m !! k) as [v'|]; [apply IH | done].
Qed.

(** X11. [floats_to_decimal] goes down through dicts only. At the end of every
    path of keys, the converted dict holds the Decimal of the float the dict
    held there, a list or any other value unchanged (floats inside a list stay
    floats), and nothing where the dict held nothing. *)
Theorem floats_to_decimal_paths (data_dict : gmap string value) ks :
  converted_path ks (Nested (floats_to_decimal data_dict))
  = floats_to_decimal_value <$> lookup_path ks (JObj data_dict)
  ∧ (∀ f, lookup_path ks (JObj data_dict) = Some (JFloat f) →
          converted_path ks (Nested (floats_to_decimal data_dict))
          = Some (Converted (DecimalOf (JFloat f))))
  ∧ (∀ l, lookup_path ks (JObj data_dict) = Some (JArr l) →
          converted_path ks (Nested (floats_to_decimal data_dict))
          = Some (Kept (JArr l)))
  ∧ (lookup_path ks (JObj data_dict) = None →
     converted_path ks (Nested (floats_to_decimal data_dict)) = None).
Proof.
  pose proof (converted_path_value ks (JObj data_dict)) as Hpath.
  simpl in Hpath. fold (floats_to_decimal data_dict) in Hpath.
  split; [done|]. rewrite Hpath.
  split; [|split]; [intros f -> | intros l -> | intros ->]; done.
Qed.

End FloatsToDecimal.

(** * Further properties of the Enrichment stage *)

Section EnrichmentBatch.
Context `{PyBuiltins} `{EnrichTripData.Services}.
Import EnrichTripData.

(** X12. For a decoded message with coordinates whose trip_id stdout encodes,
    when the place index answers and the queue accepts, the stage sends one
    message to the configured queue: the record with zone_name set to the
    label of the first place, or to "Unknown" when the index found none. Every
    other field goes through unchanged, and a zone_name the record came with
    is replaced. *)
Theorem enrichment_sets_zone_name env w (trip_data : gmap string value)
  lon lat longitude latitude results :
  trip_id_encodable trip_data →
  trip_data !! "longitude" = Some lon → py_float lon = Ok longitude →
  trip_data !! "latitude" = Some lat → py_float lat = Ok latitude →
  let query := {| IndexName := default "" (PLACE_INDEX_NAME env);
                  Position := [longitude; latitude]; MaxResults := 1 |} in
  let w1 := {| place_queries := place_queries w ++ [query]; queue := queue w |} in
  let zone_name := match results with
                   | label :: _ => label
                   | [] => "Unknown"
                   end in
  let enriched := <["zone_name" := JStr zone_name]> trip_data in
  search_place_index_for_position w query = Ok results →
  send_message w1 (default "" (SQS_QUEUE_URL env)) enriched = Ok () →
  process_record env w (Ok (JObj trip_data))
  = ({| place_queries := place_queries w ++ [query];
        queue := queue w ++ [(default "" (SQS_QUEUE_URL env), enriched)] |}, Ok ())
  ∧ enriched !! "zone_name" = Some (JStr zone_name)
  ∧ (∀ k, k ≠ "zone_name" → enriched !! k = trip_data !! k).
Proof.
  intros Hid Hlon Hx Hlat Hy query w1 zone_name enriched Hsearch Hsend.
  split; [|split].
  - unfold process_record.
    rewrite (coordinates_found _ _ _ _ _ Hid Hlon Hx Hlat Hy).
    fold query. rewrite Hsearch. fold w1. fold zone_name. fold enriched.
    by rewrite Hsend.
  - apply lookup_insert_eq.
  - intros k Hk. by apply lookup_insert_ne.
Qed.

Lemma for_records_app env records1 records2 w :
  for_records env (records1 ++ records2) w
  = for_records env records2 (for_records env records1 w).
Proof.
  revert w. induction records1 as [|record rest IH]; intros w; [done|]. simpl.
  destruct (process_record env w record) as [w1 [u|e]]; [done|].
  by destruct (isinstance e JSONDecodeError).
Qed.

Lemma process_record_skipped env w record e :
  coordinates record = Raise e → process_record env w record = (w, Raise e).
Proof. intros Hc. unfold process_record. by rewrite Hc. Qed.

(** X13. A message that fails before the place query (its payload does not
    decode or is not a dict, stdout cannot encode its trip_id, longitude or
    latitude is missing or does not convert) leaves no trace: the batch ends
    in the world the batch without that message ends in. The answer still
    counts it. *)
Theorem skipped_message_is_invisible env w records1 record records2 e :
  is_set (PLACE_INDEX_NAME env) = true → is_set (SQS_QUEUE_URL env) = true →
  coordinates record = Raise e →
  (lambda_handler env w (records1 ++ record :: records2)).1
  = (lambda_handler env w (records1 ++ records2)).1
  ∧ (lambda_handler env w (records1 ++ record :: records2)).2
    = {| statusCode := 200;
         body := Some ("Successfully processed "
                       +:+ pretty (S (length (records1 ++ records2)))
                       +:+ " records and sent to SQS.") |}.
Proof.
  intros Hi Hq Hc. unfold lambda_handler. rewrite Hi, Hq. simpl. split.
  - rewrite !for_records_app. simpl.
    rewrite (process_record_skipped _ _ _ _ Hc).
    by destruct (isinstance e JSONDecodeError).
  - rewrite !length_app. simpl. by rewrite Nat.add_succ_r.
Qed.

(** X22. A message that is a dict with a trip_id stdout cannot encode is given
    up at the first line of the [try] block: no place query is made, nothing
    is sent, and the loop moves on to the next message. *)
Theorem unprintable_trip_id_is_not_enriched
  env w (trip_data : gmap string value) rest :
  ¬ trip_id_encodable trip_data →
  process_record env w (Ok (JObj trip_data)) = (w, Raise UnicodeEncodeError)
  ∧ for_records env (Ok (JObj trip_data) :: rest) w = for_records env rest w.
Proof.
  intros Hid.
  assert (process_record env w (Ok (JObj trip_data)) = (w, Raise UnicodeEncodeError))
    as Hrun by (by apply process_record_skipped, coordinates_unprintable).
  split; [done|]. simpl. by rewrite Hrun.
Qed.

(** What one record adds to the world. *)
Lemma process_record_adds env w record w' r :
  process_record env w record = (w', r) →
  ∃ queries sent,
    place_queries w' = place_queries w ++ queries
    ∧ queue w' = queue w ++ sent
    ∧ (length sent ≤ length queries ≤ 1)%nat
    ∧ Forall (λ q, IndexName q = default "" (PLACE_INDEX_NAME env)
                   ∧ MaxResults q = 1 ∧ length (Position q) = 2%nat) queries
    ∧ Forall (λ m, m.1 = default "" (SQS_QUEUE_URL env)
                   ∧ (∃ zone, m.2 !! "zone_name" = Some (JStr zone))
                   ∧ is_Some (m.2 !! "longitude") ∧ is_Some (m.2 !! "latitude")) sent.
Proof.
  unfold process_record.
  destruct (coordinates record) as [[[trip_data longitude] latitude]|e] eqn:Hc.
  - apply coordinates_inv in Hc as (lon & lat & _ & _ & Hlon & _ & Hlat & _).
    destruct (search_place_index_for_position _ _) as [results|e].
    + destruct (send_message _ _ _) as [[]|e]; intros [= <- _]; simpl.
      * eexists [_], [_]. split_and!; [done | done | simpl; lia | simpl; lia | |].
        -- by repeat constructor.
        -- repeat constructor; simpl.
           ++ eexists. apply lookup_insert_eq.
           ++ rewrite lookup_insert_ne by done. by rewrite Hlon.
           ++ rewrite lookup_insert_ne by done. by rewrite Hlat.
      * eexists [_], []. rewrite app_nil_r.
        split_and!; [done | done | simpl; lia | simpl; lia | | done].
        by repeat constructor.
    + intros [= <- _]. simpl. eexists [_], []. rewrite app_nil_r.
      split_and!; [done | done | simpl; lia | simpl; lia | | done].
      by repeat constructor.
  - intros [= <- _]. exists [], []. rewrite !app_nil_r.
    split_and!; [done | done | done | simpl; lia | done | done].
Qed.

(** X14. After any batch: at most one place query per message and at most
    one message sent per query made; every query is scoped to the configured
    place index, asks for 1 result and gives a point of two coordinates;
    every message sent went to the configured queue and carries a zone_name
    that is a string, with its longitude and latitude. *)
Theorem enrichment_batch_invariants env w records :
  ∃ queries sent,
    place_queries (for_records env records w) = place_queries w ++ queries
    ∧ queue (for_records env records w) = queue w ++ sent
    ∧ (length sent ≤ length queries ≤ length records)%nat
    ∧ Forall (λ q, IndexName q = default "" (PLACE_INDEX_NAME env)
                   ∧ MaxResults q = 1 ∧ length (Position q) = 2%nat) queries
    ∧ Forall (λ m, m.1 = default "" (SQS_QUEUE_URL env)
                   ∧ (∃ zone, m.2 !! "zone_name" = Some (JStr zone))
                   ∧ is_Some (m.2 !! "longitude") ∧ is_Some (m.2 !! "latitude")) sent.
Proof.
  revert w. induction records as [|record rest IH]; intros w.
  - exists [], []. rewrite !app_nil_r. simpl. split_and!; try done; lia.
  - assert (∃ w1 r, process_record env w record = (w1, r)
                    ∧ for_records env (record :: rest) w = for_records env rest w1)
      as (w1 & r & Hrun & ->).
    { simpl. destruct (process_record env w record) as [w1 [u|e]]; [by eauto|].
      destruct (isinstance e JSONDecodeError); by eauto. }
    destruct (process_record_adds _ _ _ _ _ Hrun) as (q1 & s1 & Hq1 & Hs1 & Hle1 & Hfq1 & Hfs1).
    destruct (IH w1) as (q2 & s2 & Hq2 & Hs2 & Hle2 & Hfq2 & Hfs2).
    exists (q1 ++ q2), (s1 ++ s2).
    rewrite Hq2, Hs2, Hq1, Hs1, <- !app_assoc, !length_app. simpl.
    split_and!; [done | done | lia | lia | by apply Forall_app | by apply Forall_app].
Qed.

End EnrichmentBatch.

(** * Further properties of the producer *)

Section ProducerRun.
Context `{PyBuiltins} `{Producer.Services}.
Variable BATCH_SIZE : Z.
Import Producer.

(** [_send_batch] adds the batch to the stream when [put_records] returns and
    nothing when it raises; it leaves the buffer alone. *)
Lemma send_batch_stream stream_name batch st :
  records_batch (_send_batch stream_name batch st) = records_batch st
  ∧ ∃ new, stream (_send_batch stream_name batch st) = stream st ++ new
           ∧ (new = [] ∨ ∃ failed, new = [(batch, failed)]).
Proof.
  unfold _send_batch. destruct (put_records _ _ _) as [failed|e]; simpl.
  - destruct (0 <? failed); simpl; (split; [done|]); eauto.
  - split; [done|]. exists []. rewrite app_nil_r. eauto.
Qed.

(** The loop, one row at a time. *)
Lemma for_rows_cons stream_name (row : gmap string value) rest st :
  for_rows BATCH_SIZE stream_name (row :: rest) st
  = match row_outcome row with
    | Raise e => (st, Raise e)
    | Ok None =>
        for_rows BATCH_SIZE stream_name rest
          (print [Text "Skipping trip_id ";
                  StrOf (dict_get_default row "trip_id" (JStr "N/A"));
                  Text ": missing pickup_datetime"] st)
    | Ok (Some record) =>
        let batch := records_batch st ++ [record] in
        if BATCH_SIZE <=? Z.of_nat (length batch)
        then
          let sent := _send_batch stream_name batch
                        {| records_batch := batch; stream := stream st; log := log st |} in
          for_rows BATCH_SIZE stream_name rest
            {| records_batch := []; stream := stream sent; log := log sent |}
        else
          for_rows BATCH_SIZE stream_name rest
            {| records_batch := batch; stream := stream st; log := log st |}
    end.
Proof.
  unfold row_outcome. simpl.
  destruct (lacks_pickup_datetime row) as [[]|e]; [| | done].
  - by destruct (Stdout.print _) as [[]|e].
  - by destruct (prepare_record row).
Qed.

Lemma admitted_records_cons (row : gmap string value) rest :
  admitted_records (row :: rest)
  = match row_outcome row with
    | Ok (Some record) => record :: admitted_records rest
    | _ => admitted_records rest
    end.
Proof.
  unfold row_outcome. simpl.
  destruct (lacks_pickup_datetime row) as [[]|e]; [| | done].
  - by destruct (Stdout.print _) as [[]|e].
  - by destruct (prepare_record row).
Qed.

Lemma for_rows_app stream_name rows1 rows2 st :
  for_rows BATCH_SIZE stream_name (rows1 ++ rows2) st
  = match for_rows BATCH_SIZE stream_name rows1 st with
    | (st1, Ok _) => for_rows BATCH_SIZE stream_name rows2 st1
    | (st1, Raise e) => (st1, Raise e)
    end.
Proof.
  revert st. induction rows1 as [|row rest IH]; intros st; [done|].
  rewrite <- app_comm_cons, !for_rows_cons.
  destruct (row_outcome row) as [[record|]|e]; [|by rewrite IH | done].
  cbv zeta. destruct (BATCH_SIZE <=? _); by rewrite IH.
Qed.



Lemma delivered_app_stream st new :
  concat (stream st ++ new).*1 = delivered st ++ concat new.*1.
Proof. unfold delivered. by rewrite fmap_app, concat_app. Qed.

(** What the loop delivers is taken, in order, from the buffer it started
    with and the records of the rows it admits. *)
Lemma for_rows_delivers stream_name rows st st' r :
  for_rows BATCH_SIZE stream_name rows st = (st', r) →
  ∃ d, delivered st' = delivered st ++ d
       ∧ sublist (d ++ records_batch st') (records_batch st ++ admitted_records rows).
Proof.
  revert st. induction rows as [|row rest IH]; intros st.
  - intros [= <- _]. exists []. rewrite !app_nil_r. done.
  - rewrite for_rows_cons, admitted_records_cons.
    destruct (row_outcome row) as [[record|]|e].
    + cbv zeta. destruct (BATCH_SIZE <=? _); intros Hrun.
      * destruct (send_batch_stream stream_name (records_batch st ++ [record])
                    {| records_batch := records_batch st ++ [record];
                       stream := stream st; log := log st |})
          as (_ & new & Hnew & Hcase).
        apply IH in Hrun as (d & Hd & Hsub). simpl in Hd, Hsub.
        unfold delivered in Hd at 2. simpl in Hd.
        rewrite Hnew, delivered_app_stream in Hd.
        exists (concat new.*1 ++ d). split; [by rewrite Hd, app_assoc|].
        rewrite <- !app_assoc, cons_middle, (app_assoc (records_batch st)).
        apply sublist_app; [|done].
        destruct Hcase as [-> | [failed ->]]; simpl.
        -- apply sublist_nil_l.
        -- by rewrite app_nil_r.
      * apply IH in Hrun as (d & Hd & Hsub). simpl in Hd, Hsub.
        exists d. split; [done|]. by rewrite <- app_assoc in Hsub.
    + intros Hrun. apply IH in Hrun as (d & Hd & Hsub). by exists d.
    + intros [= <- _]. exists []. rewrite app_nil_r. split; [done|].
      by apply sublist_inserts_r.
Qed.

(** When Kinesis takes every batch and the loop reaches the end of the input,
    nothing is lost. *)
Lemma for_rows_keeps_all stream_name rows st st' :
  (∀ s name batch, ∃ failed, put_records s name batch = Ok failed) →
  for_rows BATCH_SIZE stream_name rows st = (st', Ok ()) →
  delivered st' ++ records_batch st'
  = delivered st ++ records_batch st ++ admitted_records rows.
Proof.
  intros Hup. revert st. induction rows as [|row rest IH]; intros st.
  - intros [= <-]. by rewrite app_nil_r.
  - rewrite for_rows_cons, admitted_records_cons.
    destruct (row_outcome row) as [[record|]|e]; [| |done].
    + cbv zeta. destruct (BATCH_SIZE <=? _); intros Hrun.
      * apply IH in Hrun. rewrite Hrun. simpl.
        unfold _send_batch. simpl.
        destruct (Hup (stream st) stream_name (records_batch st ++ [record]))
          as [failed ->].
        assert (∀ st0 : state,
                  stream (if 0 <? failed
                          then print [Text ("WARNING: " +:+ pretty failed
                                            +:+ " records failed.")] st0
                          else st0) = stream st0) as Hstream
          by (intros st0; by destruct (0 <? failed)).
        unfold delivered at 1. simpl. rewrite Hstream. simpl.
        rewrite delivered_app_stream. simpl.
        by rewrite app_nil_r, <- !app_assoc.
      * apply IH in Hrun. rewrite Hrun. simpl. unfold delivered. simpl.
        by rewrite <- !app_assoc.
    + intros Hrun. apply IH in Hrun. by rewrite Hrun.
Qed.

(** X16. Whatever Kinesis answers and wherever the run stops, the records in
    the batches that were delivered are records of admitted rows of the file,
    each at most once and in the order of the rows: the producer publishes
    nothing else, nothing twice and nothing out of order. *)
Theorem delivered_records_are_admitted_rows file_path rows stream_name st :
  ∃ d,
    delivered (send_data_in_batches BATCH_SIZE file_path (Some rows) stream_name st)
    = delivered st ++ d
    ∧ sublist d (admitted_records rows).
Proof.
  unfold send_data_in_batches. cbv zeta.
  destruct (for_rows _ _ _ _) as [st' r] eqn:Hrun.
  apply for_rows_delivers in Hrun as (d & Hd & Hsub). simpl in Hd, Hsub.
  assert (delivered {| records_batch := []; stream := stream st; log := log st |}
          = delivered st) as Hst by done.
  unfold delivered in Hd at 2. simpl in Hd. fold (delivered st) in Hd.
  destruct r as [[]|e].
  - destruct (bool_decide (records_batch st' = [])); simpl.
    + exists d. split; [done|].
      etrans; [|exact Hsub]. by apply sublist_inserts_r.
    + destruct (send_batch_stream stream_name (records_batch st') st')
        as (_ & new & Hnew & Hcase).
      unfold delivered at 1. simpl. rewrite Hnew, delivered_app_stream, Hd.
      exists (d ++ concat new.*1). split; [by rewrite app_assoc|].
      etrans; [|exact Hsub]. apply sublist_app; [done|].
      destruct Hcase as [-> | [failed ->]]; simpl;
        [apply sublist_nil_l | by rewrite app_nil_r].
  - exists d. split.
    + by destruct (isinstance e FileNotFoundError).
    + etrans; [|exact Hsub]. by apply sublist_inserts_r.
Qed.

Lemma for_rows_completes stream_name rows st :
  Forall (λ row, ∃ o, row_outcome row = Ok o) rows →
  ∃ st', for_rows BATCH_SIZE stream_name rows st = (st', Ok ()).
Proof.
  intros Hrows. revert st. induction Hrows as [|row rest [o Ho] _ IH]; intros st.
  - by exists st.
  - rewrite for_rows_cons, Ho. destruct o as [record|]; [|apply IH].
    cbv zeta. destruct (BATCH_SIZE <=? _); apply IH.
Qed.

(** X17. When Kinesis takes every batch and no row of the file makes the loop
    raise, the run delivers the record of every admitted row, once and in the
    order of the rows; the last, partial batch is flushed at the end of the
    input. *)
Theorem delivers_every_admitted_row file_path rows stream_name st :
  (∀ s name batch, ∃ failed, put_records s name batch = Ok failed) →
  Forall (λ row, ∃ o, row_outcome row = Ok o) rows →
  delivered (send_data_in_batches BATCH_SIZE file_path (Some rows) stream_name st)
  = delivered st ++ admitted_records rows.
Proof.
  intros Hup Hrows. unfold send_data_in_batches. cbv zeta.
  destruct (for_rows_completes stream_name rows
              (print [Text ("Sending data from '" +:+ file_path
                            +:+ "' to Kinesis stream '" +:+ stream_name +:+ "'...")]
                 {| records_batch := []; stream := stream st; log := log st |}) Hrows)
    as [st' Hrun].
  rewrite Hrun.
  apply (for_rows_keeps_all _ _ _ _ Hup) in Hrun. simpl in Hrun.
  unfold delivered in Hrun at 2. simpl in Hrun. fold (delivered st) in Hrun.
  destruct (bool_decide_reflect (records_batch st' = [])) as [Hnil | Hne]; simpl.
  - rewrite Hnil, app_nil_r in Hrun. done.
  - unfold _send_batch. destruct (Hup (stream st') stream_name (records_batch st'))
      as [failed ->].
    assert (∀ st0 : state,
              stream (if 0 <? failed
                      then print [Text ("WARNING: " +:+ pretty failed
                                        +:+ " records failed.")] st0
                      else st0) = stream st0) as Hstream
      by (intros st0; by destruct (0 <? failed)).
    unfold delivered at 1. simpl. rewrite Hstream. simpl.
    rewrite delivered_app_stream. simpl. by rewrite app_nil_r.
Qed.

Lemma same_data_print line st1 st2 :
  same_data st1 st2 → same_data (print line st1) (print line st2).
Proof. by intros [Hb Hs]. Qed.

Lemma same_data_print_l line st : same_data (print line st) st.
Proof. done. Qed.

Lemma same_data_send stream_name batch st1 st2 :
  same_data st1 st2 →
  same_data (_send_batch stream_name batch st1) (_send_batch stream_name batch st2).
Proof.
  intros [Hb Hs]. unfold _send_batch. rewrite Hs.
  destruct (put_records _ _ _) as [failed|e]; [|by split].
  destruct (0 <? failed); split; simpl; congruence.
Qed.

(** The log has no part in what the loop buffers, sends or raises. *)
Lemma for_rows_same_data stream_name rows st1 st2 :
  same_data st1 st2 →
  same_data (for_rows BATCH_SIZE stream_name rows st1).1
            (for_rows BATCH_SIZE stream_name rows st2).1
  ∧ (for_rows BATCH_SIZE stream_name rows st1).2
    = (for_rows BATCH_SIZE stream_name rows st2).2.
Proof.
  revert st1 st2. induction rows as [|row rest IH]; intros st1 st2 Hsame; [done|].
  rewrite !for_rows_cons.
  destruct (row_outcome row) as [[record|]|e]; [| |done].
  - cbv zeta. destruct Hsame as [Hb Hs]. rewrite Hb.
    destruct (BATCH_SIZE <=? _); apply IH.
    + split; [done|]. simpl.
      apply (same_data_send stream_name (records_batch st2 ++ [record])
               {| records_batch := records_batch st2 ++ [record];
                  stream := stream st1; log := log st1 |}
               {| records_batch := records_batch st2 ++ [record];
                  stream := stream st2; log := log st2 |}).
      by split.
    + by split.
  - apply IH. by apply same_data_print.
Qed.

(** X18. A row without a pickup_datetime key, or whose pickup_datetime is
    made of white space only, and whose trip_id stdout encodes, changes
    nothing but the log: the run buffers and delivers what the run on the file
    without that row does. *)
Theorem skipped_row_changes_the_log_only
  file_path rows1 (row : gmap string value) rows2 stream_name st :
  row !! "pickup_datetime" = None
  ∨ (∃ s, row !! "pickup_datetime" = Some (JStr s)
          ∧ forallb is_space (list_ascii_of_string s) = true) →
  trip_id_encodable row →
  same_data
    (send_data_in_batches BATCH_SIZE file_path (Some (rows1 ++ row :: rows2))
       stream_name st)
    (send_data_in_batches BATCH_SIZE file_path (Some (rows1 ++ rows2)) stream_name st).
Proof.
  intros Hblank Hid.
  assert (row_outcome row = Ok None) as Hskip.
  { unfold row_outcome. by rewrite lacks_pickup_datetime_blank, skip_line_prints. }
  unfold send_data_in_batches. cbv zeta.
  set (st0 := print _ {| records_batch := []; stream := stream st; log := log st |}).
  rewrite !for_rows_app.
  destruct (for_rows BATCH_SIZE stream_name rows1 st0) as [st1 [[]|e]]; [|done].
  rewrite for_rows_cons, Hskip.
  set (st1' := print _ st1).
  destruct (for_rows_same_data stream_name rows2 st1' st1 (same_data_print_l _ _))
    as [Hsame Hres].
  destruct (for_rows BATCH_SIZE stream_name rows2 st1') as [sta ra].
  destruct (for_rows BATCH_SIZE stream_name rows2 st1) as [stb rb].
  simpl in Hsame, Hres. subst rb.
  apply same_data_print. destruct ra as [[]|e].
  - destruct Hsame as [Hb Hs]. rewrite Hb.
    destruct (bool_decide (records_batch stb = [])); simpl; [by split|].
    apply same_data_send. by split.
  - destruct (isinstance e FileNotFoundError); by apply same_data_print.
Qed.

(** The exceptions a row can raise in the loop. *)
Lemma py_int_raises v e :
  py_int v = Raise e → e = ValueError ∨ e = TypeError ∨ e = OverflowError.
Proof.
  destruct v as [| | |f| | | |]; simpl; try (intros [= <-]; tauto).
  - unfold PyFloat.to_int. destruct (Prim2SF f); intros [= <-]; tauto.
  - case_match; intros [= <-]; tauto.
Qed.

Lemma py_strip_raises p v e : py_strip p v = Raise e → e = AttributeError.
Proof. destruct v; simpl; by intros [= <-]. Qed.

Lemma convert_numeric_raises cols (row : gmap string value) e :
  convert_numeric cols row = Raise e →
  e = ValueError ∨ e = TypeError ∨ e = OverflowError.
Proof.
  revert row. induction cols as [|col cols IH]; intros row; [done|]. simpl.
  destruct (py_float _) as [x|e'] eqn:Hx; simpl.
  - apply IH.
  - intros [= <-]. by eapply py_float_raises.
Qed.

Lemma row_outcome_raises (row : gmap string value) e :
  row_outcome row = Raise e →
  e ∈ [AttributeError; ValueError; TypeError; OverflowError; KeyError;
       UnicodeEncodeError].
Proof.
  assert (∀ e', e' = ValueError ∨ e' = TypeError ∨ e' = OverflowError →
                e' ∈ [AttributeError; ValueError; TypeError; OverflowError; KeyError;
                      UnicodeEncodeError])
    as Hnum.
  { intros e' [-> | [-> | ->]]; repeat constructor. }
  unfold row_outcome.
  destruct (lacks_pickup_datetime row) as [[]|e0] eqn:Hlacks.
  { destruct (Stdout.print _) as [[]|e1] eqn:Hprint; simpl; [done|].
    intros [= <-]. apply print_raises in Hprint as ->. repeat constructor. }
  2:{ intros [= <-]. unfold lacks_pickup_datetime in Hlacks.
      destruct (row !! "pickup_datetime") as [v|]; [|done].
      destruct (py_strip is_space v) as [stripped|e1] eqn:Hstrip; [done|].
      injection Hlacks as <-. apply py_strip_raises in Hstrip as ->. repeat constructor. }
  unfold prepare_record.
  repeat match goal with
  | |- context [convert_numeric ?c ?r] =>
      let Hc := fresh "Hc" in
      destruct (convert_numeric c r) as [?|?] eqn:Hc; simpl;
        [|intros [= <-]; by apply Hnum, (convert_numeric_raises _ _ _ Hc)]
  | |- context [py_int ?v ≫= _] =>
      let Hi := fresh "Hi" in
      destruct (py_int v) as [?|?] eqn:Hi; simpl;
        [|intros [= <-]; by apply Hnum, (py_int_raises _ _ Hi)]
  | |- context [py_float ?v ≫= _] =>
      let Hf := fresh "Hf" in
      destruct (py_float v) as [?|?] eqn:Hf; simpl;
        [|intros [= <-]; by apply Hnum, (py_float_raises _ _ Hf)]
  end.
  destruct (py_strip _ _) as [zone|e'] eqn:Hz; simpl.
  - unfold dict_item. destruct (_ !! "trip_id"); simpl; [done|].
    intros [= <-]. repeat constructor.
  - intros [= <-]. apply py_strip_raises in Hz as ->. repeat constructor.
Qed.

(** X19. A row that makes the loop raise ends the run there: the rows after
    it have no part in the result, the records still in the buffer are never
    sent, and the run ends with the "Unexpected error" line and the closing
    line. The rows before it are assumed not to raise. *)
Theorem failing_row_ends_the_run
  file_path rows1 (row : gmap string value) stream_name st e :
  Forall (λ row, ∃ o, row_outcome row = Ok o) rows1 →
  row_outcome row = Raise e →
  ∃ st1,
    for_rows BATCH_SIZE stream_name rows1
      (print [Text ("Sending data from '" +:+ file_path +:+ "' to Kinesis stream '"
                    +:+ stream_name +:+ "'...")]
         {| records_batch := []; stream := stream st; log := log st |})
    = (st1, Ok ())
    ∧ ∀ rows2,
        send_data_in_batches BATCH_SIZE file_path (Some (rows1 ++ row :: rows2))
          stream_name st
        = print [Text "Finished sending all data."]
            (print [Text "Unexpected error: "; StrOfExn e] st1).
Proof.
  intros Hrows Hrow.
  destruct (for_rows_completes stream_name rows1
              (print [Text ("Sending data from '" +:+ file_path
                            +:+ "' to Kinesis stream '" +:+ stream_name +:+ "'...")]
                 {| records_batch := []; stream := stream st; log := log st |}) Hrows)
    as [st1 Hrun].
  exists st1. split; [done|]. intros rows2.
  assert (isinstance e FileNotFoundError = false) as Hcls.
  { pose proof (row_outcome_raises _ _ Hrow) as Hin.
    repeat (apply elem_of_cons in Hin as [-> | Hin]; [reflexivity|]).
    by apply not_elem_of_nil in Hin. }
  unfold send_data_in_batches. cbv zeta.
  by rewrite for_rows_app, Hrun, for_rows_cons, Hrow, Hcls.
Qed.

(** The numeric columns after the conversion loop, and the other columns. *)
Lemma convert_numeric_columns cols (row row' : gmap string value) :
  NoDup cols →
  convert_numeric cols row = Ok row' →
  (∀ col, col ∈ cols →
     ∃ x, py_float (dict_get_default row col (JInt 0)) = Ok x
          ∧ row' !! col = Some (JFloat x))
  ∧ (∀ k, k ∉ cols → row' !! k = row !! k).
Proof.
  intros Hnd. revert row. induction Hnd as [|col cols Hnotin Hnd IH]; intros row.
  - intros [= <-]. split; [|done]. intros col Hcol. by apply not_elem_of_nil in Hcol.
  - simpl. intros Hconv. apply bind_Ok in Hconv as (x & Hx & Hconv).
    destruct (IH _ Hconv) as [Hcols Hother]. split.
    + intros c [-> | Hc]%elem_of_cons.
      * exists x. split; [done|]. by rewrite Hother, lookup_insert_eq.
      * destruct (Hcols c Hc) as (y & Hy & Hrow'). exists y. split; [|done].
        rewrite get_default_insert_ne in Hy; [done|]. by intros ->.
    + intros k Hk. apply not_elem_of_cons in Hk as [Hne Hk].
      by rewrite Hother, lookup_insert_ne.
Qed.

(** Closes a goal [name ∉ names] on two literals. *)
Ltac not_in_names :=
  let Hin := fresh "Hin" in
  intros Hin;
  repeat (apply elem_of_cons in Hin as [[=] | Hin]);
  by apply not_elem_of_nil in Hin.

Lemma numeric_columns_NoDup : NoDup numeric_columns.
Proof. unfold numeric_columns. repeat constructor; not_in_names. Qed.

(** X20. The Kinesis record of an admitted row: the partition key is the
    row's trip_id; each of the 7 numeric columns holds [float()] of the cell,
    0.0 when the column is absent; passenger_count holds [int()] of the cell,
    0 when absent; fare_amount, tip_amount, tolls_amount and total_amount hold
    [float()] of the cell, 0.0 when absent; extra_charges holds [float()] of
    the extra_charges cell, else of the extra cell, else 0.0; zone_name holds
    the cell without its leading and trailing double quotes (up to a
    surrogate, which is no quote), and the empty text when absent; every
    other column is sent as it was read. *)
Theorem prepare_record_columns (row : gmap string value) record :
  prepare_record row = Ok record →
  row !! "trip_id" = Some (PartitionKey record)
  ∧ (∀ col, col ∈ numeric_columns →
       ∃ x, py_float (dict_get_default row col (JInt 0)) = Ok x
            ∧ Data record !! col = Some (JFloat x))
  ∧ (∃ n, py_int (dict_get_default row "passenger_count" (JInt 0)) = Ok n
          ∧ Data record !! "passenger_count" = Some (JInt n))
  ∧ (∀ col, col ∈ ["fare_amount"; "tip_amount"; "tolls_amount"; "total_amount"] →
       ∃ x, py_float (dict_get_default row col (JInt 0)) = Ok x
            ∧ Data record !! col = Some (JFloat x))
  ∧ (∃ x, py_float (dict_get_default row "extra_charges"
                      (dict_get_default row "extra" (JInt 0))) = Ok x
          ∧ Data record !! "extra_charges" = Some (JFloat x))
  ∧ ((∃ s, dict_get_default row "zone_name" (JStr "") = JStr s
           ∧ Data record !! "zone_name" = Some (JStr (strip (Ascii.eqb "034") s)))
     ∨ (∃ before after,
          dict_get_default row "zone_name" (JStr "") = JSurrogate before after
          ∧ Data record !! "zone_name"
            = Some (JSurrogate (lstrip (Ascii.eqb "034") before)
                               (rstrip (Ascii.eqb "034") after))))
  ∧ (∀ k, k ∉ numeric_columns ++ other_coerced_columns →
          Data record !! k = row !! k).
Proof.
  unfold prepare_record. intros Hprep.
  apply bind_Ok in Hprep as (row1 & Hconv & Hprep).
  destruct (convert_numeric_columns _ _ _ numeric_columns_NoDup Hconv)
    as [Hnum Hother].
  assert (∀ k dflt, k ∉ numeric_columns →
                    dict_get_default row1 k dflt = dict_get_default row k dflt) as Hget.
  { intros k dflt Hk. unfold dict_get_default. by rewrite Hother. }
  cbv zeta in Hprep.
  apply bind_Ok in Hprep as (pc & Hpc & Hprep).
  apply bind_Ok in Hprep as (fare & Hfare & Hprep).
  apply bind_Ok in Hprep as (extra & Hextra & Hprep).
  apply bind_Ok in Hprep as (tip & Htip & Hprep).
  apply bind_Ok in Hprep as (tolls & Htolls & Hprep).
  apply bind_Ok in Hprep as (total & Htotal & Hprep).
  apply bind_Ok in Hprep as (zone & Hzone & Hprep).
  apply bind_Ok in Hprep as (trip_id & Htrip & [= <-]).
  repeat match goal with
  | Hread : context [dict_get_default (<[_ := _]> _) _ _] |- _ =>
      rewrite get_default_insert_ne in Hread by done
  | Hread : context [dict_get_default row1 _ _] |- _ =>
      rewrite Hget in Hread by (unfold numeric_columns; not_in_names)
  end.
  unfold dict_item in Htrip. rewrite !lookup_insert_ne in Htrip by done.
  rewrite Hother in Htrip by (unfold numeric_columns; not_in_names).
  simpl. split_and!.
  - by destruct (row !! "trip_id") as [v|]; simplify_eq.
  - intros col Hcol. destruct (Hnum col Hcol) as (x & Hx & Hrow1).
    exists x. split; [done|].
    rewrite !lookup_insert_ne; [done|..]; intros <-;
      revert Hcol; unfold numeric_columns; not_in_names.
  - exists pc. split; [done|]. rewrite !lookup_insert_ne by done. apply lookup_insert_eq.
  - intros col Hcol.
    repeat (apply elem_of_cons in Hcol as [-> | Hcol];
            [eexists; split; [eassumption|];
             rewrite ?lookup_insert_ne by done; apply lookup_insert_eq|]).
    by apply not_elem_of_nil in Hcol.
  - exists extra. split; [done|]. rewrite !lookup_insert_ne by done. apply lookup_insert_eq.
  - unfold py_strip in Hzone.
    destruct (dict_get_default row "zone_name" (JStr "")) as [| | | |s|before after| |];
      simplify_eq.
    + left. exists s. split; [done|]. by rewrite lookup_insert_eq.
    + right. exists before, after. split; [done|]. by rewrite lookup_insert_eq.
  - intros k Hk.
    change (k ∉ numeric_columns ++ other_coerced_columns) in Hk.
    apply not_elem_of_app in Hk as [Hk1 Hk2].
    unfold other_coerced_columns in Hk2.
    rewrite !lookup_insert_ne by (intros <-; apply Hk2; repeat constructor).
    by apply Hother.
Qed.

End ProducerRun.

(** * The further properties at the sample inputs *)

Section StoreFurtherExamples.
#[local] Existing Instance CPython.builtins.
#[local] Existing Instance Samples.sinks_up.
Import ProcessAndStore.

(** Closes [present trip field] and the like on a sample record. *)
Ltac sample_fields Hin :=
  repeat (apply elem_of_cons in Hin as [-> | Hin];
          [repeat eexists; first [reflexivity | discriminate]|]);
  by apply not_elem_of_nil in Hin.

Lemma numeric_gate_names_first_bad_field_witness :
  Samples.trip_with_bad_drop_lat !! "drop_lat" = Some (JStr "north")
  ∧ py_float (JStr "north") = Raise ValueError
  ∧ validate_trip_data Samples.trip_with_bad_drop_lat
    = Ok (false, [Text ("Invalid numeric value for " +:+ "drop_lat" +:+ ": ");
                  StrOf (JStr "north")]).
Proof.
  assert (Samples.trip_with_bad_drop_lat !! "drop_lat" = Some (JStr "north")) as Hv
    by reflexivity.
  assert (py_float (JStr "north") = Raise ValueError) as He by reflexivity.
  split; [exact Hv|]. split; [exact He|].
  apply (numeric_gate_names_first_bad_field Samples.trip_with_bad_drop_lat
           ["pickup_lat"; "pickup_long"] "drop_lat" ["drop_long"; "distance_km"]
           (JStr "north") ValueError).
  - intros f Hf. unfold required_fields in Hf. sample_fields Hf.
  - reflexivity.
  - intros f Hf. sample_fields Hf.
  - exact Hv.
  - exact He.
  - left. reflexivity.
Defined.

Lemma validation_accepts_iff_witness :
  validate_trip_data Samples.trip = Ok (true, [Text "Valid"])
  ∧ ∀ f, f ∈ numeric_fields →
         ∃ v x, Samples.trip !! f = Some v ∧ py_float v = Ok x.
Proof.
  assert (validate_trip_data Samples.trip = Ok (true, [Text "Valid"])) as Hval
    by (vm_compute; reflexivity).
  split; [exact Hval|].
  destruct (validation_accepts_iff Samples.trip [Text "Valid"]) as [Hthen _].
  destruct (Hthen Hval) as (_ & _ & Hnum). exact Hnum.
Defined.

Lemma validation_lets_overflow_through_witness :
  trip_id_prints (Ok (JObj Samples.trip_with_huge_pickup_long))
  ∧ Samples.trip_with_huge_pickup_long !! "pickup_long" = Some (JInt (2 ^ 1024))
  ∧ PyFloat.of_int (2 ^ 1024) = Raise OverflowError
  ∧ validate_trip_data Samples.trip_with_huge_pickup_long = Raise OverflowError
  ∧ process_record Samples.empty_store (Ok (JObj Samples.trip_with_huge_pickup_long))
    = (Samples.empty_store, Raise OverflowError).
Proof.
  assert (trip_id_prints (Ok (JObj Samples.trip_with_huge_pickup_long))) as Hid
    by reflexivity.
  assert (Samples.trip_with_huge_pickup_long !! "pickup_long" = Some (JInt (2 ^ 1024)))
    as Hv by reflexivity.
  assert (PyFloat.of_int (2 ^ 1024) = Raise OverflowError) as Hz
    by (vm_compute; reflexivity).
  split; [exact Hid|]. split; [exact Hv|]. split; [exact Hz|].
  destruct (validation_lets_overflow_through Samples.trip_with_huge_pickup_long
              ["pickup_lat"] "pickup_long" ["drop_lat"; "drop_long"; "distance_km"]
              (2 ^ 1024) Samples.empty_store [] 0%nat 0%nat Hid)
    as (Hval & Hrun & _).
  - intros f Hf. unfold required_fields in Hf. sample_fields Hf.
  - reflexivity.
  - intros f Hf. sample_fields Hf.
  - exact Hv.
  - exact Hz.
  - split; [exact Hval | exact Hrun].
Defined.

Lemma calculate_fare_raises_iff_witness :
  py_float (JInt 10) ≠ Raise OverflowError
  ∧ calculate_fare (JInt 10) (JInt 5) = Raise TypeError.
Proof.
  assert (py_float (JInt 10) ≠ Raise OverflowError) as Hov.
  { intros Hx. vm_compute in Hx. discriminate Hx. }
  split; [exact Hov|].
  apply (calculate_fare_raises_iff (JInt 10) (JInt 5) TypeError).
  right. split; [exact Hov|]. split; [reflexivity|].
  right. left. exists 5. split; [reflexivity | discriminate].
Defined.

Lemma analytics_copy_fields_witness :
  Samples.trip !! "pickup_latitude" = None
  ∧ firehose_data Samples.trip !! "pickup_latitude" = Some (JFloat 12.5)
  ∧ firehose_data Samples.trip !! "trip_id" = Some (JStr "T1").
Proof.
  assert (Samples.trip !! "pickup_latitude" = None) as Hnone by reflexivity.
  destruct (analytics_copy_fields Samples.trip) as (Hkeep & _ & Halias & _).
  split; [exact Hnone|]. split.
  - apply (Halias "pickup_latitude" "pickup_lat"); [left | exact Hnone].
  - apply Hkeep. reflexivity.
Defined.

Lemma both_sinks_same_record_witness :
  ∃ w' item doc,
    process_record Samples.empty_store (Ok (JObj Samples.trip)) = (w', Ok Stored)
    ∧ table w' = [item]
    ∧ delivery_stream w' = [doc]
    ∧ doc !! "trip_id" = Some (item_trip_id item).
Proof.
  assert (∃ w', process_record Samples.empty_store (Ok (JObj Samples.trip))
                = (w', Ok Stored)) as [w' Hrun] by (vm_compute; eauto).
  destruct (both_sinks_same_record _ _ _ Hrun)
    as (item & doc & fare & total & Htab & Hdel & _ & _ & _ & _ & _ & Hid).
  exists w', item, doc. split; [exact Hrun|]. split; [exact Htab|].
  split; [exact Hdel | exact Hid].
Defined.

Lemma processed_is_documents_delivered_witness :
  let records := [Ok (JObj Samples.trip); Raise JSONDecodeError] in
  configured Samples.store_env
  ∧ Forall trip_id_prints records
  ∧ ∃ w' text processed failed,
      lambda_handler Samples.store_env Samples.empty_store records
      = (w', Ok {| statusCode := 200; body := SummaryBody text processed failed 2 |})
      ∧ length (delivery_stream w') = processed.
Proof.
  intros records.
  assert (configured Samples.store_env) as Hcfg by (split; reflexivity).
  assert (Forall trip_id_prints records) as Hids by (repeat constructor).
  split; [exact Hcfg|]. split; [exact Hids|].
  destruct (processed_is_documents_delivered Samples.store_env Samples.empty_store
              records Hcfg Hids)
    as (w' & text & processed & failed & items & docs & Hrun & _ & Hdel & Hlen & _).
  exists w', text, processed, failed. split; [exact Hrun|].
  rewrite Hdel. exact Hlen.
Defined.

Lemma unwritten_record_is_invisible_witness :
  configured Samples.store_env
  ∧ prepare (Raise JSONDecodeError) = Raise JSONDecodeError
  ∧ ∃ w' text processed failed,
      lambda_handler Samples.store_env Samples.empty_store
        [Ok (JObj Samples.trip); Ok (JObj Samples.trip)]
      = (w', Ok {| statusCode := 200; body := SummaryBody text processed failed 2 |})
      ∧ lambda_handler Samples.store_env Samples.empty_store
          [Ok (JObj Samples.trip); Raise JSONDecodeError; Ok (JObj Samples.trip)]
        = (w', Ok {| statusCode := 200;
                     body := SummaryBody text processed (S failed) 3 |}).
Proof.
  assert (configured Samples.store_env) as Hcfg by (split; reflexivity).
  split; [exact Hcfg|]. split; [reflexivity|].
  destruct (unwritten_record_is_invisible Samples.store_env Samples.empty_store
              [Ok (JObj Samples.trip)] (Raise JSONDecodeError)
              [Ok (JObj Samples.trip)] Hcfg)
    as (w' & text & processed & failed & Hwithout & Hwith).
  - repeat constructor.
  - intros td item Hprep. discriminate Hprep.
  - exists w', text, processed, failed. split; [exact Hwithout | exact Hwith].
Defined.

Lemma batches_compose_witness :
  configured Samples.store_env
  ∧ Forall trip_id_prints [Ok (JObj Samples.trip)]
  ∧ Forall trip_id_prints [Ok (JObj Samples.trip_without_drop_lat)]
  ∧ ∃ w2 text processed failed,
      lambda_handler Samples.store_env Samples.empty_store
        ([Ok (JObj Samples.trip)] ++ [Ok (JObj Samples.trip_without_drop_lat)])
      = (w2, Ok {| statusCode := 200; body := SummaryBody text processed failed 2 |}).
Proof.
  assert (configured Samples.store_env) as Hcfg by (split; reflexivity).
  assert (Forall trip_id_prints [Ok (JObj Samples.trip)]) as Hids1
    by (repeat constructor).
  assert (Forall trip_id_prints [Ok (JObj Samples.trip_without_drop_lat)]) as Hids2
    by (repeat constructor).
  split; [exact Hcfg|]. split; [exact Hids1|]. split; [exact Hids2|].
  destruct (batches_compose Samples.store_env Samples.empty_store
              [Ok (JObj Samples.trip)] [Ok (JObj Samples.trip_without_drop_lat)]
              Hcfg Hids1 Hids2)
    as (w1 & w2 & text1 & text2 & text & p1 & f1 & p2 & f2 & _ & _ & Hrun).
  exists w2, text, (p1 + p2)%nat, (f1 + f2)%nat. exact Hrun.
Defined.

Lemma floats_to_decimal_paths_witness :
  lookup_path ["trip"; "tip"] (JObj Samples.nested_dict) = Some (JFloat 2.5)
  ∧ converted_path ["trip"; "tip"] (Nested (floats_to_decimal Samples.nested_dict))
    = Some (Converted (DecimalOf (JFloat 2.5)))
  ∧ converted_path ["stops"] (Nested (floats_to_decimal Samples.nested_dict))
    = Some (Kept (JArr [JFloat 0.5])).
Proof.
  assert (lookup_path ["trip"; "tip"] (JObj Samples.nested_dict) = Some (JFloat 2.5))
    as Htip by reflexivity.
  split; [exact Htip|]. split.
  - destruct (floats_to_decimal_paths Samples.nested_dict ["trip"; "tip"])
      as (_ & Hfloat & _).
    exact (Hfloat _ Htip).
  - destruct (floats_to_decimal_paths Samples.nested_dict ["stops"])
      as (_ & _ & Hlist & _).
    apply Hlist. reflexivity.
Defined.

Lemma unprintable_trip_id_ends_the_batch_witness :
  configured Samples.store_env
  ∧ Forall trip_id_prints [Ok (JObj Samples.trip)]
  ∧ ¬ trip_id_prints (Ok (JObj Samples.trip_with_surrogate_id))
  ∧ ∃ w1 answer,
      lambda_handler Samples.store_env Samples.empty_store [Ok (JObj Samples.trip)]
      = (w1, Ok answer)
      ∧ lambda_handler Samples.store_env Samples.empty_store
          ([Ok (JObj Samples.trip)]
           ++ Ok (JObj Samples.trip_with_surrogate_id) :: [Ok (JObj Samples.trip)])
        = (w1, Raise UnicodeEncodeError).
Proof.
  assert (configured Samples.store_env) as Hcfg by (split; reflexivity).
  assert (Forall trip_id_prints [Ok (JObj Samples.trip)]) as Hids
    by (repeat constructor).
  assert (¬ trip_id_prints (Ok (JObj Samples.trip_with_surrogate_id))) as Hid.
  { intros Hx. vm_compute in Hx. discriminate Hx. }
  split; [exact Hcfg|]. split; [exact Hids|]. split; [exact Hid|].
  destruct (unprintable_trip_id_ends_the_batch Samples.store_env Samples.empty_store
              [Ok (JObj Samples.trip)] Samples.trip_with_surrogate_id
              [Ok (JObj Samples.trip)] Hcfg Hids Hid)
    as (w1 & answer & Hbefore & _ & Hrun).
  exists w1, answer. split; [exact Hbefore | exact Hrun].
Defined.

End StoreFurtherExamples.

Section EnrichmentFurtherExamples.
#[local] Existing Instance CPython.builtins.
#[local] Existing Instance Samples.one_place.
Import EnrichTripData.

Lemma enrichment_sets_zone_name_witness :
  trip_id_encodable Samples.stream_trip
  ∧ Samples.stream_trip !! "longitude" = Some (JFloat 10)
  ∧ Samples.stream_trip !! "latitude" = Some (JFloat 20)
  ∧ process_record Samples.enrich_env Samples.quiet (Ok (JObj Samples.stream_trip))
    = ({| place_queries := [{| IndexName := "places"; Position := [10%float; 20%float];
                               MaxResults := 1 |}];
          queue := [("https://sqs/trips",
                     <["zone_name" := JStr "Downtown Plaza"]> Samples.stream_trip)] |},
       Ok ()).
Proof.
  assert (trip_id_encodable Samples.stream_trip) as Hid by reflexivity.
  assert (Samples.stream_trip !! "longitude" = Some (JFloat 10)) as Hlon by reflexivity.
  assert (Samples.stream_trip !! "latitude" = Some (JFloat 20)) as Hlat by reflexivity.
  split; [exact Hid|]. split; [exact Hlon|]. split; [exact Hlat|].
  destruct (enrichment_sets_zone_name Samples.enrich_env Samples.quiet
              Samples.stream_trip _ _ 10%float 20%float ["Downtown Plaza"]
              Hid Hlon eq_refl Hlat eq_refl) as [Hrun _]; [reflexivity | reflexivity|].
  exact Hrun.
Defined.

Lemma skipped_message_is_invisible_witness :
  let records := [Ok (JObj Samples.stream_trip)] in
  let record := Ok (JObj Samples.stream_trip_with_surrogate_id) in
  coordinates record = Raise UnicodeEncodeError
  ∧ (lambda_handler Samples.enrich_env Samples.quiet (records ++ record :: [])).1
    = (lambda_handler Samples.enrich_env Samples.quiet (records ++ [])).1.
Proof.
  intros records record.
  assert (coordinates record = Raise UnicodeEncodeError) as Hc
    by (vm_compute; reflexivity).
  split; [exact Hc|].
  destruct (skipped_message_is_invisible Samples.enrich_env Samples.quiet
              records record [] UnicodeEncodeError eq_refl eq_refl Hc) as [Hworld _].
  exact Hworld.
Defined.

Lemma unprintable_trip_id_is_not_enriched_witness :
  ¬ trip_id_encodable Samples.stream_trip_with_surrogate_id
  ∧ process_record Samples.enrich_env Samples.quiet
      (Ok (JObj Samples.stream_trip_with_surrogate_id))
    = (Samples.quiet, Raise UnicodeEncodeError).
Proof.
  assert (¬ trip_id_encodable Samples.stream_trip_with_surrogate_id) as Hid.
  { intros Hx. vm_compute in Hx. discriminate Hx. }
  split; [exact Hid|].
  destruct (unprintable_trip_id_is_not_enriched Samples.enrich_env Samples.quiet
              Samples.stream_trip_with_surrogate_id [] Hid) as [Hrun _].
  exact Hrun.
Defined.

End EnrichmentFurtherExamples.

Section ProducerFurtherExamples.
#[local] Existing Instance CPython.builtins.
#[local] Existing Instance Samples.kinesis_up.
Import Producer.

Lemma delivers_every_admitted_row_witness :
  let rows := [Samples.row_without_pickup_datetime; Samples.full_row] in
  Forall (λ row, ∃ o, row_outcome row = Ok o) rows
  ∧ delivered (send_data_in_batches 100 "taxi_trips_1000.csv" (Some rows)
                 "taxi-trip-stream" Samples.fresh_run)
    = delivered Samples.fresh_run ++ admitted_records rows.
Proof.
  intros rows.
  assert (Forall (λ row, ∃ o, row_outcome row = Ok o) rows) as Hrows.
  { repeat constructor; eexists; vm_compute; reflexivity. }
  split; [exact Hrows|].
  apply delivers_every_admitted_row; [|exact Hrows].
  intros s name batch. exists 0. reflexivity.
Defined.

Lemma skipped_row_changes_the_log_only_witness :
  Samples.row_without_pickup_datetime !! "pickup_datetime" = None
  ∧ trip_id_encodable Samples.row_without_pickup_datetime
  ∧ same_data
      (send_data_in_batches 100 "taxi_trips_1000.csv"
         (Some ([] ++ Samples.row_without_pickup_datetime :: [Samples.full_row]))
         "taxi-trip-stream" Samples.fresh_run)
      (send_data_in_batches 100 "taxi_trips_1000.csv"
         (Some ([] ++ [Samples.full_row])) "taxi-trip-stream" Samples.fresh_run).
Proof.
  assert (Samples.row_without_pickup_datetime !! "pickup_datetime" = None) as Hnone
    by reflexivity.
  assert (trip_id_encodable Samples.row_without_pickup_datetime) as Hid by reflexivity.
  split; [exact Hnone|]. split; [exact Hid|].
  apply skipped_row_changes_the_log_only; [left; exact Hnone | exact Hid].
Defined.

Lemma failing_row_ends_the_run_witness :
  Forall (λ row, ∃ o, row_outcome row = Ok o) [Samples.full_row]
  ∧ row_outcome Samples.short_row = Raise AttributeError
  ∧ ∃ st1,
      send_data_in_batches 100 "taxi_trips_1000.csv"
        (Some ([Samples.full_row] ++ Samples.short_row :: [Samples.full_row]))
        "taxi-trip-stream" Samples.fresh_run
      = print [Text "Finished sending all data."]
          (print [Text "Unexpected error: "; StrOfExn AttributeError] st1).
Proof.
  assert (Forall (λ row, ∃ o, row_outcome row = Ok o) [Samples.full_row]) as Hrows.
  { repeat constructor; eexists; vm_compute; reflexivity. }
  assert (row_outcome Samples.short_row = Raise AttributeError) as Hrow
    by (vm_compute; reflexivity).
  split; [exact Hrows|]. split; [exact Hrow|].
  destruct (failing_row_ends_the_run 100 "taxi_trips_1000.csv" [Samples.full_row]
              Samples.short_row "taxi-trip-stream" Samples.fresh_run AttributeError
              Hrows Hrow) as (st1 & _ & Hrun).
  exists st1. exact (Hrun [Samples.full_row]).
Defined.

Lemma prepare_record_columns_witness :
  ∃ record,
    prepare_record Samples.full_row = Ok record
    ∧ Samples.full_row !! "trip_id" = Some (PartitionKey record)
    ∧ ∃ x, py_float (dict_get_default Samples.full_row "distance_km" (JInt 0)) = Ok x
           ∧ Data record !! "distance_km" = Some (JFloat x).
Proof.
  assert (∃ record, prepare_record Samples.full_row = Ok record) as [record Hprep]
    by (vm_compute; eauto).
  destruct (prepare_record_columns _ _ Hprep) as (Hkey & Hnum & _).
  exists record. split; [exact Hprep|]. split; [exact Hkey|].
  apply Hnum. unfold numeric_columns. do 6 right. left.
Defined.

End ProducerFurtherExamples.
